(** * Aegis: schema validation of deal memos

    A shallow embedding of [server/src/validation/pydantic_schemas.py]: the
    entity classes with their field constraints and cross-field validators,
    the validation facade ([validate_deal_memo], [validate_company_profile],
    [validate_investment_metrics], [get_validation_errors]) and the weighting
    normaliser ([normalize_weightings]).

    Data. Python [float] is IEEE 754 binary64 and is Rocq's primitive
    [float]; [int] is [Z]; [str] is [string], one character each; a [dict]
    is an association list, in insertion order. Exceptions are explicit: a
    call that may raise returns a [result].

    Classes. The classes of the source are pydantic models. What the source
    declares (fields, defaults, [Field] constraints, validators) is embedded
    as declared, and a construction [Cls( **data )] proceeds as pydantic
    does:
    - the fields are validated in the order of declaration, those of the
      parent class first, and the errors of all fields are collected;
    - an absent field takes its default, which is not validated, and is an
      error when it has none; keys that name no field are ignored;
    - a [field_validator] runs on the value of a field that is valid so far,
      and a [model_validator(mode='after')] runs once every field is valid;
    - a [ValueError] raised by a validator is one more error, with the
      message "Value error, " followed by the text of the exception;
    - when there is an error, one [ValidationError] carrying all of them is
      raised. *)

From Stdlib Require Import ZArith List String Ascii Bool Floats DecimalString.
From Stdlib Require Import QArith Qcanon Lia.
Import ListNotations.

Set Warnings "-register-all,-inexact-float".

Local Open Scope list_scope.
Local Open Scope string_scope.

(** ** Python values *)

(** [uuid.UUID]: a 128-bit number. *)
Definition UUID := N.

(** [datetime.datetime] (naive). *)
Record datetime := {
  year : Z; month : Z; day : Z;
  hour : Z; minute : Z; second : Z; microsecond : Z
}.

(** [a < b] on naive datetimes: the order of the fields, from the year
    down. *)
Fixpoint lex_ltb (a b : list Z) : bool :=
  match a, b with
  | x :: a', y :: b' => (x <? y)%Z || ((x =? y)%Z && lex_ltb a' b')
  | _, _ => false
  end.

Definition datetime_ltb (a b : datetime) : bool :=
  lex_ltb [year a; month a; day a; hour a; minute a; second a; microsecond a]
          [year b; month b; day b; hour b; minute b; second b; microsecond b].

(** A validated [pydantic.HttpUrl], by its text. *)
Record Url := { href : string }.

(** The values a raw document is made of ([Dict[str, Any]] and below). A
    member of one of the [str]-valued [Enum] classes is the [PyStr] of its
    value. *)
Inductive Any :=
| PyNone
| PyBool (b : bool)
| PyInt (z : Z)
| PyFloat (f : float)
| PyStr (s : string)
| PyUUID (u : UUID)
| PyDatetime (t : datetime)
| PyUrl (u : Url)
| PyList (l : list Any)
| PyDict (d : list (string * Any)).

(** The keyword arguments of [Cls( **data )]. *)
Definition kwargs := list (string * Any).

Fixpoint get (k : string) (d : kwargs) : option Any :=
  match d with
  | [] => None
  | (k', v) :: d' => if String.eqb k k' then Some v else get k d'
  end.

(** [int] to [float], correctly rounded. *)
Definition float_of_Z (z : Z) : float :=
  SF2Prim (binary_normalize prec emax z 0 false).
Arguments float_of_Z : simpl never.

Definition str_of_Z (z : Z) : string := NilZero.string_of_int (Z.to_int z).

(** [sub in s] on strings. *)
Fixpoint contains (sub s : string) : bool :=
  if String.prefix sub s then true
  else match s with
       | EmptyString => false
       | String _ s' => contains sub s'
       end.

(** ** Exceptions *)

Inductive LocItem := Key (s : string) | Index (i : nat).

(** One entry of [ValidationError.errors()]: the keys [type], [loc], [msg]
    and [input] ([ctx] and [url] are left out). *)
Record ErrorDetails := {
  type_ : string;
  loc : list LocItem;
  msg : string;
  input : Any
}.

(** The exceptions of the program: pydantic's [ValidationError], which always
    carries at least one error, and the built-in [ValueError] and
    [TypeError]. *)
Inductive exn :=
| ValidationError (title : string) (e : ErrorDetails) (es : list ErrorDetails)
| ValueError (m : string)
| TypeError (m : string).

Inductive result (A : Type) :=
| Ok (a : A)
| Raise (e : exn).
Arguments Ok {A} a.
Arguments Raise {A} e.

Definition is_ok {A} (r : result A) : bool :=
  match r with
  | Ok _ => true
  | Raise _ => false
  end.

(** What a validator function of the source does: it returns a value or
    raises [ValueError(m)]. *)
Inductive checked (A : Type) :=
| Return (a : A)
| RaiseValueError (m : string).
Arguments Return {A} a.
Arguments RaiseValueError {A} m.

(** ** What the Python runtime and pydantic supply

    The parts of the libraries that the source relies on and does not
    define: the text of a float in an f-string, the lax-mode conversion of
    an input that is not already of the declared type (a numeric string for
    a number, a string for a UUID or a datetime, ...), the validation of
    URLs, with the type and the message of the error of a refused input (for
    a text with no scheme: [url_parsing], "Input should be a valid URL,
    relative URL without a base"), and the text of a [ValidationError], of
    which one property is used: it shows the message of each of its
    errors. *)
Class Runtime := {
  float_repr : float -> string;
  lax_float : Any -> option float;
  lax_int : Any -> option Z;
  lax_bool : Any -> option bool;
  lax_uuid : Any -> option UUID;
  lax_datetime : Any -> option datetime;
  http_url : Any -> option Url;
  url_refusal : Any -> string * string;
  display : string -> ErrorDetails -> list ErrorDetails -> string;
  display_embeds : forall title e es x, In x (e :: es) ->
    exists pre post, display title e es = pre ++ msg x ++ post
}.

(** [str(e)] *)
Definition str_exn `{Runtime} (e : exn) : string :=
  match e with
  | ValidationError title e es => display title e es
  | ValueError m => m
  | TypeError m => m
  end.

(** [hasattr(e, 'errors')] *)
Definition has_errors (e : exn) : bool :=
  match e with
  | ValidationError _ _ _ => true
  | _ => false
  end.

(** ** Validation that collects every error *)

Inductive V (A : Type) :=
| Valid (a : A)
| Invalid (e : ErrorDetails) (es : list ErrorDetails).
Arguments Valid {A} a.
Arguments Invalid {A} e es.

Definition vmap {A B} (f : A -> B) (x : V A) : V B :=
  match x with
  | Valid a => Valid (f a)
  | Invalid e es => Invalid e es
  end.

Definition vap {A B} (f : V (A -> B)) (x : V A) : V B :=
  match f, x with
  | Valid g, Valid a => Valid (g a)
  | Valid _, Invalid e es => Invalid e es
  | Invalid e es, Valid _ => Invalid e es
  | Invalid e es, Invalid e' es' => Invalid e (es ++ e' :: es')%list
  end.

Definition and_then {A B} (x : V A) (f : A -> V B) : V B :=
  match x with
  | Valid a => f a
  | Invalid e es => Invalid e es
  end.

Notation "f <$> x" := (vmap f x) (at level 61, left associativity).
Notation "f <*> x" := (vap f x) (at level 61, left associativity).

Definition under (i : LocItem) (e : ErrorDetails) : ErrorDetails :=
  {| type_ := type_ e; loc := i :: loc e; msg := msg e; input := input e |}.

Definition at_loc {A} (i : LocItem) (x : V A) : V A :=
  match x with
  | Valid a => Valid a
  | Invalid e es => Invalid (under i e) (map (under i) es)
  end.

Definition fail {A} (t m : string) (v : Any) : V A :=
  Invalid {| type_ := t; loc := []; msg := m; input := v |} [].

(** A [ValueError] raised by a validator becomes a [value_error] entry. *)
Definition run_validator {A} (v : Any) (r : checked A) : V A :=
  match r with
  | Return a => Valid a
  | RaiseValueError m => fail "value_error" ("Value error, " ++ m) v
  end.

(** [Cls( **data )]: the collected errors are raised as one
    [ValidationError]. *)
Definition raise_errors {A} (title : string) (x : V A) : result A :=
  match x with
  | Valid a => Ok a
  | Invalid e es => Raise (ValidationError title e es)
  end.

(** ** Field types and [Field(...)] constraints *)

Inductive constraint :=
| ge (b : Z)
| le (b : Z)
| min_length (n : nat)
| max_length (n : nat).

Definition plural (n : nat) (word : string) : string :=
  str_of_Z (Z.of_nat n) ++ " " ++ word ++ (if Nat.eqb n 1 then "" else "s").

(** ['a', 'b' or 'c'] *)
Fixpoint one_of (values : list string) : string :=
  match values with
  | [] => ""
  | [v] => "'" ++ v ++ "'"
  | [v; w] => "'" ++ v ++ "' or '" ++ w ++ "'"
  | v :: rest => "'" ++ v ++ "', " ++ one_of rest
  end.

Section FieldTypes.
Context `{Runtime}.

(** The bounds of a number are checked in pydantic's order, every [le]
    before any [ge], and the first that fails is the error of the field. A
    bound holds when the comparison is true, so NaN satisfies none. *)
Fixpoint check_float_le (cs : list constraint) (v : Any) (x : float) : V float :=
  match cs with
  | [] => Valid x
  | le b :: cs' =>
      if (x <=? float_of_Z b)%float then check_float_le cs' v x
      else fail "less_than_equal"
             ("Input should be less than or equal to " ++ str_of_Z b) v
  | _ :: cs' => check_float_le cs' v x
  end.

Fixpoint check_float_ge (cs : list constraint) (v : Any) (x : float) : V float :=
  match cs with
  | [] => Valid x
  | ge b :: cs' =>
      if (float_of_Z b <=? x)%float then check_float_ge cs' v x
      else fail "greater_than_equal"
             ("Input should be greater than or equal to " ++ str_of_Z b) v
  | _ :: cs' => check_float_ge cs' v x
  end.

Definition check_float (cs : list constraint) (v : Any) (x : float) : V float :=
  and_then (check_float_le cs v x) (check_float_ge cs v).

Fixpoint check_int_le (cs : list constraint) (v : Any) (x : Z) : V Z :=
  match cs with
  | [] => Valid x
  | le b :: cs' =>
      if (x <=? b)%Z then check_int_le cs' v x
      else fail "less_than_equal"
             ("Input should be less than or equal to " ++ str_of_Z b) v
  | _ :: cs' => check_int_le cs' v x
  end.

Fixpoint check_int_ge (cs : list constraint) (v : Any) (x : Z) : V Z :=
  match cs with
  | [] => Valid x
  | ge b :: cs' =>
      if (b <=? x)%Z then check_int_ge cs' v x
      else fail "greater_than_equal"
             ("Input should be greater than or equal to " ++ str_of_Z b) v
  | _ :: cs' => check_int_ge cs' v x
  end.

Definition check_int (cs : list constraint) (v : Any) (x : Z) : V Z :=
  and_then (check_int_le cs v x) (check_int_ge cs v).

Fixpoint check_str (cs : list constraint) (v : Any) (x : string) : V string :=
  match cs with
  | [] => Valid x
  | min_length n :: cs' =>
      if (n <=? String.length x)%nat then check_str cs' v x
      else fail "string_too_short"
             ("String should have at least " ++ plural n "character") v
  | max_length n :: cs' =>
      if (String.length x <=? n)%nat then check_str cs' v x
      else fail "string_too_long"
             ("String should have at most " ++ plural n "character") v
  | _ :: cs' => check_str cs' v x
  end.

Fixpoint check_list {A} (cs : list constraint) (v : Any) (x : list A)
  : V (list A) :=
  match cs with
  | [] => Valid x
  | min_length n :: cs' =>
      if (n <=? List.length x)%nat then check_list cs' v x
      else fail "too_short"
             ("List should have at least " ++ plural n "item"
              ++ " after validation, not " ++ str_of_Z (Z.of_nat (List.length x))) v
  | max_length n :: cs' =>
      if (List.length x <=? n)%nat then check_list cs' v x
      else fail "too_long"
             ("List should have at most " ++ plural n "item"
              ++ " after validation, not " ++ str_of_Z (Z.of_nat (List.length x))) v
  | _ :: cs' => check_list cs' v x
  end.

(** [float], with [Field] constraints. An [int] is converted, unless it is
    too large for a float ([OverflowError]); a string that is not the text of
    a number is reported as such. *)
Definition Float (cs : list constraint) (v : Any) : V float :=
  match v with
  | PyFloat f => check_float cs v f
  | PyInt z =>
      if is_infinity (float_of_Z z)
      then fail "float_type" "Input should be a valid number" v
      else check_float cs v (float_of_Z z)
  | PyStr _ =>
      match lax_float v with
      | Some f => check_float cs v f
      | None => fail "float_parsing"
                  "Input should be a valid number, unable to parse string as a number" v
      end
  | _ => match lax_float v with
         | Some f => check_float cs v f
         | None => fail "float_type" "Input should be a valid number" v
         end
  end.

Definition Int (cs : list constraint) (v : Any) : V Z :=
  match v with
  | PyInt z => check_int cs v z
  | _ => match lax_int v with
         | Some z => check_int cs v z
         | None => fail "int_type" "Input should be a valid integer" v
         end
  end.

Definition Str (cs : list constraint) (v : Any) : V string :=
  match v with
  | PyStr s => check_str cs v s
  | _ => fail "string_type" "Input should be a valid string" v
  end.

Definition Bool (v : Any) : V bool :=
  match v with
  | PyBool b => Valid b
  | _ => match lax_bool v with
         | Some b => Valid b
         | None => fail "bool_type" "Input should be a valid boolean" v
         end
  end.

Definition Uuid (v : Any) : V UUID :=
  match v with
  | PyUUID u => Valid u
  | _ => match lax_uuid v with
         | Some u => Valid u
         | None => fail "uuid_type" "UUID input should be a string, bytes or UUID object" v
         end
  end.

Definition Datetime (v : Any) : V datetime :=
  match v with
  | PyDatetime t => Valid t
  | _ => match lax_datetime v with
         | Some t => Valid t
         | None => fail "datetime_type" "Input should be a valid datetime" v
         end
  end.

Definition HttpUrl (v : Any) : V Url :=
  match http_url v with
  | Some u => Valid u
  | None => fail (fst (url_refusal v)) (snd (url_refusal v)) v
  end.

(** [Optional[T]] *)
Definition Optional {A} (val : Any -> V A) (v : Any) : V (option A) :=
  match v with
  | PyNone => Valid None
  | _ => Some <$> val v
  end.

Fixpoint each {A} (val : Any -> V A) (i : nat) (l : list Any) : V (list A) :=
  match l with
  | [] => Valid []
  | v :: l' => cons <$> at_loc (Index i) (val v) <*> each val (S i) l'
  end.

(** [List[T]], with [Field] constraints on its length. *)
Definition List_ {A} (cs : list constraint) (val : Any -> V A) (v : Any)
  : V (list A) :=
  match v with
  | PyList l => and_then (each val 0 l) (check_list cs v)
  | _ => fail "list_type" "Input should be a valid list" v
  end.

Fixpoint each_item {A} (val : Any -> V A) (d : list (string * Any))
  : V (list (string * A)) :=
  match d with
  | [] => Valid []
  | (k, v) :: d' =>
      cons <$> (pair k <$> at_loc (Key k) (val v)) <*> each_item val d'
  end.

(** [Dict[str, T]] *)
Definition Dict_ {A} (val : Any -> V A) (v : Any) : V (list (string * A)) :=
  match v with
  | PyDict d => each_item val d
  | _ => fail "dict_type" "Input should be a valid dictionary" v
  end.

(** A [str]-valued [Enum] class, by the function that finds the member of a
    value and the list of the values. *)
Definition Enum_ {E} (of_value : string -> option E) (values : list string)
    (v : Any) : V E :=
  match v with
  | PyStr s => match of_value s with
               | Some m => Valid m
               | None => fail "enum" ("Input should be " ++ one_of values) v
               end
  | _ => fail "enum" ("Input should be " ++ one_of values) v
  end.

(** [Literal[...]] of strings. *)
Definition Literal (allowed : list string) (v : Any) : V string :=
  match v with
  | PyStr s => if existsb (String.eqb s) allowed then Valid s
               else fail "literal_error" ("Input should be " ++ one_of allowed) v
  | _ => fail "literal_error" ("Input should be " ++ one_of allowed) v
  end.

(** A field of a model: [default = None] is a required field ([...]). A
    default is not validated; an absent required field is an error. *)
Definition field {A} (data : kwargs) (name : string) (default : option A)
    (val : Any -> V A) : V A :=
  match get name data with
  | Some v => at_loc (Key name) (val v)
  | None =>
      match default with
      | Some d => Valid d
      | None => at_loc (Key name) (fail "missing" "Field required" (PyDict data))
      end
  end.

(** [@field_validator(name)], in the default mode [after]. *)
Definition field_validator {A} (f : A -> checked A) (val : Any -> V A)
    (v : Any) : V A :=
  and_then (val v) (fun a => run_validator v (f a)).

(** A model used as the type of a field or built from a document: the
    fields, then [@model_validator(mode='after')]. *)
Definition model {A} (name : string) (fields : kwargs -> V A)
    (after : A -> checked A) (v : Any) : V A :=
  match v with
  | PyDict data => and_then (fields data) (fun self => run_validator v (after self))
  | _ => fail "model_type"
           ("Input should be a valid dictionary or instance of " ++ name) v
  end.

End FieldTypes.

Definition required {A} : option A := None.
Definition default {A} (d : A) : option A := Some d.
Definition no_validator {A} (self : A) : checked A := Return self.

(** ** Helpers of the class definitions *)

(** [for x in items: if cond(x): raise ValueError(m)], then [return ret]. *)
Definition raise_if_any {A B} (cond : A -> bool) (m : string)
    (items : list A) (ret : B) : checked B :=
  if existsb cond items then RaiseValueError m else Return ret.

Definition dump_optional {A} (dump : A -> Any) (o : option A) : Any :=
  match o with
  | Some a => dump a
  | None => PyNone
  end.

Definition dump_list {A} (dump : A -> Any) (l : list A) : Any :=
  PyList (map dump l).

(** ** The enumerations *)

Module DocumentType.
Inductive t := PDF | DOCX | PPTX | TXT | ZIP.

Definition value (m : t) : string :=
  match m with
  | PDF => "pdf"
  | DOCX => "docx"
  | PPTX => "pptx"
  | TXT => "txt"
  | ZIP => "zip"
  end.
End DocumentType.

Module FundingStage.
Inductive t := PRE_SEED | SEED | SERIES_A | SERIES_B | SERIES_C | LATER_STAGE.

Definition value (m : t) : string :=
  match m with
  | PRE_SEED => "pre-seed"
  | SEED => "seed"
  | SERIES_A => "series-a"
  | SERIES_B => "series-b"
  | SERIES_C => "series-c"
  | LATER_STAGE => "later-stage"
  end.

Definition members : list t :=
  [PRE_SEED; SEED; SERIES_A; SERIES_B; SERIES_C; LATER_STAGE].

Definition of_value (s : string) : option t :=
  find (fun m => String.eqb (value m) s) members.

Definition validate : Any -> V t := Enum_ of_value (map value members).
End FundingStage.

Module RecommendationType.
Inductive t := STRONG_BUY | BUY | HOLD | PASS | STRONG_PASS.

Definition value (m : t) : string :=
  match m with
  | STRONG_BUY => "strong-buy"
  | BUY => "buy"
  | HOLD => "hold"
  | PASS => "pass"
  | STRONG_PASS => "strong-pass"
  end.

Definition members : list t := [STRONG_BUY; BUY; HOLD; PASS; STRONG_PASS].

Definition of_value (s : string) : option t :=
  find (fun m => String.eqb (value m) s) members.

Definition validate : Any -> V t := Enum_ of_value (map value members).
End RecommendationType.

Module RiskType.
Inductive t :=
| INCONSISTENCY | MARKET_SIZE | FINANCIAL_ANOMALY
| COMPETITIVE_RISK | TEAM_RISK | TECHNICAL_RISK.

Definition value (m : t) : string :=
  match m with
  | INCONSISTENCY => "inconsistency"
  | MARKET_SIZE => "market-size"
  | FINANCIAL_ANOMALY => "financial-anomaly"
  | COMPETITIVE_RISK => "competitive-risk"
  | TEAM_RISK => "team-risk"
  | TECHNICAL_RISK => "technical-risk"
  end.

Definition members : list t :=
  [INCONSISTENCY; MARKET_SIZE; FINANCIAL_ANOMALY;
   COMPETITIVE_RISK; TEAM_RISK; TECHNICAL_RISK].

Definition of_value (s : string) : option t :=
  find (fun m => String.eqb (value m) s) members.

Definition validate : Any -> V t := Enum_ of_value (map value members).
End RiskType.

Module RiskSeverity.
Inductive t := HIGH | MEDIUM | LOW.

Definition value (m : t) : string :=
  match m with
  | HIGH => "HIGH"
  | MEDIUM => "MEDIUM"
  | LOW => "LOW"
  end.

Definition members : list t := [HIGH; MEDIUM; LOW].

Definition of_value (s : string) : option t :=
  find (fun m => String.eqb (value m) s) members.

Definition validate : Any -> V t := Enum_ of_value (map value members).
End RiskSeverity.

(** ** The entity classes

    Each class is a module: the record [t] of its fields, [fields] (the
    declared field types and constraints, in the order of the source), the
    validators of the class, [validate] (the class as the type of a nested
    field), [new] (the call [Cls( **data )]) and [model_dump] (the
    dictionary of the fields, as pydantic's [model_dump()] gives it). *)

Module BaseEntity.
Record t := {
  id : UUID;
  created_at : datetime;
  updated_at : datetime
}.

Section Class_.
Context `{Runtime}.

Definition fields (data : kwargs) : V t :=
  Build_t <$> field data "id" required Uuid
          <*> field data "created_at" required Datetime
          <*> field data "updated_at" required Datetime.

End Class_.

Definition model_dump (self : t) : kwargs :=
  [("id", PyUUID self.(id));
   ("created_at", PyDatetime self.(created_at));
   ("updated_at", PyDatetime self.(updated_at))].
End BaseEntity.

Module TeamMember.
Record t := {
  name : string;
  role : string;
  background : option string;
  linkedin_url : option Url;
  years_experience : option Z;
  education : option string;
  previous_companies : option (list string);
  expertise : option (list string);
  is_founder : option bool
}.

Section Class_.
Context `{Runtime}.

Definition fields (data : kwargs) : V t :=
  Build_t <$> field data "name" required (Str [min_length 1; max_length 100])
          <*> field data "role" required (Str [min_length 1; max_length 100])
          <*> field data "background" (default None) (Optional (Str []))
          <*> field data "linkedin_url" (default None) (Optional HttpUrl)
          <*> field data "years_experience" (default None) (Optional (Int [ge 0; le 50]))
          <*> field data "education" (default None) (Optional (Str []))
          <*> field data "previous_companies" (default None) (Optional (List_ [] (Str [])))
          <*> field data "expertise" (default None) (Optional (List_ [] (Str [])))
          <*> field data "is_founder" (default None) (Optional Bool).

Definition validate : Any -> V t := model "TeamMember" fields no_validator.

Definition new (data : kwargs) : result t :=
  raise_errors "TeamMember" (validate (PyDict data)).

End Class_.

Definition model_dump (self : t) : kwargs :=
  [("name", PyStr self.(name));
   ("role", PyStr self.(role));
   ("background", dump_optional PyStr self.(background));
   ("linkedin_url", dump_optional PyUrl self.(linkedin_url));
   ("years_experience", dump_optional PyInt self.(years_experience));
   ("education", dump_optional PyStr self.(education));
   ("previous_companies", dump_optional (dump_list PyStr) self.(previous_companies));
   ("expertise", dump_optional (dump_list PyStr) self.(expertise));
   ("is_founder", dump_optional PyBool self.(is_founder))].
End TeamMember.

Module SocialLinks.
Record t := {
  linkedin : option Url;
  twitter : option Url;
  crunchbase : option Url
}.

Section Class_.
Context `{Runtime}.

Definition fields (data : kwargs) : V t :=
  Build_t <$> field data "linkedin" (default None) (Optional HttpUrl)
          <*> field data "twitter" (default None) (Optional HttpUrl)
          <*> field data "crunchbase" (default None) (Optional HttpUrl).

Definition validate : Any -> V t := model "SocialLinks" fields no_validator.

Definition new (data : kwargs) : result t :=
  raise_errors "SocialLinks" (validate (PyDict data)).

End Class_.

Definition model_dump (self : t) : kwargs :=
  [("linkedin", dump_optional PyUrl self.(linkedin));
   ("twitter", dump_optional PyUrl self.(twitter));
   ("crunchbase", dump_optional PyUrl self.(crunchbase))].
End SocialLinks.

(** What importing the module fixes. The class body of [CompanyProfile]
    evaluates [datetime.now().year] when the class is created, and the
    resulting number is the [le] bound of [founded_year] from then on. *)
Record Schemas := { founded_year_le : Z }.

Definition import_module (now : datetime) : Schemas :=
  {| founded_year_le := year now |}.

Module CompanyProfile.
Record t := {
  entity : BaseEntity.t;
  name : string;
  one_liner : string;
  sector : string;
  stage : FundingStage.t;
  founded_year : Z;
  location : string;
  website : option Url;
  description : option string;
  logo_url : option Url;
  social_links : option SocialLinks.t
}.

Section Class_.
Context `{Runtime} (schemas : Schemas).

Definition fields (data : kwargs) : V t :=
  Build_t <$> BaseEntity.fields data
          <*> field data "name" required (Str [min_length 1; max_length 200])
          <*> field data "one_liner" required (Str [min_length 10; max_length 500])
          <*> field data "sector" required (Str [min_length 1; max_length 100])
          <*> field data "stage" required FundingStage.validate
          <*> field data "founded_year" required
                (Int [ge 1900; le (founded_year_le schemas)])
          <*> field data "location" required (Str [min_length 1; max_length 200])
          <*> field data "website" (default None) (Optional HttpUrl)
          <*> field data "description" (default None) (Optional (Str [max_length 2000]))
          <*> field data "logo_url" (default None) (Optional HttpUrl)
          <*> field data "social_links" (default None) (Optional SocialLinks.validate).

Definition validate : Any -> V t := model "CompanyProfile" fields no_validator.

Definition new (data : kwargs) : result t :=
  raise_errors "CompanyProfile" (validate (PyDict data)).

End Class_.

Definition model_dump (self : t) : kwargs :=
  (BaseEntity.model_dump self.(entity) ++
   [("name", PyStr self.(name));
    ("one_liner", PyStr self.(one_liner));
    ("sector", PyStr self.(sector));
    ("stage", PyStr (FundingStage.value self.(stage)));
    ("founded_year", PyInt self.(founded_year));
    ("location", PyStr self.(location));
    ("website", dump_optional PyUrl self.(website));
    ("description", dump_optional PyStr self.(description));
    ("logo_url", dump_optional PyUrl self.(logo_url));
    ("social_links",
      dump_optional (fun x => PyDict (SocialLinks.model_dump x)) self.(social_links))])%list.
End CompanyProfile.

Module RevenueMetrics.
Record t := {
  arr : option float;
  mrr : option float;
  growth_rate : option float;
  projected_arr : option (list float);
  revenue_run_rate : option float;
  gross_margin : option float;
  net_revenue_retention : option float
}.

Section Class_.
Context `{Runtime}.

Definition validate_projected_arr (v : option (list float))
  : checked (option (list float)) :=
  match v with
  | Some values =>
      raise_if_any (fun value => (value <? float_of_Z 0)%float)
        "All projected ARR values must be non-negative" values v
  | None => Return v
  end.

Definition fields (data : kwargs) : V t :=
  Build_t <$> field data "arr" (default None) (Optional (Float [ge 0]))
          <*> field data "mrr" (default None) (Optional (Float [ge 0]))
          <*> field data "growth_rate" (default None) (Optional (Float [ge (-100); le 10000]))
          <*> field data "projected_arr" (default None)
                (field_validator validate_projected_arr (Optional (List_ [] (Float []))))
          <*> field data "revenue_run_rate" (default None) (Optional (Float [ge 0]))
          <*> field data "gross_margin" (default None) (Optional (Float [ge 0; le 100]))
          <*> field data "net_revenue_retention" (default None) (Optional (Float [ge 0; le 500])).

Definition validate : Any -> V t := model "RevenueMetrics" fields no_validator.

Definition new (data : kwargs) : result t :=
  raise_errors "RevenueMetrics" (validate (PyDict data)).

End Class_.

Definition model_dump (self : t) : kwargs :=
  [("arr", dump_optional PyFloat self.(arr));
   ("mrr", dump_optional PyFloat self.(mrr));
   ("growth_rate", dump_optional PyFloat self.(growth_rate));
   ("projected_arr", dump_optional (dump_list PyFloat) self.(projected_arr));
   ("revenue_run_rate", dump_optional PyFloat self.(revenue_run_rate));
   ("gross_margin", dump_optional PyFloat self.(gross_margin));
   ("net_revenue_retention", dump_optional PyFloat self.(net_revenue_retention))].
End RevenueMetrics.

Module TractionMetrics.
Record t := {
  customers : option Z;
  customer_growth_rate : option float;
  churn_rate : option float;
  nps : option float;
  active_users : option Z;
  conversion_rate : option float;
  ltv : option float;
  cac : option float;
  ltv_cac_ratio : option float
}.

Section Class_.
Context `{Runtime}.

Definition fields (data : kwargs) : V t :=
  Build_t <$> field data "customers" (default None) (Optional (Int [ge 0]))
          <*> field data "customer_growth_rate" (default None) (Optional (Float [ge (-100); le 10000]))
          <*> field data "churn_rate" (default None) (Optional (Float [ge 0; le 100]))
          <*> field data "nps" (default None) (Optional (Float [ge (-100); le 100]))
          <*> field data "active_users" (default None) (Optional (Int [ge 0]))
          <*> field data "conversion_rate" (default None) (Optional (Float [ge 0; le 100]))
          <*> field data "ltv" (default None) (Optional (Float [ge 0]))
          <*> field data "cac" (default None) (Optional (Float [ge 0]))
          <*> field data "ltv_cac_ratio" (default None) (Optional (Float [ge 0])).

Definition validate : Any -> V t := model "TractionMetrics" fields no_validator.

Definition new (data : kwargs) : result t :=
  raise_errors "TractionMetrics" (validate (PyDict data)).

End Class_.

Definition model_dump (self : t) : kwargs :=
  [("customers", dump_optional PyInt self.(customers));
   ("customer_growth_rate", dump_optional PyFloat self.(customer_growth_rate));
   ("churn_rate", dump_optional PyFloat self.(churn_rate));
   ("nps", dump_optional PyFloat self.(nps));
   ("active_users", dump_optional PyInt self.(active_users));
   ("conversion_rate", dump_optional PyFloat self.(conversion_rate));
   ("ltv", dump_optional PyFloat self.(ltv));
   ("cac", dump_optional PyFloat self.(cac));
   ("ltv_cac_ratio", dump_optional PyFloat self.(ltv_cac_ratio))].
End TractionMetrics.

Module TeamMetrics.
Record t := {
  size : Z;
  founders_count : Z;
  key_hires : list TeamMember.t;
  engineering_team_size : option Z;
  sales_team_size : option Z;
  burn_rate : option float;
  runway : option float
}.

Section Class_.
Context `{Runtime}.

Definition fields (data : kwargs) : V t :=
  Build_t <$> field data "size" required (Int [ge 1; le 10000])
          <*> field data "founders_count" required (Int [ge 1; le 20])
          <*> field data "key_hires" required (List_ [] TeamMember.validate)
          <*> field data "engineering_team_size" (default None) (Optional (Int [ge 0]))
          <*> field data "sales_team_size" (default None) (Optional (Int [ge 0]))
          <*> field data "burn_rate" (default None) (Optional (Float [ge 0]))
          <*> field data "runway" (default None) (Optional (Float [ge 0])).

Definition validate : Any -> V t := model "TeamMetrics" fields no_validator.

Definition new (data : kwargs) : result t :=
  raise_errors "TeamMetrics" (validate (PyDict data)).

End Class_.

Definition model_dump (self : t) : kwargs :=
  [("size", PyInt self.(size));
   ("founders_count", PyInt self.(founders_count));
   ("key_hires", dump_list (fun x => PyDict (TeamMember.model_dump x)) self.(key_hires));
   ("engineering_team_size", dump_optional PyInt self.(engineering_team_size));
   ("sales_team_size", dump_optional PyInt self.(sales_team_size));
   ("burn_rate", dump_optional PyFloat self.(burn_rate));
   ("runway", dump_optional PyFloat self.(runway))].
End TeamMetrics.

Module FundingMetrics.
Record t := {
  total_raised : option float;
  last_round_size : option float;
  last_round_date : option datetime;
  current_ask : option float;
  valuation : option float;
  pre_money_valuation : option float;
  post_money_valuation : option float;
  stage : option FundingStage.t;
  lead_investor : option string;
  use_of_funds : option (list string)
}.

Section Class_.
Context `{Runtime}.

Definition fields (data : kwargs) : V t :=
  Build_t <$> field data "total_raised" (default None) (Optional (Float [ge 0]))
          <*> field data "last_round_size" (default None) (Optional (Float [ge 0]))
          <*> field data "last_round_date" (default None) (Optional Datetime)
          <*> field data "current_ask" (default None) (Optional (Float [ge 0]))
          <*> field data "valuation" (default None) (Optional (Float [ge 0]))
          <*> field data "pre_money_valuation" (default None) (Optional (Float [ge 0]))
          <*> field data "post_money_valuation" (default None) (Optional (Float [ge 0]))
          <*> field data "stage" (default None) (Optional FundingStage.validate)
          <*> field data "lead_investor" (default None) (Optional (Str []))
          <*> field data "use_of_funds" (default None) (Optional (List_ [] (Str []))).

Definition validate : Any -> V t := model "FundingMetrics" fields no_validator.

Definition new (data : kwargs) : result t :=
  raise_errors "FundingMetrics" (validate (PyDict data)).

End Class_.

Definition model_dump (self : t) : kwargs :=
  [("total_raised", dump_optional PyFloat self.(total_raised));
   ("last_round_size", dump_optional PyFloat self.(last_round_size));
   ("last_round_date", dump_optional PyDatetime self.(last_round_date));
   ("current_ask", dump_optional PyFloat self.(current_ask));
   ("valuation", dump_optional PyFloat self.(valuation));
   ("pre_money_valuation", dump_optional PyFloat self.(pre_money_valuation));
   ("post_money_valuation", dump_optional PyFloat self.(post_money_valuation));
   ("stage", dump_optional (fun m => PyStr (FundingStage.value m)) self.(stage));
   ("lead_investor", dump_optional PyStr self.(lead_investor));
   ("use_of_funds", dump_optional (dump_list PyStr) self.(use_of_funds))].
End FundingMetrics.

Module InvestmentMetrics.
Record t := {
  entity : BaseEntity.t;
  revenue : RevenueMetrics.t;
  traction : TractionMetrics.t;
  team : TeamMetrics.t;
  funding : FundingMetrics.t;
  extraction_timestamp : datetime;
  source_documents : list string;
  confidence : float
}.

Section Class_.
Context `{Runtime}.

Definition fields (data : kwargs) : V t :=
  Build_t <$> BaseEntity.fields data
          <*> field data "revenue" required RevenueMetrics.validate
          <*> field data "traction" required TractionMetrics.validate
          <*> field data "team" required TeamMetrics.validate
          <*> field data "funding" required FundingMetrics.validate
          <*> field data "extraction_timestamp" required Datetime
          <*> field data "source_documents" required (List_ [] (Str []))
          <*> field data "confidence" required (Float [ge 0; le 1]).

Definition validate : Any -> V t := model "InvestmentMetrics" fields no_validator.

Definition new (data : kwargs) : result t :=
  raise_errors "InvestmentMetrics" (validate (PyDict data)).

End Class_.

Definition model_dump (self : t) : kwargs :=
  (BaseEntity.model_dump self.(entity) ++
   [("revenue", PyDict (RevenueMetrics.model_dump self.(revenue)));
    ("traction", PyDict (TractionMetrics.model_dump self.(traction)));
    ("team", PyDict (TeamMetrics.model_dump self.(team)));
    ("funding", PyDict (FundingMetrics.model_dump self.(funding)));
    ("extraction_timestamp", PyDatetime self.(extraction_timestamp));
    ("source_documents", dump_list PyStr self.(source_documents));
    ("confidence", PyFloat self.(confidence))])%list.
End InvestmentMetrics.

Module RiskFlag.
Record t := {
  entity : BaseEntity.t;
  type : RiskType.t;
  severity : RiskSeverity.t;
  title : string;
  description : string;
  affected_metrics : list string;
  suggested_mitigation : string;
  source_documents : list string;
  confidence : float;
  impact : string;
  likelihood : string;
  category : string;
  detected_at : datetime;
  evidence : list string;
  related_flags : option (list string)
}.

Section Class_.
Context `{Runtime}.

Definition fields (data : kwargs) : V t :=
  Build_t <$> BaseEntity.fields data
          <*> field data "type" required RiskType.validate
          <*> field data "severity" required RiskSeverity.validate
          <*> field data "title" required (Str [min_length 1; max_length 200])
          <*> field data "description" required (Str [min_length 10; max_length 1000])
          <*> field data "affected_metrics" required (List_ [] (Str []))
          <*> field data "suggested_mitigation" required (Str [min_length 10; max_length 1000])
          <*> field data "source_documents" required (List_ [] (Str []))
          <*> field data "confidence" required (Float [ge 0; le 1])
          <*> field data "impact" required (Literal ["low"; "medium"; "high"; "critical"])
          <*> field data "likelihood" required (Literal ["low"; "medium"; "high"])
          <*> field data "category" required
                (Literal ["financial"; "market"; "team"; "product"; "competitive"; "operational"])
          <*> field data "detected_at" required Datetime
          <*> field data "evidence" required (List_ [] (Str []))
          <*> field data "related_flags" (default None) (Optional (List_ [] (Str []))).

Definition validate : Any -> V t := model "RiskFlag" fields no_validator.

Definition new (data : kwargs) : result t :=
  raise_errors "RiskFlag" (validate (PyDict data)).

End Class_.

Definition model_dump (self : t) : kwargs :=
  (BaseEntity.model_dump self.(entity) ++
   [("type", PyStr (RiskType.value self.(type)));
    ("severity", PyStr (RiskSeverity.value self.(severity)));
    ("title", PyStr self.(title));
    ("description", PyStr self.(description));
    ("affected_metrics", dump_list PyStr self.(affected_metrics));
    ("suggested_mitigation", PyStr self.(suggested_mitigation));
    ("source_documents", dump_list PyStr self.(source_documents));
    ("confidence", PyFloat self.(confidence));
    ("impact", PyStr self.(impact));
    ("likelihood", PyStr self.(likelihood));
    ("category", PyStr self.(category));
    ("detected_at", PyDatetime self.(detected_at));
    ("evidence", dump_list PyStr self.(evidence));
    ("related_flags", dump_optional (dump_list PyStr) self.(related_flags))])%list.
End RiskFlag.

Module MetricDistribution.
Record t := {
  min : float;
  max : float;
  median : float;
  p25 : float;
  p75 : float;
  p90 : float;
  mean : float;
  std_dev : float;
  sample_size : Z
}.

Section Class_.
Context `{Runtime}.

Definition fields (data : kwargs) : V t :=
  Build_t <$> field data "min" required (Float [])
          <*> field data "max" required (Float [])
          <*> field data "median" required (Float [])
          <*> field data "p25" required (Float [])
          <*> field data "p75" required (Float [])
          <*> field data "p90" required (Float [])
          <*> field data "mean" required (Float [])
          <*> field data "std_dev" required (Float [])
          <*> field data "sample_size" required (Int [ge 1]).

Definition validate_distribution (self : t) : checked t :=
  if (self.(max) <? self.(min))%float then
    RaiseValueError "max must be greater than or equal to min"
  else if negb ((self.(min) <=? self.(median))%float
                && (self.(median) <=? self.(max))%float) then
    RaiseValueError "median must be between min and max"
  else Return self.

Definition validate : Any -> V t :=
  model "MetricDistribution" fields validate_distribution.

Definition new (data : kwargs) : result t :=
  raise_errors "MetricDistribution" (validate (PyDict data)).

End Class_.

Definition model_dump (self : t) : kwargs :=
  [("min", PyFloat self.(min));
   ("max", PyFloat self.(max));
   ("median", PyFloat self.(median));
   ("p25", PyFloat self.(p25));
   ("p75", PyFloat self.(p75));
   ("p90", PyFloat self.(p90));
   ("mean", PyFloat self.(mean));
   ("std_dev", PyFloat self.(std_dev));
   ("sample_size", PyInt self.(sample_size))].
End MetricDistribution.

Module TimeRange.
Record t := {
  start_date : datetime;
  end_date : datetime
}.

Section Class_.
Context `{Runtime}.

Definition fields (data : kwargs) : V t :=
  Build_t <$> field data "start_date" required Datetime
          <*> field data "end_date" required Datetime.

(** The dates of the model are naive, and so is the comparison: comparing
    a naive with an aware datetime, a [TypeError] in Python, is not part of
    it. *)
Definition validate_time_range (self : t) : checked t :=
  if datetime_ltb self.(end_date) self.(start_date) then
    RaiseValueError "end_date must be after start_date"
  else Return self.

Definition validate : Any -> V t :=
  model "TimeRange" fields validate_time_range.

Definition new (data : kwargs) : result t :=
  raise_errors "TimeRange" (validate (PyDict data)).

End Class_.

Definition model_dump (self : t) : kwargs :=
  [("start_date", PyDatetime self.(start_date));
   ("end_date", PyDatetime self.(end_date))].
End TimeRange.

Module BenchmarkData.
Record t := {
  entity : BaseEntity.t;
  sector : string;
  sub_sector : option string;
  stage : option FundingStage.t;
  geography : option string;
  sample_size : Z;
  metrics : list (string * MetricDistribution.t);
  last_updated : datetime;
  data_source : string;
  methodology : string;
  confidence : float;
  time_range : TimeRange.t
}.

Section Class_.
Context `{Runtime}.

Definition fields (data : kwargs) : V t :=
  Build_t <$> BaseEntity.fields data
          <*> field data "sector" required (Str [min_length 1; max_length 100])
          <*> field data "sub_sector" (default None) (Optional (Str [max_length 100]))
          <*> field data "stage" (default None) (Optional FundingStage.validate)
          <*> field data "geography" (default None) (Optional (Str [max_length 100]))
          <*> field data "sample_size" required (Int [ge 1])
          <*> field data "metrics" required (Dict_ MetricDistribution.validate)
          <*> field data "last_updated" required Datetime
          <*> field data "data_source" required (Str [min_length 1; max_length 200])
          <*> field data "methodology" required (Str [min_length 10; max_length 1000])
          <*> field data "confidence" required (Float [ge 0; le 1])
          <*> field data "time_range" required TimeRange.validate.

Definition validate : Any -> V t := model "BenchmarkData" fields no_validator.

Definition new (data : kwargs) : result t :=
  raise_errors "BenchmarkData" (validate (PyDict data)).

End Class_.

Definition model_dump (self : t) : kwargs :=
  (BaseEntity.model_dump self.(entity) ++
   [("sector", PyStr self.(sector));
    ("sub_sector", dump_optional PyStr self.(sub_sector));
    ("stage", dump_optional (fun m => PyStr (FundingStage.value m)) self.(stage));
    ("geography", dump_optional PyStr self.(geography));
    ("sample_size", PyInt self.(sample_size));
    ("metrics",
      PyDict (map (fun kv => (fst kv, PyDict (MetricDistribution.model_dump (snd kv))))
                  self.(metrics)));
    ("last_updated", PyDatetime self.(last_updated));
    ("data_source", PyStr self.(data_source));
    ("methodology", PyStr self.(methodology));
    ("confidence", PyFloat self.(confidence));
    ("time_range", PyDict (TimeRange.model_dump self.(time_range)))])%list.
End BenchmarkData.

Module BenchmarkComparison.
Record t := {
  metric : string;
  company_value : float;
  sector_median : float;
  percentile : float;
  interpretation : string;
  context : string;
  recommendation : option string
}.

Section Class_.
Context `{Runtime}.

Definition fields (data : kwargs) : V t :=
  Build_t <$> field data "metric" required (Str [min_length 1; max_length 100])
          <*> field data "company_value" required (Float [])
          <*> field data "sector_median" required (Float [])
          <*> field data "percentile" required (Float [ge 0; le 100])
          <*> field data "interpretation" required (Str [min_length 10; max_length 500])
          <*> field data "context" required (Str [min_length 10; max_length 500])
          <*> field data "recommendation" (default None) (Optional (Str [max_length 500])).

Definition validate : Any -> V t := model "BenchmarkComparison" fields no_validator.

Definition new (data : kwargs) : result t :=
  raise_errors "BenchmarkComparison" (validate (PyDict data)).

End Class_.

Definition model_dump (self : t) : kwargs :=
  [("metric", PyStr self.(metric));
   ("company_value", PyFloat self.(company_value));
   ("sector_median", PyFloat self.(sector_median));
   ("percentile", PyFloat self.(percentile));
   ("interpretation", PyStr self.(interpretation));
   ("context", PyStr self.(context));
   ("recommendation", dump_optional PyStr self.(recommendation))].
End BenchmarkComparison.

Module AnalysisWeightings.
Record t := {
  market_opportunity : float;
  team : float;
  traction : float;
  product : float;
  competitive_position : float
}.

Section Class_.
Context `{Runtime}.

Definition fields (data : kwargs) : V t :=
  Build_t <$> field data "market_opportunity" (default 25.0%float) (Float [ge 0; le 100])
          <*> field data "team" (default 25.0%float) (Float [ge 0; le 100])
          <*> field data "traction" (default 20.0%float) (Float [ge 0; le 100])
          <*> field data "product" (default 15.0%float) (Float [ge 0; le 100])
          <*> field data "competitive_position" (default 15.0%float) (Float [ge 0; le 100]).

Definition total (self : t) : float :=
  (self.(market_opportunity) + self.(team) + self.(traction)
   + self.(product) + self.(competitive_position))%float.

Definition validate_weightings_sum (self : t) : checked t :=
  if (0.01 <? abs (total self - 100.0))%float then
    RaiseValueError ("Weightings must sum to 100%, got "
                     ++ float_repr (total self) ++ "%")
  else Return self.

Definition validate : Any -> V t :=
  model "AnalysisWeightings" fields validate_weightings_sum.

Definition new (data : kwargs) : result t :=
  raise_errors "AnalysisWeightings" (validate (PyDict data)).

End Class_.

Definition model_dump (self : t) : kwargs :=
  [("market_opportunity", PyFloat self.(market_opportunity));
   ("team", PyFloat self.(team));
   ("traction", PyFloat self.(traction));
   ("product", PyFloat self.(product));
   ("competitive_position", PyFloat self.(competitive_position))].
End AnalysisWeightings.

Module DealMemoSummary.
Record t := {
  company_name : string;
  one_liner : string;
  sector : string;
  stage : FundingStage.t;
  signal_score : float;
  recommendation : RecommendationType.t;
  confidence_level : float;
  last_updated : datetime
}.

Section Class_.
Context `{Runtime}.

Definition fields (data : kwargs) : V t :=
  Build_t <$> field data "company_name" required (Str [min_length 1; max_length 200])
          <*> field data "one_liner" required (Str [min_length 10; max_length 500])
          <*> field data "sector" required (Str [min_length 1; max_length 100])
          <*> field data "stage" required FundingStage.validate
          <*> field data "signal_score" required (Float [ge 0; le 100])
          <*> field data "recommendation" required RecommendationType.validate
          <*> field data "confidence_level" required (Float [ge 0; le 1])
          <*> field data "last_updated" required Datetime.

Definition validate : Any -> V t := model "DealMemoSummary" fields no_validator.

Definition new (data : kwargs) : result t :=
  raise_errors "DealMemoSummary" (validate (PyDict data)).

End Class_.

Definition model_dump (self : t) : kwargs :=
  [("company_name", PyStr self.(company_name));
   ("one_liner", PyStr self.(one_liner));
   ("sector", PyStr self.(sector));
   ("stage", PyStr (FundingStage.value self.(stage)));
   ("signal_score", PyFloat self.(signal_score));
   ("recommendation", PyStr (RecommendationType.value self.(recommendation)));
   ("confidence_level", PyFloat self.(confidence_level));
   ("last_updated", PyDatetime self.(last_updated))].
End DealMemoSummary.

Module RevenueProjection.
Record t := {
  year1 : float;
  year3 : float;
  year5 : float
}.

Section Class_.
Context `{Runtime}.

Definition fields (data : kwargs) : V t :=
  Build_t <$> field data "year1" required (Float [ge 0])
          <*> field data "year3" required (Float [ge 0])
          <*> field data "year5" required (Float [ge 0]).

Definition validate_revenue_progression (self : t) : checked t :=
  if (self.(year3) <? self.(year1))%float then
    RaiseValueError "year3 projection should not be less than year1"
  else if (self.(year5) <? self.(year3))%float then
    RaiseValueError "year5 projection should not be less than year3"
  else Return self.

Definition validate : Any -> V t :=
  model "RevenueProjection" fields validate_revenue_progression.

Definition new (data : kwargs) : result t :=
  raise_errors "RevenueProjection" (validate (PyDict data)).

End Class_.

Definition model_dump (self : t) : kwargs :=
  [("year1", PyFloat self.(year1));
   ("year3", PyFloat self.(year3));
   ("year5", PyFloat self.(year5))].
End RevenueProjection.

Module GrowthPotential.
Record t := {
  upside_summary : string;
  growth_timeline : string;
  key_drivers : list string;
  scalability_factors : list string;
  market_expansion_opportunity : string;
  revenue_projection : RevenueProjection.t
}.

Section Class_.
Context `{Runtime}.

Definition validate_key_drivers (v : list string) : checked (list string) :=
  raise_if_any
    (fun driver => (String.length driver <? 5)%nat || (200 <? String.length driver)%nat)
    "Each key driver must be between 5 and 200 characters" v v.

Definition validate_scalability_factors (v : list string) : checked (list string) :=
  raise_if_any
    (fun factor => (String.length factor <? 5)%nat || (200 <? String.length factor)%nat)
    "Each scalability factor must be between 5 and 200 characters" v v.

Definition fields (data : kwargs) : V t :=
  Build_t <$> field data "upside_summary" required (Str [min_length 50; max_length 2000])
          <*> field data "growth_timeline" required (Str [min_length 20; max_length 1000])
          <*> field data "key_drivers" required
                (field_validator validate_key_drivers (List_ [min_length 1] (Str [])))
          <*> field data "scalability_factors" required
                (field_validator validate_scalability_factors (List_ [min_length 1] (Str [])))
          <*> field data "market_expansion_opportunity" required
                (Str [min_length 20; max_length 1000])
          <*> field data "revenue_projection" required RevenueProjection.validate.

Definition validate : Any -> V t := model "GrowthPotential" fields no_validator.

Definition new (data : kwargs) : result t :=
  raise_errors "GrowthPotential" (validate (PyDict data)).

End Class_.

Definition model_dump (self : t) : kwargs :=
  [("upside_summary", PyStr self.(upside_summary));
   ("growth_timeline", PyStr self.(growth_timeline));
   ("key_drivers", dump_list PyStr self.(key_drivers));
   ("scalability_factors", dump_list PyStr self.(scalability_factors));
   ("market_expansion_opportunity", PyStr self.(market_expansion_opportunity));
   ("revenue_projection", PyDict (RevenueProjection.model_dump self.(revenue_projection)))].
End GrowthPotential.

Module RiskAssessment.
Record t := {
  overall_risk_score : float;
  high_priority_risks : list RiskFlag.t;
  medium_priority_risks : list RiskFlag.t;
  low_priority_risks : list RiskFlag.t;
  risk_mitigation_plan : list string
}.

Section Class_.
Context `{Runtime}.

Definition validate_mitigation_plan (v : list string) : checked (list string) :=
  raise_if_any
    (fun plan => (String.length plan <? 10)%nat || (500 <? String.length plan)%nat)
    "Each mitigation plan item must be between 10 and 500 characters" v v.

Definition fields (data : kwargs) : V t :=
  Build_t <$> field data "overall_risk_score" required (Float [ge 0; le 100])
          <*> field data "high_priority_risks" required (List_ [] RiskFlag.validate)
          <*> field data "medium_priority_risks" required (List_ [] RiskFlag.validate)
          <*> field data "low_priority_risks" required (List_ [] RiskFlag.validate)
          <*> field data "risk_mitigation_plan" required
                (field_validator validate_mitigation_plan (List_ [min_length 1] (Str []))).

Definition validate : Any -> V t := model "RiskAssessment" fields no_validator.

Definition new (data : kwargs) : result t :=
  raise_errors "RiskAssessment" (validate (PyDict data)).

End Class_.

Definition model_dump (self : t) : kwargs :=
  [("overall_risk_score", PyFloat self.(overall_risk_score));
   ("high_priority_risks",
     dump_list (fun x => PyDict (RiskFlag.model_dump x)) self.(high_priority_risks));
   ("medium_priority_risks",
     dump_list (fun x => PyDict (RiskFlag.model_dump x)) self.(medium_priority_risks));
   ("low_priority_risks",
     dump_list (fun x => PyDict (RiskFlag.model_dump x)) self.(low_priority_risks));
   ("risk_mitigation_plan", dump_list PyStr self.(risk_mitigation_plan))].
End RiskAssessment.

Module InvestmentRecommendation.
Record t := {
  narrative : string;
  investment_thesis : string;
  ideal_check_size : string;
  ideal_valuation_cap : string;
  suggested_terms : list string;
  key_diligence_questions : list string;
  follow_up_actions : list string;
  timeline_to_decision : string
}.

Section Class_.
Context `{Runtime}.

Definition validate_suggested_terms (v : list string) : checked (list string) :=
  raise_if_any
    (fun term => (String.length term <? 5)%nat || (200 <? String.length term)%nat)
    "Each suggested term must be between 5 and 200 characters" v v.

Definition validate_diligence_questions (v : list string) : checked (list string) :=
  raise_if_any
    (fun question => (String.length question <? 10)%nat || (300 <? String.length question)%nat)
    "Each diligence question must be between 10 and 300 characters" v v.

Definition validate_follow_up_actions (v : list string) : checked (list string) :=
  raise_if_any
    (fun action => (String.length action <? 5)%nat || (200 <? String.length action)%nat)
    "Each follow-up action must be between 5 and 200 characters" v v.

Definition fields (data : kwargs) : V t :=
  Build_t <$> field data "narrative" required (Str [min_length 100; max_length 3000])
          <*> field data "investment_thesis" required (Str [min_length 50; max_length 2000])
          <*> field data "ideal_check_size" required (Str [min_length 5; max_length 100])
          <*> field data "ideal_valuation_cap" required (Str [min_length 5; max_length 100])
          <*> field data "suggested_terms" required
                (field_validator validate_suggested_terms (List_ [min_length 1] (Str [])))
          <*> field data "key_diligence_questions" required
                (field_validator validate_diligence_questions (List_ [min_length 1] (Str [])))
          <*> field data "follow_up_actions" required
                (field_validator validate_follow_up_actions (List_ [min_length 1] (Str [])))
          <*> field data "timeline_to_decision" required (Str [min_length 5; max_length 100]).

Definition validate : Any -> V t :=
  model "InvestmentRecommendation" fields no_validator.

Definition new (data : kwargs) : result t :=
  raise_errors "InvestmentRecommendation" (validate (PyDict data)).

End Class_.

Definition model_dump (self : t) : kwargs :=
  [("narrative", PyStr self.(narrative));
   ("investment_thesis", PyStr self.(investment_thesis));
   ("ideal_check_size", PyStr self.(ideal_check_size));
   ("ideal_valuation_cap", PyStr self.(ideal_valuation_cap));
   ("suggested_terms", dump_list PyStr self.(suggested_terms));
   ("key_diligence_questions", dump_list PyStr self.(key_diligence_questions));
   ("follow_up_actions", dump_list PyStr self.(follow_up_actions));
   ("timeline_to_decision", PyStr self.(timeline_to_decision))].
End InvestmentRecommendation.

Module DealMemoMetadata.
Record t := {
  generated_by : string;
  analysis_version : string;
  source_documents : list string;
  processing_time : float;
  data_quality : float
}.

Section Class_.
Context `{Runtime}.

Definition fields (data : kwargs) : V t :=
  Build_t <$> field data "generated_by" required (Str [min_length 1; max_length 100])
          <*> field data "analysis_version" required (Str [min_length 1; max_length 20])
          <*> field data "source_documents" required (List_ [] (Str []))
          <*> field data "processing_time" required (Float [ge 0])
          <*> field data "data_quality" required (Float [ge 0; le 1]).

Definition validate : Any -> V t := model "DealMemoMetadata" fields no_validator.

Definition new (data : kwargs) : result t :=
  raise_errors "DealMemoMetadata" (validate (PyDict data)).

End Class_.

Definition model_dump (self : t) : kwargs :=
  [("generated_by", PyStr self.(generated_by));
   ("analysis_version", PyStr self.(analysis_version));
   ("source_documents", dump_list PyStr self.(source_documents));
   ("processing_time", PyFloat self.(processing_time));
   ("data_quality", PyFloat self.(data_quality))].
End DealMemoMetadata.

Module AegisDealMemo.
Record t := {
  summary : DealMemoSummary.t;
  key_benchmarks : list BenchmarkComparison.t;
  growth_potential : GrowthPotential.t;
  risk_assessment : RiskAssessment.t;
  investment_recommendation : InvestmentRecommendation.t;
  analysis_weightings : AnalysisWeightings.t;
  metadata : DealMemoMetadata.t
}.

Section Class_.
Context `{Runtime}.

Definition fields (data : kwargs) : V t :=
  Build_t <$> field data "summary" required DealMemoSummary.validate
          <*> field data "key_benchmarks" required (List_ [] BenchmarkComparison.validate)
          <*> field data "growth_potential" required GrowthPotential.validate
          <*> field data "risk_assessment" required RiskAssessment.validate
          <*> field data "investment_recommendation" required InvestmentRecommendation.validate
          <*> field data "analysis_weightings" required AnalysisWeightings.validate
          <*> field data "metadata" required DealMemoMetadata.validate.

Definition validate : Any -> V t := model "AegisDealMemo" fields no_validator.

Definition new (data : kwargs) : result t :=
  raise_errors "AegisDealMemo" (validate (PyDict data)).

End Class_.

Definition model_dump (self : t) : kwargs :=
  [("summary", PyDict (DealMemoSummary.model_dump self.(summary)));
   ("key_benchmarks",
     dump_list (fun x => PyDict (BenchmarkComparison.model_dump x)) self.(key_benchmarks));
   ("growth_potential", PyDict (GrowthPotential.model_dump self.(growth_potential)));
   ("risk_assessment", PyDict (RiskAssessment.model_dump self.(risk_assessment)));
   ("investment_recommendation",
     PyDict (InvestmentRecommendation.model_dump self.(investment_recommendation)));
   ("analysis_weightings",
     PyDict (AnalysisWeightings.model_dump self.(analysis_weightings)));
   ("metadata", PyDict (DealMemoMetadata.model_dump self.(metadata)))].
End AegisDealMemo.

Module DealMemo.
Record t := {
  entity : BaseEntity.t;
  aegis_deal_memo : AegisDealMemo.t
}.

Section Class_.
Context `{Runtime}.

Definition fields (data : kwargs) : V t :=
  Build_t <$> BaseEntity.fields data
          <*> field data "aegis_deal_memo" required AegisDealMemo.validate.

Definition validate : Any -> V t := model "DealMemo" fields no_validator.

Definition new (data : kwargs) : result t :=
  raise_errors "DealMemo" (validate (PyDict data)).

End Class_.

Definition model_dump (self : t) : kwargs :=
  (BaseEntity.model_dump self.(entity) ++
   [("aegis_deal_memo", PyDict (AegisDealMemo.model_dump self.(aegis_deal_memo)))])%list.
End DealMemo.

(** ** Validation utility functions *)

(** [try: body] / [except Exception as e: handler(e)] *)
Definition try_except {A} (body : result A) (handler : exn -> result A)
  : result A :=
  match body with
  | Ok a => Ok a
  | Raise e => handler e
  end.

Definition loc_item (i : LocItem) : Any :=
  match i with
  | Key s => PyStr s
  | Index n => PyInt (Z.of_nat n)
  end.

(** One dictionary of [e.errors()] (the tuple [loc] as a list). *)
Definition error_dict (e : ErrorDetails) : Any :=
  PyDict [("type", PyStr (type_ e));
          ("loc", PyList (map loc_item (loc e)));
          ("msg", PyStr (msg e));
          ("input", input e)].

(** [e.errors()], of an exception that has the attribute. *)
Definition errors (e : exn) : list Any :=
  match e with
  | ValidationError _ e es => map error_dict (e :: es)
  | _ => []
  end.

Section Facade.
Context `{Runtime}.

Definition validate_deal_memo (data : kwargs) : result DealMemo.t :=
  try_except (DealMemo.new data)
    (fun e => Raise (ValueError ("Deal memo validation failed: " ++ str_exn e))).

Definition validate_company_profile (schemas : Schemas) (data : kwargs)
  : result CompanyProfile.t :=
  try_except (CompanyProfile.new schemas data)
    (fun e => Raise (ValueError ("Company profile validation failed: " ++ str_exn e))).

Definition validate_investment_metrics (data : kwargs)
  : result InvestmentMetrics.t :=
  try_except (InvestmentMetrics.new data)
    (fun e => Raise (ValueError ("Investment metrics validation failed: " ++ str_exn e))).

(** [model_class] is any of the classes above, as its constructor. *)
Definition get_validation_errors {T} (model_class : kwargs -> result T)
    (data : kwargs) : result (list Any) :=
  try_except
    (match model_class data with
     | Ok _ => Ok []
     | Raise e => Raise e
     end)
    (fun e =>
       if has_errors e then Ok (errors e)
       else Ok [PyDict [("msg", PyStr (str_exn e));
                        ("type", PyStr "unknown_error")]]).

End Facade.

(** The numbers [normalize_weightings] is applied to. The function uses
    [sum], [==], [/] and [*] only, so it runs on any Python number type: on
    [float] (binary64, rounding at every step) and on [fractions.Fraction]
    (exact). *)
Class Number (N : Type) := {
  num_of_int : Z -> N;
  num_add : N -> N -> N;
  num_mul : N -> N -> N;
  num_div : N -> N -> N;
  num_eqb : N -> N -> bool
}.

#[export] Instance Number_float : Number float := {|
  num_of_int := float_of_Z;
  num_add := PrimFloat.add;
  num_mul := PrimFloat.mul;
  num_div := PrimFloat.div;
  num_eqb := PrimFloat.eqb
|}.

#[export] Instance Number_Fraction : Number Qc := {|
  num_of_int := fun z => Q2Qc (inject_Z z);
  num_add := Qcplus;
  num_mul := Qcmult;
  num_div := Qcdiv;
  num_eqb := Qc_eq_bool
|}.

Section Normalize.
Context {N : Type} `{Number N}.

(** [sum(values)]: from the left, starting at the integer 0. (CPython from
    3.12 on adds floats with compensation, which can change the last bit of
    a total; the totals of the examples of this file are exact.) *)
Definition sum (values : list N) : N :=
  fold_left num_add values (num_of_int 0).

Definition normalize_weightings (weightings : list (string * N))
  : result (list (string * N)) :=
  let total := sum (map snd weightings) in
  if num_eqb total (num_of_int 0) then
    Raise (ValueError "All weightings cannot be zero")
  else
    Ok (map (fun '(key, value) =>
               (key, num_mul (num_div value total) (num_of_int 100)))
            weightings).

End Normalize.

(** ** A running process

    The wall clock moves on while the module stays as it was imported. *)
Record process := {
  clock : datetime;
  loaded : Schemas
}.

Definition start (now : datetime) : process :=
  {| clock := now; loaded := import_module now |}.

Definition wait_until (later : datetime) (p : process) : process :=
  {| clock := later; loaded := loaded p |}.

Definition call_validate_company_profile `{Runtime} (p : process)
    (data : kwargs) : result CompanyProfile.t :=
  validate_company_profile (loaded p) data.

(** * The vocabulary of the statements *)

(** ** Entities built from their field values *)

Definition weights (a b c d e : float) : AnalysisWeightings.t :=
  {| AnalysisWeightings.market_opportunity := a;
     AnalysisWeightings.team := b;
     AnalysisWeightings.traction := c;
     AnalysisWeightings.product := d;
     AnalysisWeightings.competitive_position := e |}.

Definition projection (a b c : float) : RevenueProjection.t :=
  {| RevenueProjection.year1 := a;
     RevenueProjection.year3 := b;
     RevenueProjection.year5 := c |}.

Definition distribution (mn mx md q25 q75 q90 avg sd : float) (n : Z)
  : MetricDistribution.t :=
  {| MetricDistribution.min := mn;
     MetricDistribution.max := mx;
     MetricDistribution.median := md;
     MetricDistribution.p25 := q25;
     MetricDistribution.p75 := q75;
     MetricDistribution.p90 := q90;
     MetricDistribution.mean := avg;
     MetricDistribution.std_dev := sd;
     MetricDistribution.sample_size := n |}.

(** A company profile without its optional fields. *)
Definition profile (entity : BaseEntity.t) (name one_liner sector : string)
    (stage : FundingStage.t) (founded : Z) (location : string)
  : CompanyProfile.t :=
  {| CompanyProfile.entity := entity;
     CompanyProfile.name := name;
     CompanyProfile.one_liner := one_liner;
     CompanyProfile.sector := sector;
     CompanyProfile.stage := stage;
     CompanyProfile.founded_year := founded;
     CompanyProfile.location := location;
     CompanyProfile.website := None;
     CompanyProfile.description := None;
     CompanyProfile.logo_url := None;
     CompanyProfile.social_links := None |}.

(** The document of such a profile: the optional fields are absent. *)
Definition profile_data (entity : BaseEntity.t) (name one_liner sector : string)
    (stage : FundingStage.t) (founded : Z) (location : string) : kwargs :=
  [("id", PyUUID entity.(BaseEntity.id));
   ("created_at", PyDatetime entity.(BaseEntity.created_at));
   ("updated_at", PyDatetime entity.(BaseEntity.updated_at));
   ("name", PyStr name);
   ("one_liner", PyStr one_liner);
   ("sector", PyStr sector);
   ("stage", PyStr (FundingStage.value stage));
   ("founded_year", PyInt founded);
   ("location", PyStr location)].

(** ** Conditions *)

(** [0 <= x <= 100] *)
Definition weight_in_range (x : float) : bool :=
  (0 <=? x)%float && (x <=? 100)%float.

(** [lo <= len(s) <= hi] *)
Definition length_within (lo hi : nat) (s : string) : bool :=
  (lo <=? String.length s)%nat && (String.length s <=? hi)%nat.

(** The bounds among the constraints [cs], on a float and on an integer. *)
Fixpoint float_within (cs : list constraint) (x : float) : bool :=
  match cs with
  | [] => true
  | ge b :: cs' => (float_of_Z b <=? x)%float && float_within cs' x
  | le b :: cs' => (x <=? float_of_Z b)%float && float_within cs' x
  | _ :: cs' => float_within cs' x
  end.

Fixpoint int_within (cs : list constraint) (x : Z) : bool :=
  match cs with
  | [] => true
  | ge b :: cs' => (b <=? x)%Z && int_within cs' x
  | le b :: cs' => (x <=? b)%Z && int_within cs' x
  | _ :: cs' => int_within cs' x
  end.

(** The exact value of a finite float. *)
Definition exact_value (f : float) : option Q :=
  match Prim2SF f with
  | S754_zero _ => Some 0%Q
  | S754_finite s m e =>
      Some ((if s then -1 else 1) * inject_Z (Z.pos m) * (2 # 1) ^ e)%Q
  | _ => None
  end.

(** ** Violations *)

(** The error raised when the weights are in range and their sum is off. *)
Definition sum_error `{Runtime} (a b c d e : float) : ErrorDetails :=
  {| type_ := "value_error";
     loc := [];
     msg := "Value error, Weightings must sum to 100%, got "
            ++ float_repr (a + b + c + d + e)%float ++ "%";
     input := PyDict (AnalysisWeightings.model_dump (weights a b c d e)) |}.

(** The [msg] of a violation record. *)
Definition record_msg (r : Any) : option string :=
  match r with
  | PyDict d => match get "msg" d with
                | Some (PyStr m) => Some m
                | _ => None
                end
  | _ => None
  end.

(** What a typed entry point makes of the outcome of the construction: the
    entity is returned as it is, and an exception [e] is replaced by one
    [ValueError] whose message is the prefix followed by [str(e)], so it
    shows the text of [e] and the message of every violation of [e]. *)
Definition reraised `{Runtime} {T} (pre : string)
    (construction validation : result T) : Prop :=
  match construction with
  | Ok entity => validation = Ok entity
  | Raise e =>
      validation = Raise (ValueError (pre ++ str_exn e))
      /\ String.prefix pre (pre ++ str_exn e) = true
      /\ contains (str_exn e) (pre ++ str_exn e) = true
      /\ forall title x xs y,
           e = ValidationError title x xs -> In y (x :: xs) ->
           contains (msg y) (pre ++ str_exn e) = true
  end.

(** [retracts val dump]: validating the serialised form of a value yields
    that value and no other. *)
Definition retracts {A} (val : Any -> V A) (dump : A -> Any) : Prop :=
  forall a a', val (dump a) = Valid a' -> a' = a.

(** ** The runtime of the examples

    Nothing is coerced (pydantic's strict mode), a float is shown exactly, as
    [m*2**e], and a [ValidationError] is shown as its title followed by the
    message of each error on a line of its own. *)

Definition exact_repr (f : float) : string :=
  match Prim2SF f with
  | S754_zero s => if s then "-0.0" else "0.0"
  | S754_infinity s => if s then "-inf" else "inf"
  | S754_nan => "nan"
  | S754_finite s m e =>
      (if s then "-" else "") ++ str_of_Z (Z.pos m) ++ "*2**" ++ str_of_Z e
  end.

Fixpoint message_lines (l : list ErrorDetails) : string :=
  match l with
  | [] => ""
  | x :: l' => String "010" (msg x ++ message_lines l')
  end.

Definition strict_display (title : string) (e : ErrorDetails)
    (es : list ErrorDetails) : string :=
  title ++ message_lines (e :: es).

(** ** The documents of the test suite *)

Definition a_datetime : datetime :=
  {| year := 2024; month := 1; day := 15;
     hour := 10; minute := 30; second := 0; microsecond := 0 |}.

Definition a_year_later : datetime :=
  {| year := 2025; month := 1; day := 15;
     hour := 10; minute := 30; second := 0; microsecond := 0 |}.

Definition an_entity : BaseEntity.t :=
  {| BaseEntity.id := 1%N;
     BaseEntity.created_at := a_datetime;
     BaseEntity.updated_at := a_datetime |}.

(** [get_valid_company_profile], with its optional fields missing. *)
Definition company_profile_data (name : string) (founded : Z) : kwargs :=
  [("id", PyUUID 1%N);
   ("created_at", PyDatetime a_datetime);
   ("updated_at", PyDatetime a_datetime);
   ("name", PyStr name);
   ("one_liner", PyStr "Revolutionary AI platform for enterprise automation");
   ("sector", PyStr "Enterprise Software");
   ("stage", PyStr "series-a");
   ("founded_year", PyInt founded);
   ("location", PyStr "San Francisco, CA")].

Definition company_profile (name : string) (founded : Z) : CompanyProfile.t :=
  profile an_entity name
    "Revolutionary AI platform for enterprise automation"
    "Enterprise Software" FundingStage.SERIES_A founded "San Francisco, CA".

(** [get_valid_investment_metrics] *)
Definition investment_metrics_data (arr churn_rate confidence : Any)
    (size : Z) (projected : Z) : kwargs :=
  [("id", PyUUID 3%N);
   ("created_at", PyDatetime a_datetime);
   ("updated_at", PyDatetime a_datetime);
   ("revenue", PyDict
     [("arr", arr);
      ("mrr", PyInt 83333);
      ("growth_rate", PyInt 150);
      ("projected_arr", PyList [PyInt 1000000; PyInt projected; PyInt 4000000])]);
   ("traction", PyDict
     [("customers", PyInt 50);
      ("customer_growth_rate", PyInt 20);
      ("churn_rate", churn_rate);
      ("nps", PyInt 70)]);
   ("team", PyDict
     [("size", PyInt size);
      ("founders_count", PyInt 2);
      ("key_hires", PyList
        [PyDict
           [("name", PyStr "John Doe");
            ("role", PyStr "CTO");
            ("background", PyStr "Former Google engineer");
            ("years_experience", PyInt 10);
            ("is_founder", PyBool true)]])]);
   ("funding", PyDict
     [("total_raised", PyInt 5000000);
      ("last_round_size", PyInt 3000000);
      ("last_round_date", PyDatetime a_datetime);
      ("current_ask", PyInt 10000000);
      ("valuation", PyInt 50000000)]);
   ("extraction_timestamp", PyDatetime a_datetime);
   ("source_documents", PyList [PyStr "doc1.pdf"; PyStr "doc2.docx"]);
   ("confidence", confidence)].

(** [get_valid_benchmark_data] *)
Definition benchmark_data (sample_size metric_max : Z) (confidence : float)
    (end_date : datetime) : kwargs :=
  [("id", PyUUID 4%N);
   ("created_at", PyDatetime a_datetime);
   ("updated_at", PyDatetime a_datetime);
   ("sector", PyStr "Enterprise Software");
   ("sample_size", PyInt sample_size);
   ("metrics", PyDict
     [("arr", PyDict
        [("min", PyInt 100000);
         ("max", PyInt metric_max);
         ("median", PyInt 2000000);
         ("p25", PyInt 500000);
         ("p75", PyInt 5000000);
         ("p90", PyInt 15000000);
         ("mean", PyInt 3500000);
         ("std_dev", PyInt 8000000);
         ("sample_size", PyInt 100)])]);
   ("last_updated", PyDatetime a_datetime);
   ("data_source", PyStr "Industry Research Database");
   ("methodology", PyStr "Survey of 100 enterprise software companies in Series A-C stages");
   ("confidence", PyFloat confidence);
   ("time_range", PyDict
     [("start_date", PyDatetime a_datetime);
      ("end_date", PyDatetime end_date)])].

(** [get_valid_deal_memo] *)
Definition deal_memo_data (signal_score year3 market_opportunity : float)
  : kwargs :=
  [("id", PyUUID 2%N);
   ("created_at", PyDatetime a_datetime);
   ("updated_at", PyDatetime a_datetime);
   ("aegis_deal_memo", PyDict
     [("summary", PyDict
        [("company_name", PyStr "TechStartup Inc");
         ("one_liner", PyStr "Revolutionary AI platform for enterprise automation");
         ("sector", PyStr "Enterprise Software");
         ("stage", PyStr "series-a");
         ("signal_score", PyFloat signal_score);
         ("recommendation", PyStr "buy");
         ("confidence_level", PyFloat 0.9);
         ("last_updated", PyDatetime a_datetime)]);
      ("key_benchmarks", PyList
        [PyDict
           [("metric", PyStr "ARR");
            ("company_value", PyFloat 1000000.0);
            ("sector_median", PyFloat 2000000.0);
            ("percentile", PyFloat 40.0);
            ("interpretation", PyStr "Below median but showing strong growth trajectory");
            ("context", PyStr "Company is earlier stage than typical Series A");
            ("recommendation", PyStr "Monitor growth rate closely")]]);
      ("growth_potential", PyDict
        [("upside_summary", PyStr "Strong potential for 10x growth over 5 years driven by market expansion and product development.");
         ("growth_timeline", PyStr "Expect 3x growth in next 18 months with Series B funding");
         ("key_drivers", PyList
            [PyStr "Market expansion"; PyStr "Product development"; PyStr "Team scaling"]);
         ("scalability_factors", PyList
            [PyStr "Cloud-native architecture"; PyStr "API-first design"]);
         ("market_expansion_opportunity", PyStr "Large addressable market with low penetration");
         ("revenue_projection", PyDict
            [("year1", PyFloat 2000000.0);
             ("year3", PyFloat year3);
             ("year5", PyFloat 50000000.0)])]);
      ("risk_assessment", PyDict
        [("overall_risk_score", PyFloat 35.0);
         ("high_priority_risks", PyList []);
         ("medium_priority_risks", PyList []);
         ("low_priority_risks", PyList []);
         ("risk_mitigation_plan", PyList
            [PyStr "Regular customer feedback collection"; PyStr "Competitive monitoring"])]);
      ("investment_recommendation", PyDict
        [("narrative", PyStr "TechStartup Inc represents a compelling investment opportunity in the rapidly growing enterprise automation market. The company has demonstrated strong product-market fit with impressive early traction and a world-class founding team.");
         ("investment_thesis", PyStr "Enterprise automation is a massive market opportunity with TechStartup positioned to capture significant market share.");
         ("ideal_check_size", PyStr "$2-5M");
         ("ideal_valuation_cap", PyStr "$25M cap");
         ("suggested_terms", PyList
            [PyStr "Board seat"; PyStr "Pro rata rights"; PyStr "Anti-dilution protection"]);
         ("key_diligence_questions", PyList
            [PyStr "What is the customer acquisition cost trend?";
             PyStr "How defensible is the technology moat?";
             PyStr "What are the key competitive threats?"]);
         ("follow_up_actions", PyList
            [PyStr "Reference calls with customers"; PyStr "Technical deep dive"]);
         ("timeline_to_decision", PyStr "2-3 weeks")]);
      ("analysis_weightings", PyDict
        [("market_opportunity", PyFloat market_opportunity);
         ("team", PyFloat 25.0);
         ("traction", PyFloat 20.0);
         ("product", PyFloat 15.0);
         ("competitive_position", PyFloat 15.0)]);
      ("metadata", PyDict
        [("generated_by", PyStr "Aegis AI v1.0");
         ("analysis_version", PyStr "1.0.0");
         ("source_documents", PyList [PyStr "pitch_deck.pdf"; PyStr "transcript.txt"]);
         ("processing_time", PyFloat 45.2);
         ("data_quality", PyFloat 0.85)])])].

(** ** What the declarations require of a value

    The constraints of a [Field(...)] on a string and on a list, the
    constraint of an optional field, and the outcome of a validator. *)

Fixpoint str_within (cs : list constraint) (s : string) : bool :=
  match cs with
  | [] => true
  | min_length n :: cs' => (n <=? String.length s)%nat && str_within cs' s
  | max_length n :: cs' => (String.length s <=? n)%nat && str_within cs' s
  | _ :: cs' => str_within cs' s
  end.

Fixpoint list_within {A} (cs : list constraint) (l : list A) : bool :=
  match cs with
  | [] => true
  | min_length n :: cs' => (n <=? List.length l)%nat && list_within cs' l
  | max_length n :: cs' => (List.length l <=? n)%nat && list_within cs' l
  | _ :: cs' => list_within cs' l
  end.

(** [None], or a value that satisfies [ok]. *)
Definition optional_ok {A} (ok : A -> bool) (o : option A) : bool :=
  match o with
  | Some a => ok a
  | None => true
  end.

(** The validator returns (it does not raise). *)
Definition returns {A} (r : checked A) : bool :=
  match r with
  | Return _ => true
  | RaiseValueError _ => false
  end.

(** The violations a validation has collected, in order. *)
Definition violations {A} (x : V A) : list ErrorDetails :=
  match x with
  | Valid _ => []
  | Invalid e es => e :: es
  end.

(** The violation of a required field that the document lacks. *)
Definition missing (name : string) (data : kwargs) : ErrorDetails :=
  {| type_ := "missing"; loc := [Key name]; msg := "Field required";
     input := PyDict data |}.

(** The violation raised by a validator of the field [name], on the value
    [v] found under that name. *)
Definition value_error (path : list LocItem) (m : string) (v : Any)
  : ErrorDetails :=
  {| type_ := "value_error"; loc := path; msg := "Value error, " ++ m;
     input := v |}.

(** * What each class accepts

    One predicate per class: the constraints its declaration puts on the
    fields of an instance, and its cross-field rule. Fields that are not
    constrained are not mentioned. *)

Definition TeamMember_ok (m : TeamMember.t) : bool :=
  str_within [min_length 1; max_length 100] m.(TeamMember.name)
  && str_within [min_length 1; max_length 100] m.(TeamMember.role)
  && optional_ok (int_within [ge 0; le 50]) m.(TeamMember.years_experience).

Definition CompanyProfile_ok (schemas : Schemas) (p : CompanyProfile.t) : bool :=
  str_within [min_length 1; max_length 200] p.(CompanyProfile.name)
  && str_within [min_length 10; max_length 500] p.(CompanyProfile.one_liner)
  && str_within [min_length 1; max_length 100] p.(CompanyProfile.sector)
  && int_within [ge 1900; le (founded_year_le schemas)] p.(CompanyProfile.founded_year)
  && str_within [min_length 1; max_length 200] p.(CompanyProfile.location)
  && optional_ok (str_within [max_length 2000]) p.(CompanyProfile.description).

(** [value < 0] holds of no projected value. *)
Definition none_negative (values : list float) : bool :=
  forallb (fun value => negb (value <? 0)%float) values.

Definition RevenueMetrics_ok (m : RevenueMetrics.t) : bool :=
  optional_ok (float_within [ge 0]) m.(RevenueMetrics.arr)
  && optional_ok (float_within [ge 0]) m.(RevenueMetrics.mrr)
  && optional_ok (float_within [ge (-100); le 10000]) m.(RevenueMetrics.growth_rate)
  && optional_ok none_negative m.(RevenueMetrics.projected_arr)
  && optional_ok (float_within [ge 0]) m.(RevenueMetrics.revenue_run_rate)
  && optional_ok (float_within [ge 0; le 100]) m.(RevenueMetrics.gross_margin)
  && optional_ok (float_within [ge 0; le 500]) m.(RevenueMetrics.net_revenue_retention).

Definition TractionMetrics_ok (m : TractionMetrics.t) : bool :=
  optional_ok (int_within [ge 0]) m.(TractionMetrics.customers)
  && optional_ok (float_within [ge (-100); le 10000]) m.(TractionMetrics.customer_growth_rate)
  && optional_ok (float_within [ge 0; le 100]) m.(TractionMetrics.churn_rate)
  && optional_ok (float_within [ge (-100); le 100]) m.(TractionMetrics.nps)
  && optional_ok (int_within [ge 0]) m.(TractionMetrics.active_users)
  && optional_ok (float_within [ge 0; le 100]) m.(TractionMetrics.conversion_rate)
  && optional_ok (float_within [ge 0]) m.(TractionMetrics.ltv)
  && optional_ok (float_within [ge 0]) m.(TractionMetrics.cac)
  && optional_ok (float_within [ge 0]) m.(TractionMetrics.ltv_cac_ratio).

Definition TeamMetrics_ok (m : TeamMetrics.t) : bool :=
  int_within [ge 1; le 10000] m.(TeamMetrics.size)
  && int_within [ge 1; le 20] m.(TeamMetrics.founders_count)
  && forallb TeamMember_ok m.(TeamMetrics.key_hires)
  && optional_ok (int_within [ge 0]) m.(TeamMetrics.engineering_team_size)
  && optional_ok (int_within [ge 0]) m.(TeamMetrics.sales_team_size)
  && optional_ok (float_within [ge 0]) m.(TeamMetrics.burn_rate)
  && optional_ok (float_within [ge 0]) m.(TeamMetrics.runway).

Definition FundingMetrics_ok (m : FundingMetrics.t) : bool :=
  optional_ok (float_within [ge 0]) m.(FundingMetrics.total_raised)
  && optional_ok (float_within [ge 0]) m.(FundingMetrics.last_round_size)
  && optional_ok (float_within [ge 0]) m.(FundingMetrics.current_ask)
  && optional_ok (float_within [ge 0]) m.(FundingMetrics.valuation)
  && optional_ok (float_within [ge 0]) m.(FundingMetrics.pre_money_valuation)
  && optional_ok (float_within [ge 0]) m.(FundingMetrics.post_money_valuation).

Definition InvestmentMetrics_ok (m : InvestmentMetrics.t) : bool :=
  RevenueMetrics_ok m.(InvestmentMetrics.revenue)
  && TractionMetrics_ok m.(InvestmentMetrics.traction)
  && TeamMetrics_ok m.(InvestmentMetrics.team)
  && FundingMetrics_ok m.(InvestmentMetrics.funding)
  && float_within [ge 0; le 1] m.(InvestmentMetrics.confidence).

(** [s] is one of the strings of [allowed]. *)
Definition one_of_literals (allowed : list string) (s : string) : bool :=
  existsb (String.eqb s) allowed.

Definition RiskFlag_ok (r : RiskFlag.t) : bool :=
  str_within [min_length 1; max_length 200] r.(RiskFlag.title)
  && str_within [min_length 10; max_length 1000] r.(RiskFlag.description)
  && str_within [min_length 10; max_length 1000] r.(RiskFlag.suggested_mitigation)
  && float_within [ge 0; le 1] r.(RiskFlag.confidence)
  && one_of_literals ["low"; "medium"; "high"; "critical"] r.(RiskFlag.impact)
  && one_of_literals ["low"; "medium"; "high"] r.(RiskFlag.likelihood)
  && one_of_literals ["financial"; "market"; "team"; "product"; "competitive"; "operational"]
       r.(RiskFlag.category).

Definition MetricDistribution_ok (d : MetricDistribution.t) : bool :=
  int_within [ge 1] d.(MetricDistribution.sample_size)
  && negb (d.(MetricDistribution.max) <? d.(MetricDistribution.min))%float
  && (d.(MetricDistribution.min) <=? d.(MetricDistribution.median))%float
  && (d.(MetricDistribution.median) <=? d.(MetricDistribution.max))%float.

Definition TimeRange_ok (r : TimeRange.t) : bool :=
  negb (datetime_ltb r.(TimeRange.end_date) r.(TimeRange.start_date)).

Definition BenchmarkData_ok (b : BenchmarkData.t) : bool :=
  str_within [min_length 1; max_length 100] b.(BenchmarkData.sector)
  && optional_ok (str_within [max_length 100]) b.(BenchmarkData.sub_sector)
  && optional_ok (str_within [max_length 100]) b.(BenchmarkData.geography)
  && int_within [ge 1] b.(BenchmarkData.sample_size)
  && forallb (fun kv => MetricDistribution_ok (snd kv)) b.(BenchmarkData.metrics)
  && str_within [min_length 1; max_length 200] b.(BenchmarkData.data_source)
  && str_within [min_length 10; max_length 1000] b.(BenchmarkData.methodology)
  && float_within [ge 0; le 1] b.(BenchmarkData.confidence)
  && TimeRange_ok b.(BenchmarkData.time_range).

Definition BenchmarkComparison_ok (c : BenchmarkComparison.t) : bool :=
  str_within [min_length 1; max_length 100] c.(BenchmarkComparison.metric)
  && float_within [ge 0; le 100] c.(BenchmarkComparison.percentile)
  && str_within [min_length 10; max_length 500] c.(BenchmarkComparison.interpretation)
  && str_within [min_length 10; max_length 500] c.(BenchmarkComparison.context)
  && optional_ok (str_within [max_length 500]) c.(BenchmarkComparison.recommendation).

Definition AnalysisWeightings_ok (w : AnalysisWeightings.t) : bool :=
  float_within [ge 0; le 100] w.(AnalysisWeightings.market_opportunity)
  && float_within [ge 0; le 100] w.(AnalysisWeightings.team)
  && float_within [ge 0; le 100] w.(AnalysisWeightings.traction)
  && float_within [ge 0; le 100] w.(AnalysisWeightings.product)
  && float_within [ge 0; le 100] w.(AnalysisWeightings.competitive_position)
  && negb (0.01 <? abs (AnalysisWeightings.total w - 100.0))%float.

Definition DealMemoSummary_ok (s : DealMemoSummary.t) : bool :=
  str_within [min_length 1; max_length 200] s.(DealMemoSummary.company_name)
  && str_within [min_length 10; max_length 500] s.(DealMemoSummary.one_liner)
  && str_within [min_length 1; max_length 100] s.(DealMemoSummary.sector)
  && float_within [ge 0; le 100] s.(DealMemoSummary.signal_score)
  && float_within [ge 0; le 1] s.(DealMemoSummary.confidence_level).

Definition RevenueProjection_ok (p : RevenueProjection.t) : bool :=
  float_within [ge 0] p.(RevenueProjection.year1)
  && float_within [ge 0] p.(RevenueProjection.year3)
  && float_within [ge 0] p.(RevenueProjection.year5)
  && negb (p.(RevenueProjection.year3) <? p.(RevenueProjection.year1))%float
  && negb (p.(RevenueProjection.year5) <? p.(RevenueProjection.year3))%float.

(** Every item has between [lo] and [hi] characters. *)
Definition items_within (lo hi : nat) (items : list string) : bool :=
  forallb (length_within lo hi) items.

Definition GrowthPotential_ok (g : GrowthPotential.t) : bool :=
  str_within [min_length 50; max_length 2000] g.(GrowthPotential.upside_summary)
  && str_within [min_length 20; max_length 1000] g.(GrowthPotential.growth_timeline)
  && list_within [min_length 1] g.(GrowthPotential.key_drivers)
  && items_within 5 200 g.(GrowthPotential.key_drivers)
  && list_within [min_length 1] g.(GrowthPotential.scalability_factors)
  && items_within 5 200 g.(GrowthPotential.scalability_factors)
  && str_within [min_length 20; max_length 1000] g.(GrowthPotential.market_expansion_opportunity)
  && RevenueProjection_ok g.(GrowthPotential.revenue_projection).

Definition RiskAssessment_ok (r : RiskAssessment.t) : bool :=
  float_within [ge 0; le 100] r.(RiskAssessment.overall_risk_score)
  && forallb RiskFlag_ok r.(RiskAssessment.high_priority_risks)
  && forallb RiskFlag_ok r.(RiskAssessment.medium_priority_risks)
  && forallb RiskFlag_ok r.(RiskAssessment.low_priority_risks)
  && list_within [min_length 1] r.(RiskAssessment.risk_mitigation_plan)
  && items_within 10 500 r.(RiskAssessment.risk_mitigation_plan).

Definition InvestmentRecommendation_ok (r : InvestmentRecommendation.t) : bool :=
  str_within [min_length 100; max_length 3000] r.(InvestmentRecommendation.narrative)
  && str_within [min_length 50; max_length 2000] r.(InvestmentRecommendation.investment_thesis)
  && str_within [min_length 5; max_length 100] r.(InvestmentRecommendation.ideal_check_size)
  && str_within [min_length 5; max_length 100] r.(InvestmentRecommendation.ideal_valuation_cap)
  && list_within [min_length 1] r.(InvestmentRecommendation.suggested_terms)
  && items_within 5 200 r.(InvestmentRecommendation.suggested_terms)
  && list_within [min_length 1] r.(InvestmentRecommendation.key_diligence_questions)
  && items_within 10 300 r.(InvestmentRecommendation.key_diligence_questions)
  && list_within [min_length 1] r.(InvestmentRecommendation.follow_up_actions)
  && items_within 5 200 r.(InvestmentRecommendation.follow_up_actions)
  && str_within [min_length 5; max_length 100] r.(InvestmentRecommendation.timeline_to_decision).

Definition DealMemoMetadata_ok (m : DealMemoMetadata.t) : bool :=
  str_within [min_length 1; max_length 100] m.(DealMemoMetadata.generated_by)
  && str_within [min_length 1; max_length 20] m.(DealMemoMetadata.analysis_version)
  && float_within [ge 0] m.(DealMemoMetadata.processing_time)
  && float_within [ge 0; le 1] m.(DealMemoMetadata.data_quality).

Definition AegisDealMemo_ok (m : AegisDealMemo.t) : bool :=
  DealMemoSummary_ok m.(AegisDealMemo.summary)
  && forallb BenchmarkComparison_ok m.(AegisDealMemo.key_benchmarks)
  && GrowthPotential_ok m.(AegisDealMemo.growth_potential)
  && RiskAssessment_ok m.(AegisDealMemo.risk_assessment)
  && InvestmentRecommendation_ok m.(AegisDealMemo.investment_recommendation)
  && AnalysisWeightings_ok m.(AegisDealMemo.analysis_weightings)
  && DealMemoMetadata_ok m.(AegisDealMemo.metadata).

Definition DealMemo_ok (m : DealMemo.t) : bool :=
  AegisDealMemo_ok m.(DealMemo.aegis_deal_memo).

(** ** More documents of the test suite *)

(** [get_valid_risk_flag] *)
Definition risk_flag_data (description : string) (confidence : float)
    (impact : string) : kwargs :=
  [("id", PyUUID 5%N);
   ("created_at", PyDatetime a_datetime);
   ("updated_at", PyDatetime a_datetime);
   ("type", PyStr "financial-anomaly");
   ("severity", PyStr "HIGH");
   ("title", PyStr "Unusual Churn Pattern");
   ("description", PyStr description);
   ("affected_metrics", PyList [PyStr "churn_rate"; PyStr "customer_growth_rate"]);
   ("suggested_mitigation", PyStr "Conduct customer interviews to understand churn drivers and implement retention strategies.");
   ("source_documents", PyList [PyStr "transcript.txt"; PyStr "metrics.pdf"]);
   ("confidence", PyFloat confidence);
   ("impact", PyStr impact);
   ("likelihood", PyStr "medium");
   ("category", PyStr "financial");
   ("detected_at", PyDatetime a_datetime);
   ("evidence", PyList [PyStr "Churn increased from 3% to 8%";
                        PyStr "No explanation in founder updates"])].

Definition a_description : string :=
  "Customer churn rate has increased significantly in recent months without clear explanation.".

(** Thirty-five days before [a_datetime]. *)
Definition five_weeks_earlier : datetime :=
  {| year := 2023; month := 12; day := 11;
     hour := 10; minute := 30; second := 0; microsecond := 0 |}.

(** * Properties *)

(** ** Strings *)

Lemma append_assoc (a b c : string) : (a ++ b) ++ c = a ++ (b ++ c).
Proof. induction a as [|x a IH]; cbn; [reflexivity | now rewrite IH]. Qed.

Lemma append_nil_r (a : string) : a ++ "" = a.
Proof. induction a as [|x a IH]; cbn; [reflexivity | now rewrite IH]. Qed.

Lemma prefix_app (p s : string) : String.prefix p (p ++ s) = true.
Proof.
  induction p as [|x p IH]; cbn; [now destruct s|].
  destruct (ascii_dec x x); [exact IH | congruence].
Qed.

Lemma prefix_split (p s : string) :
  String.prefix p s = true -> exists post, s = p ++ post.
Proof.
  revert s. induction p as [|x p IH]; intros s Hp.
  - now exists s.
  - destruct s as [|y s]; cbn in Hp; [discriminate|].
    destruct (ascii_dec x y) as [->|]; [|discriminate].
    destruct (IH _ Hp) as [post ->]. now exists post.
Qed.

(** [contains] decides the occurrence of a string inside another. *)
Lemma contains_intro (sub pre post : string) :
  contains sub (pre ++ sub ++ post) = true.
Proof.
  induction pre as [|x pre IH].
  - cbn [append]. destruct (sub ++ post) eqn:E; cbn [contains];
      rewrite <- E, prefix_app; reflexivity.
  - cbn [append contains]. rewrite IH. now destruct (String.prefix _ _).
Qed.

Lemma contains_elim (sub s : string) :
  contains sub s = true -> exists pre post, s = pre ++ sub ++ post.
Proof.
  induction s as [|x s IH]; cbn [contains].
  - destruct (String.prefix sub "") eqn:E; [|discriminate]. intros _.
    destruct (prefix_split _ _ E) as [post ->]. now exists "", post.
  - destruct (String.prefix sub (String x s)) eqn:E.
    + intros _. destruct (prefix_split _ _ E) as [post ->]. now exists "", post.
    + intros Hc. destruct (IH Hc) as (pre & post & ->).
      now exists (String x pre), post.
Qed.

Lemma contains_app_l (sub a b : string) :
  contains sub a = true -> contains sub (a ++ b) = true.
Proof.
  intros Hc. destruct (contains_elim _ _ Hc) as (pre & post & ->).
  rewrite !append_assoc. apply contains_intro.
Qed.

Lemma contains_app_r (sub a b : string) :
  contains sub b = true -> contains sub (a ++ b) = true.
Proof.
  intros Hc. destruct (contains_elim _ _ Hc) as (pre & post & ->).
  rewrite <- append_assoc. apply contains_intro.
Qed.

(** ** Collected validation *)

Lemma raise_errors_ok {A} (title : string) (x : V A) (a : A) :
  raise_errors title x = Ok a <-> x = Valid a.
Proof. destruct x; cbn; split; congruence. Qed.

Lemma vmap_valid {A B} (f : A -> B) (x : V A) (b : B) :
  f <$> x = Valid b -> exists a, x = Valid a /\ b = f a.
Proof. destruct x; cbn; [|discriminate]. intros [= <-]. eauto. Qed.

Lemma vap_valid {A B} (f : V (A -> B)) (x : V A) (b : B) :
  f <*> x = Valid b -> exists g a, f = Valid g /\ x = Valid a /\ b = g a.
Proof. destruct f, x; cbn; try discriminate. intros [= <-]. eauto. Qed.

Lemma and_then_valid {A B} (x : V A) (k : A -> V B) (b : B) :
  and_then x k = Valid b -> exists a, x = Valid a /\ k a = Valid b.
Proof. destruct x; cbn; [eauto | discriminate]. Qed.

Lemma at_loc_valid {A} (i : LocItem) (x : V A) (a : A) :
  at_loc i x = Valid a -> x = Valid a.
Proof. destruct x; cbn; congruence. Qed.

Lemma run_validator_valid {A} (v : Any) (r : checked A) (a : A) :
  run_validator v r = Valid a -> r = Return a.
Proof. destruct r; cbn; [congruence | discriminate]. Qed.

(** ** Order of binary64 floats *)

Lemma SFcompare_antisym (x y : spec_float) :
  SFcompare y x = option_map CompOpp (SFcompare x y).
Proof.
  destruct x as [[]|[]| |[] m1 e1], y as [[]|[]| |[] m2 e2]; cbn; try reflexivity;
    change (PosDef.Pos.compare_cont Eq m2 m1) with (Pos.compare m2 m1);
    change (PosDef.Pos.compare_cont Eq m1 m2) with (Pos.compare m1 m2);
    rewrite (Z.compare_antisym e1 e2), (Pos.compare_antisym m1 m2);
    destruct (e1 ?= e2)%Z, (m1 ?= m2)%positive; reflexivity.
Qed.

Lemma SFcompare_None (x y : spec_float) :
  SFcompare x y = None -> SFcompare x x = None \/ SFcompare y y = None.
Proof.
  destruct x as [[]|[]| |[] m1 e1], y as [[]|[]| |[] m2 e2]; cbn;
    try discriminate; auto.
Qed.

Lemma leb_not_ltb (x y : float) :
  (x <=? y)%float = true -> (y <? x)%float = false.
Proof.
  rewrite FloatAxioms.leb_spec, FloatAxioms.ltb_spec. unfold SFleb, SFltb.
  rewrite (SFcompare_antisym (Prim2SF x) (Prim2SF y)).
  now destruct (SFcompare (Prim2SF x) (Prim2SF y)) as [[]|].
Qed.

(** A float that compares equal to itself is not NaN; on such floats the
    order is total. *)
Lemma not_ltb_leb (x y : float) :
  (x =? x)%float = true -> (y =? y)%float = true ->
  (y <? x)%float = false -> (x <=? y)%float = true.
Proof.
  rewrite !FloatAxioms.eqb_spec, FloatAxioms.leb_spec, FloatAxioms.ltb_spec. unfold SFeqb, SFleb, SFltb.
  rewrite (SFcompare_antisym (Prim2SF x) (Prim2SF y)).
  intros Hx Hy.
  destruct (SFcompare (Prim2SF x) (Prim2SF y)) as [[]|] eqn:E; cbn; try easy.
  destruct (SFcompare_None _ _ E) as [E'|E']; rewrite E' in *; discriminate.
Qed.

Lemma leb_eqb_l (x y : float) : (x <=? y)%float = true -> (x =? x)%float = true.
Proof.
  rewrite FloatAxioms.eqb_spec, FloatAxioms.leb_spec. unfold SFeqb, SFleb.
  destruct (Prim2SF x) as [[]|[]| |[] m1 e1], (Prim2SF y) as [[]|[]| |[] m2 e2];
    cbn; try easy; now rewrite Z.compare_refl, Pos.compare_cont_refl.
Qed.

Lemma leb_eqb_r (x y : float) : (x <=? y)%float = true -> (y =? y)%float = true.
Proof.
  rewrite FloatAxioms.eqb_spec, FloatAxioms.leb_spec. unfold SFeqb, SFleb.
  destruct (Prim2SF x) as [[]|[]| |[] m1 e1], (Prim2SF y) as [[]|[]| |[] m2 e2];
    cbn; try easy; now rewrite Z.compare_refl, Pos.compare_cont_refl.
Qed.

Lemma leb_zero_trans (x y : float) :
  (float_of_Z 0 <=? x)%float = true -> (x <=? y)%float = true ->
  (float_of_Z 0 <=? y)%float = true.
Proof.
  rewrite !FloatAxioms.leb_spec. change (Prim2SF (float_of_Z 0)) with (S754_zero false).
  unfold SFleb.
  destruct (Prim2SF x) as [[]|[]| |[] m1 e1], (Prim2SF y) as [[]|[]| |[] m2 e2];
    cbn; easy.
Qed.

Lemma is_ok_true {A} (r : result A) : is_ok r = true <-> exists a, r = Ok a.
Proof. destruct r; cbn; split; eauto; try discriminate. now intros [? ?]. Qed.

(** ** What a valid field satisfies *)

Section FieldFacts.
Context `{Runtime}.

Lemma check_float_le_valid (cs : list constraint) (v : Any) (x y : float) :
  check_float_le cs v x = Valid y -> y = x.
Proof.
  induction cs as [|[b|b|n|n] cs IH]; cbn; auto.
  - now intros [= ->].
  - destruct (x <=? float_of_Z b)%float; [auto | discriminate].
Qed.

Lemma check_float_passes (cs : list constraint) (v : Any) (x y : float) :
  check_float_le cs v x = Valid x -> check_float_ge cs v x = Valid y ->
  y = x /\ float_within cs x = true.
Proof.
  induction cs as [|[b|b|n|n] cs IH]; cbn; auto.
  - now intros _ [= ->].
  - intros Hle. destruct (float_of_Z b <=? x)%float; [auto | discriminate].
  - destruct (x <=? float_of_Z b)%float; [auto | discriminate].
Qed.

Lemma check_float_valid (cs : list constraint) (v : Any) (x y : float) :
  check_float cs v x = Valid y -> y = x /\ float_within cs x = true.
Proof.
  unfold check_float. intros Hc.
  apply and_then_valid in Hc as (x' & Hle & Hge).
  pose proof (check_float_le_valid _ _ _ _ Hle) as ->.
  eapply check_float_passes; eassumption.
Qed.

Lemma check_float_intro (cs : list constraint) (v : Any) (x : float) :
  float_within cs x = true -> check_float cs v x = Valid x.
Proof.
  intros Hw. unfold check_float.
  assert (Hle : check_float_le cs v x = Valid x).
  { induction cs as [|[b|b|n|n] cs IH]; cbn in *; auto.
    - apply andb_true_iff in Hw as [_ Hw]. auto.
    - apply andb_true_iff in Hw as [-> Hw]. auto. }
  rewrite Hle. cbn [and_then].
  induction cs as [|[b|b|n|n] cs IH]; cbn in *; auto.
  - apply andb_true_iff in Hw as [-> Hw]. auto.
  - apply andb_true_iff in Hw as [Hb Hw]. rewrite Hb in Hle. auto.
Qed.

Lemma Float_valid (cs : list constraint) (v : Any) (y : float) :
  Float cs v = Valid y -> float_within cs y = true.
Proof.
  unfold Float.
  destruct v; try destruct (lax_float _); try destruct (is_infinity _);
    try discriminate;
    intros Hc; apply check_float_valid in Hc as [-> Hc]; exact Hc.
Qed.

Lemma check_int_le_valid (cs : list constraint) (v : Any) (x y : Z) :
  check_int_le cs v x = Valid y -> y = x.
Proof.
  induction cs as [|[b|b|n|n] cs IH]; cbn; auto.
  - now intros [= ->].
  - destruct (x <=? b)%Z; [auto | discriminate].
Qed.

Lemma check_int_passes (cs : list constraint) (v : Any) (x y : Z) :
  check_int_le cs v x = Valid x -> check_int_ge cs v x = Valid y ->
  y = x /\ int_within cs x = true.
Proof.
  induction cs as [|[b|b|n|n] cs IH]; cbn; auto.
  - now intros _ [= ->].
  - intros Hle. destruct (b <=? x)%Z; [auto | discriminate].
  - destruct (x <=? b)%Z; [auto | discriminate].
Qed.

Lemma check_int_valid (cs : list constraint) (v : Any) (x y : Z) :
  check_int cs v x = Valid y -> y = x /\ int_within cs x = true.
Proof.
  unfold check_int. intros Hc.
  apply and_then_valid in Hc as (x' & Hle & Hge).
  pose proof (check_int_le_valid _ _ _ _ Hle) as ->.
  eapply check_int_passes; eassumption.
Qed.

Lemma check_int_intro (cs : list constraint) (v : Any) (x : Z) :
  int_within cs x = true -> check_int cs v x = Valid x.
Proof.
  intros Hw. unfold check_int.
  assert (Hle : check_int_le cs v x = Valid x).
  { induction cs as [|[b|b|n|n] cs IH]; cbn in *; auto.
    - apply andb_true_iff in Hw as [_ Hw]. auto.
    - apply andb_true_iff in Hw as [-> Hw]. auto. }
  rewrite Hle. cbn [and_then].
  induction cs as [|[b|b|n|n] cs IH]; cbn in *; auto.
  - apply andb_true_iff in Hw as [-> Hw]. auto.
  - apply andb_true_iff in Hw as [Hb Hw]. rewrite Hb in Hle. auto.
Qed.

Lemma Int_valid (cs : list constraint) (v : Any) (y : Z) :
  Int cs v = Valid y -> int_within cs y = true.
Proof.
  unfold Int.
  destruct v; try destruct (lax_int _); try discriminate;
    intros Hc; apply check_int_valid in Hc as [-> Hc]; exact Hc.
Qed.

(** A valid field holds the validated value found under its name, or its
    default when the name is absent. *)
Lemma field_valid {A} (data : kwargs) (name : string) (dflt : option A)
    (val : Any -> V A) (x : A) :
  field data name dflt val = Valid x ->
  (exists v, get name data = Some v /\ val v = Valid x)
  \/ (get name data = None /\ dflt = Some x).
Proof.
  unfold field. destruct (get name data) as [v|].
  - intros Hv. apply at_loc_valid in Hv. eauto.
  - destruct dflt as [d|]; [|discriminate]. intros [= ->]. auto.
Qed.

End FieldFacts.

Arguments check_float : simpl never.
Arguments check_int : simpl never.

(** Rewrites the goal with the boolean facts at hand. *)
Ltac rewrite_facts :=
  repeat match goal with
         | E : ?c = true |- context [?c] => rewrite E
         | E : ?c = false |- context [?c] => rewrite E
         end.

(** Splits a conjunction of boolean facts into its facts. *)
Ltac split_facts H :=
  repeat (let H' := fresh "E" in apply andb_true_iff in H as [H' H]);
  clear H.

(** Shows the integer bounds of float fields as the floats they are. *)
Ltac float_consts :=
  repeat match goal with
         | |- context [float_of_Z ?k] =>
             let f := eval vm_compute in (float_of_Z k) in
             progress change (float_of_Z k) with f
         | H : context [float_of_Z ?k] |- _ =>
             let f := eval vm_compute in (float_of_Z k) in
             progress change (float_of_Z k) with f in H
         end.

(** Discharges the bounds of the number fields of a goal from the facts at
    hand. *)
Ltac bounds_hold :=
  rewrite ?check_float_intro, ?check_int_intro
    by (cbn [float_within int_within]; float_consts; rewrite_facts; reflexivity).

Arguments Nat.leb !n !m : simpl nomatch.
Arguments Z.leb !x !y : simpl nomatch.

(** Inversion of a successful, collected validation: every component is
    valid, and the value is built from the components' values. *)
Ltac valid_leaf H :=
  lazymatch type of H with
  | at_loc _ _ = Valid _ => apply at_loc_valid in H; valid_leaf H
  | check_float _ _ _ = Valid _ =>
      apply check_float_valid in H as [-> H]; cbn [float_within] in H;
      split_facts H
  | check_int _ _ _ = Valid _ =>
      apply check_int_valid in H as [-> H]; cbn [int_within] in H;
      split_facts H
  | (if ?c then _ else _) = Valid _ =>
      let E := fresh "E" in
      destruct c eqn:E; [valid_leaf H | try discriminate H]
  | match ?o with Some _ => _ | None => _ end = Valid _ =>
      let E := fresh "E" in
      destruct o eqn:E; [valid_leaf H | try discriminate H]
  | fail _ _ _ = Valid _ => discriminate H
  | Valid _ = Valid ?x => injection H as H; try subst x
  | _ => idtac
  end.

Ltac valid_inv H :=
  lazymatch type of H with
  | (_ <*> _) = Valid _ =>
      let g := fresh "g" in
      let x := fresh "x" in
      let Hg := fresh "Hg" in
      let Hx := fresh "Hx" in
      apply vap_valid in H as (g & x & Hg & Hx & ->);
      valid_inv Hg; cbn in Hx; valid_leaf Hx
  | (_ <$> _) = Valid _ =>
      let x := fresh "x" in
      let Hx := fresh "Hx" in
      apply vmap_valid in H as (x & Hx & ->); cbn in Hx; valid_leaf Hx
  | _ => idtac
  end.

(** [fields_inv H] splits a valid [fields data = Valid self] into one fact
    per field. *)
Ltac fields_inv H :=
  lazymatch type of H with
  | (_ <*> _) = Valid _ =>
      let g := fresh "g" in
      let x := fresh "x" in
      let Hg := fresh "Hg" in
      let Hx := fresh "Hx" in
      apply vap_valid in H as (g & x & Hg & Hx & ->);
      fields_inv Hg
  | (_ <$> _) = Valid _ =>
      let x := fresh "x" in
      let Hx := fresh "Hx" in
      apply vmap_valid in H as (x & Hx & ->)
  | _ => idtac
  end.

(** ** The runtime of the examples *)

Lemma message_lines_embeds (l : list ErrorDetails) (x : ErrorDetails) :
  In x l -> exists pre post, message_lines l = pre ++ msg x ++ post.
Proof.
  induction l as [|y l IH]; [intros []|].
  intros [->|Hin].
  - exists (String "010" ""), (message_lines l). reflexivity.
  - destruct (IH Hin) as (pre & post & E).
    exists (String "010" (msg y ++ pre)), post.
    cbn [message_lines append]. now rewrite E, append_assoc.
Qed.

Lemma strict_display_embeds (title : string) (e : ErrorDetails)
    (es : list ErrorDetails) (x : ErrorDetails) :
  In x (e :: es) ->
  exists pre post, strict_display title e es = pre ++ msg x ++ post.
Proof.
  intros Hin. destruct (message_lines_embeds _ _ Hin) as (pre & post & E).
  exists (title ++ pre), post. unfold strict_display.
  now rewrite E, append_assoc.
Qed.

Definition strict_runtime : Runtime := {|
  float_repr := exact_repr;
  lax_float := fun _ => None;
  lax_int := fun _ => None;
  lax_bool := fun _ => None;
  lax_uuid := fun _ => None;
  lax_datetime := fun _ => None;
  http_url := fun v => match v with PyUrl u => Some u | _ => None end;
  url_refusal := fun v =>
    match v with
    | PyStr _ => ("url_parsing",
                  "Input should be a valid URL, relative URL without a base")
    | _ => ("url_type", "URL input should be a string or URL")
    end;
  display := strict_display;
  display_embeds := strict_display_embeds
|}.

(** ** AnalysisWeightings *)

Section AnalysisWeightingsFacts.
Context `{Runtime}.
Import AnalysisWeightings.

Lemma weight_field_valid (data : kwargs) (name : string) (d x : float) :
  weight_in_range d = true ->
  field data name (default d) (Float [ge 0; le 100]) = Valid x ->
  weight_in_range x = true.
Proof.
  intros Hd Hf. apply field_valid in Hf as [(v & _ & Hv)|(_ & [= <-])]; [|exact Hd].
  apply Float_valid in Hv. cbn in Hv. unfold weight_in_range.
  change (float_of_Z 0) with 0%float in Hv.
  change (float_of_Z 100) with 100%float in Hv.
  now rewrite andb_true_r in Hv.
Qed.

(** Whatever the document, a constructed [AnalysisWeightings] has every
    weight in [[0, 100]] and passed the check of the sum. *)
Lemma AnalysisWeightings_new_inv (data : kwargs) (w : t) :
  new data = Ok w ->
  weight_in_range w.(market_opportunity) = true
  /\ weight_in_range w.(team) = true
  /\ weight_in_range w.(traction) = true
  /\ weight_in_range w.(product) = true
  /\ weight_in_range w.(competitive_position) = true
  /\ (0.01 <? abs (total w - 100.0))%float = false.
Proof.
  unfold new, validate, model. rewrite raise_errors_ok.
  intros Hv. apply and_then_valid in Hv as (self & Hf & Hv).
  apply run_validator_valid in Hv.
  unfold validate_weightings_sum in Hv.
  destruct (0.01 <? abs (total self - 100.0))%float eqn:Hsum; [discriminate|].
  injection Hv as <-.
  unfold fields in Hf. fields_inv Hf. cbn.
  repeat split;
    solve [ eapply weight_field_valid; [|eassumption]; reflexivity | exact Hsum ].
Qed.

Lemma AnalysisWeightings_new_ok (a b c d e : float) (w : t) :
  new (model_dump (weights a b c d e)) = Ok w -> w = weights a b c d e.
Proof.
  unfold new, validate, model. rewrite raise_errors_ok.
  intros Hv. apply and_then_valid in Hv as (self & Hf & Hv).
  apply run_validator_valid in Hv.
  unfold fields in Hf. valid_inv Hf.
  unfold validate_weightings_sum in Hv.
  destruct (0.01 <? abs _)%float; [discriminate|]. now injection Hv as <-.
Qed.

Lemma AnalysisWeightings_fields_intro (a b c d e : float) :
  weight_in_range a = true -> weight_in_range b = true ->
  weight_in_range c = true -> weight_in_range d = true ->
  weight_in_range e = true ->
  fields (model_dump (weights a b c d e)) = Valid (weights a b c d e).
Proof.
  unfold weight_in_range. rewrite !andb_true_iff.
  intros [Ha Ha'] [Hb Hb'] [Hc Hc'] [Hd Hd'] [He He'].
  unfold fields. cbn. bounds_hold. reflexivity.
Qed.

Lemma AnalysisWeightings_new_intro (a b c d e : float) :
  weight_in_range a = true -> weight_in_range b = true ->
  weight_in_range c = true -> weight_in_range d = true ->
  weight_in_range e = true ->
  (0.01 <? abs (a + b + c + d + e - 100.0))%float = false ->
  new (model_dump (weights a b c d e)) = Ok (weights a b c d e).
Proof.
  intros Ha Hb Hc Hd He Hsum. unfold new, validate, model.
  rewrite AnalysisWeightings_fields_intro by assumption.
  cbn. unfold validate_weightings_sum, total. cbn.
  now rewrite Hsum.
Qed.

Lemma AnalysisWeightings_new_sum_off (a b c d e : float) :
  weight_in_range a = true -> weight_in_range b = true ->
  weight_in_range c = true -> weight_in_range d = true ->
  weight_in_range e = true ->
  (0.01 <? abs (a + b + c + d + e - 100.0))%float = true ->
  new (model_dump (weights a b c d e))
  = Raise (ValidationError "AnalysisWeightings" (sum_error a b c d e) []).
Proof.
  intros Ha Hb Hc Hd He Hsum. unfold new, validate, model.
  rewrite AnalysisWeightings_fields_intro by assumption.
  cbn. unfold validate_weightings_sum, total. cbn.
  now rewrite Hsum.
Qed.

Lemma sum_error_message (a b c d e : float) :
  contains "sum to 100" (msg (sum_error a b c d e)) = true.
Proof.
  unfold sum_error. cbn [msg].
  change ("Value error, Weightings must sum to 100%, got "
          ++ float_repr (a + b + c + d + e)%float ++ "%")
    with ("Value error, Weightings must " ++ "sum to 100"
          ++ ("%, got " ++ float_repr (a + b + c + d + e)%float ++ "%")).
  apply contains_intro.
Qed.

Lemma AnalysisWeightings_is_ok (a b c d e : float) :
  is_ok (new (model_dump (weights a b c d e)))
  = weight_in_range a && weight_in_range b && weight_in_range c
    && weight_in_range d && weight_in_range e
    && negb (0.01 <? abs (a + b + c + d + e - 100.0))%float.
Proof.
  destruct (new _) as [w|err] eqn:Hnew; cbn [is_ok].
  - pose proof (AnalysisWeightings_new_ok _ _ _ _ _ _ Hnew) as ->.
    apply AnalysisWeightings_new_inv in Hnew as (Ha & Hb & Hc & Hd & He & Hs).
    cbn in Ha, Hb, Hc, Hd, He. unfold total in Hs. cbn in Hs.
    now rewrite Ha, Hb, Hc, Hd, He, Hs.
  - symmetry. apply not_true_is_false. intros Hok.
    rewrite !andb_true_iff, negb_true_iff in Hok.
    destruct Hok as [[[[[Ha Hb] Hc] Hd] He] Hs].
    now rewrite AnalysisWeightings_new_intro in Hnew.
Qed.

(** [str(e)] of a [ValidationError] shows what any of its messages shows. *)
Lemma str_exn_contains (sub title : string) (e : ErrorDetails)
    (es : list ErrorDetails) (x : ErrorDetails) :
  In x (e :: es) -> contains sub (msg x) = true ->
  contains sub (str_exn (ValidationError title e es)) = true.
Proof.
  intros Hin Hsub. cbn [str_exn].
  destruct (display_embeds title e es x Hin) as (pre & post & ->).
  apply contains_app_r, contains_app_l, Hsub.
Qed.

End AnalysisWeightingsFacts.

(** C1, as amended: a five-tuple of weights constructs an
    [AnalysisWeightings] exactly when each weight lies in [[0, 100]] and the
    sum, as computed in binary64, is within 0.01 of 100; the constructed
    entity holds the five weights unchanged; and when the weights are in
    range and the sum is off, the failure is a single violation whose message
    contains "sum to 100", as does the text of the raised error. *)
Theorem AnalysisWeightings_sum_rule `{Runtime} (a b c d e : float) :
  let data := [("market_opportunity", PyFloat a); ("team", PyFloat b);
               ("traction", PyFloat c); ("product", PyFloat d);
               ("competitive_position", PyFloat e)] in
  let in_range := weight_in_range a && weight_in_range b && weight_in_range c
                  && weight_in_range d && weight_in_range e in
  let off := (0.01 <? abs (a + b + c + d + e - 100.0))%float in
  is_ok (AnalysisWeightings.new data) = in_range && negb off
  /\ (is_ok (AnalysisWeightings.new data) = true ->
      AnalysisWeightings.new data = Ok (weights a b c d e))
  /\ (in_range = true -> off = true ->
      exists err,
        AnalysisWeightings.new data
        = Raise (ValidationError "AnalysisWeightings" err [])
        /\ contains "sum to 100" (msg err) = true
        /\ contains "sum to 100"
             (str_exn (ValidationError "AnalysisWeightings" err [])) = true).
Proof.
  intros data in_range off.
  change data with (AnalysisWeightings.model_dump (weights a b c d e)).
  split; [|split].
  - apply AnalysisWeightings_is_ok.
  - rewrite is_ok_true. intros [w Hnew]. rewrite Hnew.
    now rewrite (AnalysisWeightings_new_ok _ _ _ _ _ _ Hnew).
  - subst in_range off. rewrite !andb_true_iff.
    intros [[[[Ha Hb] Hc] Hd] He] Hs.
    exists (sum_error a b c d e). split; [|split].
    + now apply AnalysisWeightings_new_sum_off.
    + apply sum_error_message.
    + apply str_exn_contains with (x := sum_error a b c d e);
        [now left | apply sum_error_message].
Qed.

(** A use of the rule at the weights of the test suite, which sum to 150. *)
Lemma AnalysisWeightings_sum_rule_witness :
  exists err,
    @AnalysisWeightings.new strict_runtime
      [("market_opportunity", PyFloat 30); ("team", PyFloat 30);
       ("traction", PyFloat 30); ("product", PyFloat 30);
       ("competitive_position", PyFloat 30)]
    = Raise (ValidationError "AnalysisWeightings" err [])
    /\ contains "sum to 100" (msg err) = true.
Proof.
  destruct (@AnalysisWeightings_sum_rule strict_runtime 30 30 30 30 30)
    as (_ & _ & Hoff).
  destruct Hoff as (err & Hnew & Hmsg & _); [reflexivity | reflexivity |].
  exists err. split; assumption.
Defined.

(** C1, as stated, fails in both directions. The weights (150, -50, 0, 0, 0)
    sum to exactly 100 and are rejected; the weights (150, 0, 0, 0, 0) sum to
    150 and are rejected with one violation, of the bound [le=100], whose
    message does not contain "sum to 100". *)
Lemma AnalysisWeightings_sum_alone_counterexample :
  ((150 + -50 + 0 + 0 + 0 =? 100)%float = true
   /\ (0.01 <? abs (150 + -50 + 0 + 0 + 0 - 100.0))%float = false
   /\ is_ok (@AnalysisWeightings.new strict_runtime
               [("market_opportunity", PyFloat 150); ("team", PyFloat (-50));
                ("traction", PyFloat 0); ("product", PyFloat 0);
                ("competitive_position", PyFloat 0)]) = false)
  /\ ((0.01 <? abs (150 + 0 + 0 + 0 + 0 - 100.0))%float = true
      /\ exists err,
           @AnalysisWeightings.new strict_runtime
             [("market_opportunity", PyFloat 150); ("team", PyFloat 0);
              ("traction", PyFloat 0); ("product", PyFloat 0);
              ("competitive_position", PyFloat 0)]
           = Raise (ValidationError "AnalysisWeightings" err [])
           /\ msg err = "Input should be less than or equal to 100"
           /\ contains "sum to 100" (msg err) = false
           /\ contains "sum to 100"
                (@str_exn strict_runtime
                   (ValidationError "AnalysisWeightings" err [])) = false).
Proof.
  split; [repeat split; vm_compute; reflexivity|].
  split; [vm_compute; reflexivity|].
  eexists. split; [vm_compute; reflexivity|].
  repeat split; vm_compute; reflexivity.
Qed.

(** C10: every constructed [AnalysisWeightings], from whatever document, has
    each of its five weights within [[0, 100]]; so the weights
    (150, -50, 0, 0, 0), which sum to exactly 100, are rejected. *)
Theorem AnalysisWeightings_weights_bounded `{Runtime} :
  (forall (data : kwargs) (w : AnalysisWeightings.t),
      AnalysisWeightings.new data = Ok w ->
      weight_in_range w.(AnalysisWeightings.market_opportunity) = true
      /\ weight_in_range w.(AnalysisWeightings.team) = true
      /\ weight_in_range w.(AnalysisWeightings.traction) = true
      /\ weight_in_range w.(AnalysisWeightings.product) = true
      /\ weight_in_range w.(AnalysisWeightings.competitive_position) = true)
  /\ (150 + -50 + 0 + 0 + 0 =? 100)%float = true
  /\ is_ok (AnalysisWeightings.new
              [("market_opportunity", PyFloat 150); ("team", PyFloat (-50));
               ("traction", PyFloat 0); ("product", PyFloat 0);
               ("competitive_position", PyFloat 0)]) = false.
Proof.
  split; [|split].
  - intros data w Hnew.
    apply AnalysisWeightings_new_inv in Hnew as (Ha & Hb & Hc & Hd & He & _).
    auto.
  - reflexivity.
  - etransitivity;
      [exact (AnalysisWeightings_is_ok 150 (-50) 0 0 0)%float | reflexivity].
Qed.

(** The invariant at the default weights: an empty document constructs the
    defaults (25, 25, 20, 15, 15), each within range. *)
Lemma AnalysisWeightings_weights_bounded_witness :
  @AnalysisWeightings.new strict_runtime [] = Ok (weights 25 25 20 15 15)
  /\ weight_in_range 25 = true /\ weight_in_range 25 = true
  /\ weight_in_range 20 = true /\ weight_in_range 15 = true
  /\ weight_in_range 15 = true.
Proof.
  split; [reflexivity|].
  apply (proj1 (@AnalysisWeightings_weights_bounded strict_runtime)
           [] (weights 25 25 20 15 15)).
  reflexivity.
Defined.

(** ** RevenueProjection *)

Section RevenueProjectionFacts.
Context `{Runtime}.
Import RevenueProjection.

Lemma RevenueProjection_new_ok (a b c : float) (p : t) :
  new (model_dump (projection a b c)) = Ok p ->
  p = projection a b c
  /\ (0 <=? a)%float = true /\ (0 <=? b)%float = true /\ (0 <=? c)%float = true
  /\ (b <? a)%float = false /\ (c <? b)%float = false.
Proof.
  unfold new, validate, model. rewrite raise_errors_ok.
  intros Hv. apply and_then_valid in Hv as (self & Hf & Hv).
  apply run_validator_valid in Hv.
  unfold fields in Hf. valid_inv Hf.
  unfold validate_revenue_progression in Hv. cbn in Hv.
  destruct (b <? a)%float; [discriminate|].
  destruct (c <? b)%float; [discriminate|].
  injection Hv as <-. float_consts. repeat split; assumption.
Qed.

Lemma RevenueProjection_new_intro (a b c : float) :
  (0 <=? a)%float = true -> (0 <=? b)%float = true -> (0 <=? c)%float = true ->
  (b <? a)%float = false -> (c <? b)%float = false ->
  new (model_dump (projection a b c)) = Ok (projection a b c).
Proof.
  intros Ha Hb Hc Hba Hcb.
  unfold new, validate, model, fields, validate_revenue_progression.
  cbn. bounds_hold. cbn. rewrite Hba, Hcb. reflexivity.
Qed.

Lemma validate_revenue_progression_spec (self : t) :
  validate_revenue_progression self = Return self
  <-> (self.(year3) <? self.(year1))%float = false
      /\ (self.(year5) <? self.(year3))%float = false.
Proof.
  unfold validate_revenue_progression.
  destruct (_ <? _)%float; [split; [discriminate | now intros []]|].
  destruct (_ <? _)%float; [split; [discriminate | now intros []]|].
  split; auto.
Qed.

End RevenueProjectionFacts.

(** C2, as amended: [RevenueProjection(year1=a, year3=b, year5=c)] succeeds
    exactly when [0 <= a], [a <= b] and [b <= c], and then holds the three
    values unchanged; (2000000, 10000000, 50000000) succeeds and
    (2000000, 1000000, 50000000) fails; the validator compares year3 with
    year1 and year5 with year3 and nothing else, so it lets year5 below
    year1 pass when year3 compares with neither. *)
Theorem RevenueProjection_monotonic `{Runtime} (a b c : float) :
  let data := [("year1", PyFloat a); ("year3", PyFloat b); ("year5", PyFloat c)] in
  is_ok (RevenueProjection.new data)
  = (0 <=? a)%float && (a <=? b)%float && (b <=? c)%float
  /\ (is_ok (RevenueProjection.new data) = true ->
      RevenueProjection.new data = Ok (projection a b c))
  /\ is_ok (RevenueProjection.new
              [("year1", PyFloat 2000000); ("year3", PyFloat 10000000);
               ("year5", PyFloat 50000000)]) = true
  /\ is_ok (RevenueProjection.new
              [("year1", PyFloat 2000000); ("year3", PyFloat 1000000);
               ("year5", PyFloat 50000000)]) = false
  /\ (forall self : RevenueProjection.t,
        RevenueProjection.validate_revenue_progression self = Return self
        <-> (self.(RevenueProjection.year3) <? self.(RevenueProjection.year1))%float = false
            /\ (self.(RevenueProjection.year5) <? self.(RevenueProjection.year3))%float = false)
  /\ RevenueProjection.validate_revenue_progression (projection 5 nan 1)
     = Return (projection 5 nan 1).
Proof.
  assert (Hchar : forall x y z,
             is_ok (RevenueProjection.new
                      (RevenueProjection.model_dump (projection x y z)))
             = (0 <=? x)%float && (x <=? y)%float && (y <=? z)%float).
  { intros x y z.
    destruct (RevenueProjection.new _) as [p|err] eqn:Hnew; cbn [is_ok].
    - apply RevenueProjection_new_ok in Hnew as (_ & Hx & Hy & Hz & Hyx & Hzy).
      rewrite Hx.
      rewrite (not_ltb_leb x y), (not_ltb_leb y z); eauto using leb_eqb_r.
    - symmetry. apply not_true_is_false. intros Hok.
      rewrite !andb_true_iff in Hok. destruct Hok as [[Hx Hxy] Hyz].
      assert (Hy : (0 <=? y)%float = true)
        by exact (leb_zero_trans x y Hx Hxy).
      assert (Hz : (0 <=? z)%float = true)
        by exact (leb_zero_trans y z Hy Hyz).
      rewrite RevenueProjection_new_intro in Hnew;
        auto using leb_not_ltb; discriminate. }
  intros data.
  change data with (RevenueProjection.model_dump (projection a b c)).
  split; [|split; [|split; [|split; [|split]]]].
  - apply Hchar.
  - rewrite is_ok_true. intros [p Hnew]. rewrite Hnew.
    now apply RevenueProjection_new_ok in Hnew as (-> & _).
  - exact (Hchar 2000000 10000000 50000000)%float.
  - exact (Hchar 2000000 1000000 50000000)%float.
  - apply validate_revenue_progression_spec.
  - apply validate_revenue_progression_spec. split; reflexivity.
Qed.

(** C2, as stated, fails: year1 = -3, year3 = -2, year5 = -1 are
    non-decreasing, and the construction is rejected (by [ge=0]). *)
Lemma RevenueProjection_order_alone_counterexample :
  (-3 <=? -2)%float = true /\ (-2 <=? -1)%float = true
  /\ is_ok (@RevenueProjection.new strict_runtime
              [("year1", PyFloat (-3)); ("year3", PyFloat (-2));
               ("year5", PyFloat (-1))]) = false.
Proof. repeat split; vm_compute; reflexivity. Qed.

(** ** MetricDistribution *)

Section MetricDistributionFacts.
Context `{Runtime}.
Import MetricDistribution.

Lemma validate_distribution_spec (self d : t) :
  validate_distribution self = Return d
  <-> d = self
      /\ (self.(max) <? self.(min))%float = false
      /\ (self.(min) <=? self.(median))%float = true
      /\ (self.(median) <=? self.(max))%float = true.
Proof.
  unfold validate_distribution.
  destruct (max self <? min self)%float;
    [split; [discriminate | now intros (_ & ? & _)]|].
  destruct (min self <=? median self)%float; cbn;
    [|split; [discriminate | now intros (_ & _ & ? & _)]].
  destruct (median self <=? max self)%float; cbn;
    [|split; [discriminate | now intros (_ & _ & _ & ?)]].
  split; [now intros [= <-] | now intros (-> & _)].
Qed.

(** Whatever the document, a constructed [MetricDistribution] passed the
    checks of the class. *)
Lemma MetricDistribution_new_inv (data : kwargs) (d : t) :
  new data = Ok d ->
  (1 <= d.(sample_size))%Z
  /\ (d.(max) <? d.(min))%float = false
  /\ (d.(min) <=? d.(median))%float = true
  /\ (d.(median) <=? d.(max))%float = true.
Proof.
  unfold new, validate, model. rewrite raise_errors_ok.
  intros Hv. apply and_then_valid in Hv as (self & Hf & Hv).
  apply run_validator_valid, validate_distribution_spec in Hv
    as (-> & Hmm & Hlo & Hhi).
  split; [|auto].
  unfold fields in Hf. fields_inv Hf. cbn.
  apply field_valid in Hx as [(v & _ & Hv)|(_ & [=])].
  apply Int_valid in Hv. cbn in Hv. lia.
Qed.

Lemma MetricDistribution_new_ok (mn mx md q25 q75 q90 avg sd : float) (n : Z)
    (d : t) :
  new (model_dump (distribution mn mx md q25 q75 q90 avg sd n)) = Ok d ->
  d = distribution mn mx md q25 q75 q90 avg sd n.
Proof.
  unfold new, validate, model. rewrite raise_errors_ok.
  intros Hv. apply and_then_valid in Hv as (self & Hf & Hv).
  apply run_validator_valid, validate_distribution_spec in Hv as (-> & _).
  unfold fields in Hf. valid_inv Hf. reflexivity.
Qed.

Lemma MetricDistribution_new_intro (mn mx md q25 q75 q90 avg sd : float)
    (n : Z) :
  (1 <=? n)%Z = true -> (mx <? mn)%float = false ->
  (mn <=? md)%float = true -> (md <=? mx)%float = true ->
  new (model_dump (distribution mn mx md q25 q75 q90 avg sd n))
  = Ok (distribution mn mx md q25 q75 q90 avg sd n).
Proof.
  intros Hn Hmm Hlo Hhi.
  unfold new, validate, model, fields, validate_distribution.
  cbn. bounds_hold. cbn. rewrite Hmm, Hlo, Hhi. reflexivity.
Qed.

End MetricDistributionFacts.

(** C7: a [MetricDistribution] is constructed only if [max >= min],
    [min <= median <= max] and [sample_size >= 1], whatever the document; on
    the nine values given as such, these conditions are also sufficient, so
    p25, p75, p90, mean and std_dev play no part: with min=100000,
    max=50000000 and median=2000000 the construction succeeds for all of
    them (and any sample_size of at least 1), and with min=100000 and
    max=50000 it fails for all of them. *)
Theorem MetricDistribution_sanity `{Runtime} :
  (forall (data : kwargs) (d : MetricDistribution.t),
      MetricDistribution.new data = Ok d ->
      (d.(MetricDistribution.min) <=? d.(MetricDistribution.max))%float = true
      /\ (d.(MetricDistribution.min) <=? d.(MetricDistribution.median))%float = true
      /\ (d.(MetricDistribution.median) <=? d.(MetricDistribution.max))%float = true
      /\ (1 <= d.(MetricDistribution.sample_size))%Z)
  /\ (forall (mn mx md q25 q75 q90 avg sd : float) (n : Z),
        let data := [("min", PyFloat mn); ("max", PyFloat mx);
                     ("median", PyFloat md); ("p25", PyFloat q25);
                     ("p75", PyFloat q75); ("p90", PyFloat q90);
                     ("mean", PyFloat avg); ("std_dev", PyFloat sd);
                     ("sample_size", PyInt n)] in
        is_ok (MetricDistribution.new data)
        = (1 <=? n)%Z && negb (mx <? mn)%float
          && (mn <=? md)%float && (md <=? mx)%float
        /\ (is_ok (MetricDistribution.new data) = true ->
            MetricDistribution.new data
            = Ok (distribution mn mx md q25 q75 q90 avg sd n)))
  /\ (forall (q25 q75 q90 avg sd : float) (n : Z),
        is_ok (MetricDistribution.new
                 [("min", PyFloat 100000); ("max", PyFloat 50000000);
                  ("median", PyFloat 2000000); ("p25", PyFloat q25);
                  ("p75", PyFloat q75); ("p90", PyFloat q90);
                  ("mean", PyFloat avg); ("std_dev", PyFloat sd);
                  ("sample_size", PyInt n)]) = (1 <=? n)%Z)
  /\ (forall (md q25 q75 q90 avg sd : float) (n : Z),
        is_ok (MetricDistribution.new
                 [("min", PyFloat 100000); ("max", PyFloat 50000);
                  ("median", PyFloat md); ("p25", PyFloat q25);
                  ("p75", PyFloat q75); ("p90", PyFloat q90);
                  ("mean", PyFloat avg); ("std_dev", PyFloat sd);
                  ("sample_size", PyInt n)]) = false).
Proof.
  assert (Hchar : forall mn mx md q25 q75 q90 avg sd n,
             is_ok (MetricDistribution.new
                      (MetricDistribution.model_dump
                         (distribution mn mx md q25 q75 q90 avg sd n)))
             = (1 <=? n)%Z && negb (mx <? mn)%float
               && (mn <=? md)%float && (md <=? mx)%float).
  { intros mn mx md q25 q75 q90 avg sd n.
    destruct (MetricDistribution.new _) as [d|err] eqn:Hnew; cbn [is_ok].
    - pose proof (MetricDistribution_new_ok _ _ _ _ _ _ _ _ _ _ Hnew) as ->.
      apply MetricDistribution_new_inv in Hnew as (Hn & Hmm & Hlo & Hhi).
      cbn in Hn, Hmm, Hlo, Hhi. rewrite Hmm, Hlo, Hhi.
      apply Z.leb_le in Hn. now rewrite Hn.
    - symmetry. apply not_true_is_false. intros Hok.
      rewrite !andb_true_iff, negb_true_iff in Hok.
      destruct Hok as [[[Hn Hmm] Hlo] Hhi].
      now rewrite MetricDistribution_new_intro in Hnew. }
  split; [|split; [|split]].
  - intros data d Hnew.
    apply MetricDistribution_new_inv in Hnew as (Hn & Hmm & Hlo & Hhi).
    repeat split; try assumption.
    apply not_ltb_leb; eauto using leb_eqb_l, leb_eqb_r.
  - intros mn mx md q25 q75 q90 avg sd n data.
    change data with (MetricDistribution.model_dump
                        (distribution mn mx md q25 q75 q90 avg sd n)).
    split; [apply Hchar|].
    rewrite is_ok_true. intros [d Hnew]. rewrite Hnew.
    now rewrite (MetricDistribution_new_ok _ _ _ _ _ _ _ _ _ _ Hnew).
  - intros q25 q75 q90 avg sd n.
    etransitivity;
      [exact (Hchar 100000 50000000 2000000 q25 q75 q90 avg sd n)%float|].
    change (negb (50000000 <? 100000)%float) with true.
    change (100000 <=? 2000000)%float with true.
    change (2000000 <=? 50000000)%float with true.
    now rewrite !andb_true_r.
  - intros md q25 q75 q90 avg sd n.
    etransitivity;
      [exact (Hchar 100000 50000 md q25 q75 q90 avg sd n)%float|].
    change (negb (50000 <? 100000)%float) with false.
    now rewrite andb_false_r.
Qed.

(** The distribution of the test suite is constructed, and satisfies the
    conditions. *)
Lemma MetricDistribution_sanity_witness :
  @MetricDistribution.new strict_runtime
    [("min", PyInt 100000); ("max", PyInt 50000000); ("median", PyInt 2000000);
     ("p25", PyInt 500000); ("p75", PyInt 5000000); ("p90", PyInt 15000000);
     ("mean", PyInt 3500000); ("std_dev", PyInt 8000000);
     ("sample_size", PyInt 100)]
  = Ok (distribution 100000 50000000 2000000 500000 5000000 15000000
          3500000 8000000 100)
  /\ (100000 <=? 50000000)%float = true
  /\ (100000 <=? 2000000)%float = true
  /\ (2000000 <=? 50000000)%float = true
  /\ (1 <= 100)%Z.
Proof.
  split; [reflexivity|].
  apply (proj1 (@MetricDistribution_sanity strict_runtime)
           [("min", PyInt 100000); ("max", PyInt 50000000);
            ("median", PyInt 2000000);
            ("p25", PyInt 500000); ("p75", PyInt 5000000);
            ("p90", PyInt 15000000);
            ("mean", PyInt 3500000); ("std_dev", PyInt 8000000);
            ("sample_size", PyInt 100)]
           (distribution 100000 50000000 2000000 500000 5000000 15000000
              3500000 8000000 100)).
  reflexivity.
Defined.

(** ** normalize_weightings *)

Section NormalizeFacts.
Context {N : Type} `{Number N}.

Lemma normalize_weightings_unfold (weightings : list (string * N)) :
  normalize_weightings weightings
  = if num_eqb (sum (map snd weightings)) (num_of_int 0) then
      Raise (ValueError "All weightings cannot be zero")
    else
      Ok (map (fun kv => (fst kv,
                          num_mul (num_div (snd kv) (sum (map snd weightings)))
                                  (num_of_int 100)))
              weightings).
Proof.
  unfold normalize_weightings.
  destruct (num_eqb _ _); [reflexivity|].
  f_equal. apply map_ext. now intros [key value].
Qed.

End NormalizeFacts.

(** A float that equals 0 is one of the two zeros. *)
Lemma eqb_zero (x : float) :
  (x =? 0)%float = true -> x = 0%float \/ x = (-0)%float.
Proof.
  rewrite FloatAxioms.eqb_spec. rewrite <- (SF2Prim_Prim2SF x) at 2 3.
  change (Prim2SF 0) with (S754_zero false).
  destruct (Prim2SF x) as [[]|[]| |[] m e]; cbn; try discriminate; auto.
Qed.

Lemma sum_of_zeros (values : list float) :
  forallb (fun v => (v =? 0)%float) values = true ->
  sum values = 0%float.
Proof.
  unfold sum. cbn [num_add num_of_int Number_float].
  change (float_of_Z 0) with 0%float.
  induction values as [|v values IH]; cbn [forallb fold_left]; [reflexivity|].
  rewrite andb_true_iff. intros [Hv Hvs].
  destruct (eqb_zero v Hv) as [-> | ->]; exact (IH Hvs).
Qed.

(** C4, as amended: [normalize_weightings] raises its explicit error, whose
    message contains "cannot be zero", exactly when the sum of the values, as
    [sum] computes it, equals zero, and returns normally otherwise; an
    all-zero (or empty) weighting set is one such case. *)
Theorem normalize_weightings_zero_sum (weightings : list (string * float)) :
  let total := sum (map snd weightings) in
  (normalize_weightings weightings
   = Raise (ValueError "All weightings cannot be zero")
   <-> (total =? 0)%float = true)
  /\ is_ok (normalize_weightings weightings) = negb (total =? 0)%float
  /\ contains "cannot be zero" "All weightings cannot be zero" = true
  /\ (forallb (fun v => (v =? 0)%float) (map snd weightings) = true ->
      (total =? 0)%float = true).
Proof.
  intros total. rewrite normalize_weightings_unfold. fold total.
  cbn [num_eqb num_of_int Number_float].
  change (float_of_Z 0) with 0%float.
  split; [|split; [|split]].
  - destruct (total =? 0)%float; split; try reflexivity; discriminate.
  - now destruct (total =? 0)%float.
  - reflexivity.
  - intros Hz. unfold total. now rewrite sum_of_zeros.
Qed.

(** C4, as stated, fails: the weights 1 and -1 are not zero, and their sum
    is, so the call raises. *)
Lemma normalize_weightings_cancel_counterexample :
  forallb (fun v => (v =? 0)%float) [1; -1]%float = false
  /\ normalize_weightings [("team", 1%float); ("product", (-1)%float)]
     = Raise (ValueError "All weightings cannot be zero").
Proof. split; reflexivity. Qed.

Lemma sum_scaled (t k : Qc) (values : list Qc) (acc : Qc) :
  fold_left Qcplus (map (fun v => v / t * k) values) (acc / t * k)
  = (fold_left Qcplus values acc / t * k)%Qc.
Proof.
  revert acc. induction values as [|v values IH]; intros acc;
    cbn [map fold_left]; [reflexivity|].
  rewrite <- IH. f_equal. unfold Qcdiv. ring.
Qed.

Lemma normalize_weightings_exact (weightings : list (string * Qc)) :
  let total := sum (map snd weightings) in
  let r := map (fun kv => (fst kv, (snd kv / total * Q2Qc (inject_Z 100))%Qc))
               weightings in
  total <> 0%Qc ->
  normalize_weightings weightings = Ok r
  /\ sum (map snd r) = Q2Qc (inject_Z 100).
Proof.
  intros total r Hnz. rewrite normalize_weightings_unfold.
  cbn [num_eqb num_of_int num_mul num_div Number_Fraction].
  fold total. unfold Qc_eq_bool.
  destruct (Qc_eq_dec _ _) as [E|_]; [now elim Hnz|].
  split; [reflexivity|].
  subst r. rewrite map_map. cbn [snd]. unfold sum.
  cbn [num_add num_of_int Number_Fraction].
  set (k := Q2Qc (inject_Z 100)).
  change (Q2Qc (inject_Z 0)) with 0%Qc.
  replace 0%Qc with (0 / total * k)%Qc at 1 by (unfold Qcdiv; ring).
  rewrite <- (map_map snd (fun v => (v / total * k)%Qc)).
  rewrite sum_scaled.
  change (fold_left Qcplus (map snd weightings) 0%Qc) with total.
  unfold Qcdiv. rewrite Qcmult_inv_r by exact Hnz. ring.
Qed.

(** C3, as amended: when the sum of the values is nonzero,
    [normalize_weightings] returns a mapping over the same keys, in the same
    order, in which each value is [value / total * 100]; negative weights are
    not rejected. On floats every step rounds, and the outputs need not sum
    to exactly 100; on exact rationals ([fractions.Fraction]) they do. *)
Theorem normalize_weightings_proportional :
  (forall weightings : list (string * float),
      let total := sum (map snd weightings) in
      let r := map (fun kv => (fst kv, (snd kv / total * 100)%float))
                   weightings in
      (total =? 0)%float = false ->
      normalize_weightings weightings = Ok r
      /\ map fst r = map fst weightings)
  /\ (forall weightings : list (string * Qc),
        let total := sum (map snd weightings) in
        let r := map (fun kv => (fst kv, (snd kv / total * Q2Qc (inject_Z 100))%Qc))
                     weightings in
        total <> 0%Qc ->
        normalize_weightings weightings = Ok r
        /\ map fst r = map fst weightings
        /\ sum (map snd r) = Q2Qc (inject_Z 100))
  /\ normalize_weightings [("team", (-50)%float); ("product", 150%float)]
     = Ok [("team", (-50)%float); ("product", 150%float)].
Proof.
  split; [|split].
  - intros weightings total r Hnz.
    rewrite normalize_weightings_unfold. fold total.
    cbn [num_eqb num_of_int num_mul num_div Number_float].
    change (float_of_Z 0) with 0%float. change (float_of_Z 100) with 100%float.
    rewrite Hnz. split; [reflexivity|].
    subst r. now rewrite map_map.
  - intros weightings total r Hnz.
    destruct (normalize_weightings_exact weightings Hnz) as [Hr Hsum].
    split; [exact Hr|]. split; [|exact Hsum].
    subst r. now rewrite map_map.
  - reflexivity.
Qed.

(** The weights of the specification's example, 30, 30, 20, 10 and 10, are
    returned as they are, and here the float sum is exactly 100. *)
Lemma normalize_weightings_proportional_witness :
  normalize_weightings
    [("market_opportunity", 30%float); ("team", 30%float);
     ("traction", 20%float); ("product", 10%float);
     ("competitive_position", 10%float)]
  = Ok [("market_opportunity", 30%float); ("team", 30%float);
        ("traction", 20%float); ("product", 10%float);
        ("competitive_position", 10%float)]
  /\ (sum [30; 30; 20; 10; 10]%float =? 100)%float = true.
Proof.
  split; [|reflexivity].
  apply (proj1 normalize_weightings_proportional
           [("market_opportunity", 30%float); ("team", 30%float);
            ("traction", 20%float); ("product", 10%float);
            ("competitive_position", 10%float)]).
  reflexivity.
Defined.

(** C3, as stated, fails: three equal weights of 1 have the nonzero sum 3,
    each is normalised to the float nearest to 100/3 from below, and these
    three outputs sum to the float just below 100, both in float arithmetic
    and exactly. *)
Lemma normalize_weightings_rounding_counterexample :
  (sum [1; 1; 1]%float =? 0)%float = false
  /\ exists x : float,
       normalize_weightings
         [("team", 1%float); ("traction", 1%float); ("product", 1%float)]
       = Ok [("team", x); ("traction", x); ("product", x)]
       /\ (sum [x; x; x] =? 100)%float = false
       /\ (sum [x; x; x] <? 100)%float = true
       /\ option_map (fun q => Qeq_bool (q + q + q) 100) (exact_value x)
          = Some false.
Proof.
  split; [reflexivity|].
  exists (1 / 3 * 100)%float.
  repeat split; vm_compute; reflexivity.
Qed.

(** ** The validation facade *)

Section FacadeFacts.
Context `{Runtime}.

Lemma get_validation_errors_unfold {T} (model_class : kwargs -> result T)
    (data : kwargs) :
  get_validation_errors model_class data
  = Ok match model_class data with
       | Ok _ => []
       | Raise (ValidationError _ e es) => map error_dict (e :: es)
       | Raise e => [PyDict [("msg", PyStr (str_exn e));
                             ("type", PyStr "unknown_error")]]
       end.
Proof.
  unfold get_validation_errors, try_except.
  now destruct (model_class data) as [a|[title e es|m|m]].
Qed.

Lemma record_msg_error_dict (e : ErrorDetails) :
  record_msg (error_dict e) = Some (msg e).
Proof. reflexivity. Qed.

End FacadeFacts.

(** C5: for every entity class and raw document, [get_validation_errors]
    returns normally; the list is empty exactly when the construction
    succeeds; every record of the list carries a message; when the
    construction fails with violations the list has one record per violation,
    in order, each with the violation's message; and for weights in range
    whose sum is off, the one record's message contains the text of the rule,
    "Weightings must sum to 100%". *)
Theorem get_validation_errors_diagnostic `{Runtime} :
  (forall (T : Type) (model_class : kwargs -> result T) (data : kwargs),
      exists records,
        get_validation_errors model_class data = Ok records
        /\ (records = [] <-> is_ok (model_class data) = true)
        /\ forallb (fun r => match record_msg r with
                             | Some _ => true
                             | None => false
                             end) records = true
        /\ (forall title e es,
              model_class data = Raise (ValidationError title e es) ->
              List.length records = S (List.length es)
              /\ map record_msg records = map (fun x => Some (msg x)) (e :: es)))
  /\ (forall a b c d e : float,
        weight_in_range a && weight_in_range b && weight_in_range c
        && weight_in_range d && weight_in_range e = true ->
        (0.01 <? abs (a + b + c + d + e - 100.0))%float = true ->
        exists m,
          map record_msg
            match get_validation_errors AnalysisWeightings.new
                    [("market_opportunity", PyFloat a); ("team", PyFloat b);
                     ("traction", PyFloat c); ("product", PyFloat d);
                     ("competitive_position", PyFloat e)] with
            | Ok records => records
            | Raise _ => []
            end = [Some m]
          /\ contains "Weightings must sum to 100%" m = true).
Proof.
  split.
  - intros T model_class data. eexists.
    split; [apply get_validation_errors_unfold|].
    destruct (model_class data) as [a|[title e es|m|m]]; cbn [is_ok].
    + repeat split; try reflexivity; discriminate.
    + split; [split; discriminate|]. split.
      * cbn [map forallb]. rewrite record_msg_error_dict. cbn.
        induction es as [|x es IH]; [reflexivity|exact IH].
      * intros title' e' es' [= _ <- <-]. split.
        -- cbn [map List.length]. now rewrite length_map.
        -- rewrite map_map. reflexivity.
    + repeat split; try discriminate.
    + repeat split; try discriminate.
  - intros a b c d e Hr Hoff.
    rewrite !andb_true_iff in Hr. destruct Hr as [[[[Ha Hb] Hc] Hd] He].
    rewrite get_validation_errors_unfold.
    change [("market_opportunity", PyFloat a); ("team", PyFloat b);
            ("traction", PyFloat c); ("product", PyFloat d);
            ("competitive_position", PyFloat e)]
      with (AnalysisWeightings.model_dump (weights a b c d e)).
    rewrite (AnalysisWeightings_new_sum_off a b c d e Ha Hb Hc Hd He Hoff).
    cbn [map]. rewrite record_msg_error_dict.
    exists (msg (sum_error a b c d e)). split; [reflexivity|].
    unfold sum_error. cbn [msg].
    change ("Value error, Weightings must sum to 100%, got "
            ++ float_repr (a + b + c + d + e)%float ++ "%")
      with ("Value error, " ++ "Weightings must sum to 100%"
            ++ (", got " ++ float_repr (a + b + c + d + e)%float ++ "%")).
    apply contains_intro.
Qed.

(** The two tests of the suite: the valid weights give the empty list, and
    the weights 50, 25, 20, 15, 15 give one record, with the rule's text. *)
Lemma get_validation_errors_diagnostic_witness :
  @get_validation_errors strict_runtime _ (@AnalysisWeightings.new strict_runtime)
    [("market_opportunity", PyFloat 25); ("team", PyFloat 25);
     ("traction", PyFloat 20); ("product", PyFloat 15);
     ("competitive_position", PyFloat 15)] = Ok []
  /\ exists m,
       map record_msg
         match @get_validation_errors strict_runtime _ (@AnalysisWeightings.new strict_runtime)
                 [("market_opportunity", PyFloat 50); ("team", PyFloat 25);
                  ("traction", PyFloat 20); ("product", PyFloat 15);
                  ("competitive_position", PyFloat 15)] with
         | Ok records => records
         | Raise _ => []
         end = [Some m]
       /\ contains "Weightings must sum to 100%" m = true.
Proof.
  split; [reflexivity|].
  apply (proj2 (@get_validation_errors_diagnostic strict_runtime)
           50 25 20 15 15)%float; reflexivity.
Defined.

Lemma contains_refl (s : string) : contains s s = true.
Proof.
  rewrite <- (append_nil_r s) at 2. exact (contains_intro s "" "").
Qed.

Lemma try_except_reraised `{Runtime} {T} (pre : string) (r : result T) :
  reraised pre r
    (try_except r (fun e => Raise (ValueError (pre ++ str_exn e)))).
Proof.
  unfold reraised, try_except. destruct r as [entity|e]; [reflexivity|].
  split; [reflexivity|]. split; [apply prefix_app|].
  split; [apply contains_app_r, contains_refl|].
  intros title x xs y -> Hin.
  apply contains_app_r, str_exn_contains with (x := y);
    [exact Hin | apply contains_refl].
Qed.

(** C6: on every raw document, [validate_deal_memo] returns the constructed
    entity when the construction succeeds, and otherwise raises a single
    [ValueError] whose message is "Deal memo validation failed: " followed by
    the text of the original error, which shows the message of each of its
    violations; [validate_company_profile] and [validate_investment_metrics]
    do the same with "Company profile validation failed: " and
    "Investment metrics validation failed: ". *)
Theorem validate_entry_points `{Runtime} (schemas : Schemas) (data : kwargs) :
  reraised "Deal memo validation failed: "
    (DealMemo.new data) (validate_deal_memo data)
  /\ reraised "Company profile validation failed: "
       (CompanyProfile.new schemas data)
       (validate_company_profile schemas data)
  /\ reraised "Investment metrics validation failed: "
       (InvestmentMetrics.new data) (validate_investment_metrics data).
Proof.
  split; [|split]; apply try_except_reraised.
Qed.

(** ** The tests of the suite

    The documents of [tests/validation/test_pydantic_schemas.py], run on the
    embedding. (The test of an invalid website is left out: it needs the
    parsing of URLs.) *)

Definition the_schemas : Schemas := import_module a_datetime.

Definition expect {A} (outcome : bool) (r : result A) : Prop :=
  is_ok r = outcome.

Example TestCompanyProfileValidation :
  expect true (@validate_company_profile strict_runtime the_schemas
                 (company_profile_data "TechStartup Inc" 2020))
  /\ expect false (@validate_company_profile strict_runtime the_schemas
                     (company_profile_data "" 2020))
  /\ expect false (@validate_company_profile strict_runtime the_schemas
                     (company_profile_data
                        (string_of_list_ascii (repeat "x"%char 201)) 2020))
  /\ expect false (@validate_company_profile strict_runtime the_schemas
                     (company_profile_data "TechStartup Inc" 1800))
  /\ expect false (@validate_company_profile strict_runtime the_schemas
                     (company_profile_data "TechStartup Inc"
                        (year a_datetime + 1))).
Proof. repeat split; vm_compute; reflexivity. Qed.

Example TestInvestmentMetricsValidation :
  expect true (@validate_investment_metrics strict_runtime
                 (investment_metrics_data (PyInt 1000000) (PyInt 5)
                    (PyFloat 0.85) 25 2000000))
  /\ expect false (@validate_investment_metrics strict_runtime
                     (investment_metrics_data (PyInt (-1000)) (PyInt 5)
                        (PyFloat 0.85) 25 2000000))
  /\ expect false (@validate_investment_metrics strict_runtime
                     (investment_metrics_data (PyInt 1000000) (PyInt 150)
                        (PyFloat 0.85) 25 2000000))
  /\ expect false (@validate_investment_metrics strict_runtime
                     (investment_metrics_data (PyInt 1000000) (PyInt 5)
                        (PyFloat 1.5) 25 2000000))
  /\ expect false (@validate_investment_metrics strict_runtime
                     (investment_metrics_data (PyInt 1000000) (PyInt 5)
                        (PyFloat 0.85) 0 2000000))
  /\ expect false (@validate_investment_metrics strict_runtime
                     (investment_metrics_data (PyInt 1000000) (PyInt 5)
                        (PyFloat 0.85) 25 (-500000))).
Proof. repeat split; vm_compute; reflexivity. Qed.

Example TestBenchmarkDataValidation :
  expect true (@BenchmarkData.new strict_runtime
                 (benchmark_data 100 50000000 0.85 a_year_later))
  /\ expect false (@BenchmarkData.new strict_runtime
                     (benchmark_data 0 50000000 0.85 a_year_later))
  /\ expect false (@BenchmarkData.new strict_runtime
                     (benchmark_data 100 50000000 (-0.1) a_year_later))
  /\ expect false (@BenchmarkData.new strict_runtime
                     (benchmark_data 100 50000000 0.85
                        {| year := 2023; month := 12; day := 10;
                           hour := 10; minute := 30; second := 0;
                           microsecond := 0 |}))
  /\ expect false (@BenchmarkData.new strict_runtime
                     (benchmark_data 100 50000 0.85 a_year_later)).
Proof. repeat split; vm_compute; reflexivity. Qed.

Example TestAnalysisWeightings :
  expect true (@AnalysisWeightings.new strict_runtime
                 (AnalysisWeightings.model_dump (weights 25 25 20 15 15)))
  /\ expect false (@AnalysisWeightings.new strict_runtime
                     (AnalysisWeightings.model_dump (weights 30 30 30 30 30)))
  /\ expect true (@AnalysisWeightings.new strict_runtime
                    (AnalysisWeightings.model_dump
                       (weights 25.001 24.999 20 15 15))).
Proof. repeat split; vm_compute; reflexivity. Qed.

Example TestUtilityFunctions :
  (exists normalized,
      normalize_weightings
        [("market_opportunity", 30%float); ("team", 30%float);
         ("traction", 20%float); ("product", 10%float);
         ("competitive_position", 10%float)] = Ok normalized
      /\ (abs (sum (map snd normalized) - 100) <? 0.01)%float = true)
  /\ normalize_weightings
       [("market_opportunity", 0%float); ("team", 0%float);
        ("traction", 0%float); ("product", 0%float);
        ("competitive_position", 0%float)]
     = Raise (ValueError "All weightings cannot be zero").
Proof. split; [eexists; split|]; vm_compute; reflexivity. Qed.

Example TestDealMemoValidation :
  expect true (@validate_deal_memo strict_runtime
                 (deal_memo_data 85 10000000 25))
  /\ expect false (@validate_deal_memo strict_runtime
                     (deal_memo_data 150 10000000 25))
  /\ expect false (@validate_deal_memo strict_runtime
                     (deal_memo_data 85 1000000 25))
  /\ expect false (@validate_deal_memo strict_runtime
                     (deal_memo_data 85 10000000 50)).
Proof. repeat split; vm_compute; reflexivity. Qed.

(** The three entry points on documents of the suite: the valid memo is
    returned; the memo with a signal score of 150, the profile with an empty
    name and the metrics with a negative ARR each raise one [ValueError]
    with the prefix of the entry point. *)
Lemma validate_entry_points_witness :
  (exists memo,
      @DealMemo.new strict_runtime (deal_memo_data 85 10000000 25) = Ok memo
      /\ @validate_deal_memo strict_runtime (deal_memo_data 85 10000000 25)
         = Ok memo)
  /\ (exists m,
        @validate_deal_memo strict_runtime (deal_memo_data 150 10000000 25)
        = Raise (ValueError m)
        /\ String.prefix "Deal memo validation failed: " m = true
        /\ contains "Input should be less than or equal to 100" m = true)
  /\ (exists m,
        @validate_company_profile strict_runtime the_schemas
          (company_profile_data "" 2020) = Raise (ValueError m)
        /\ String.prefix "Company profile validation failed: " m = true)
  /\ (exists m,
        @validate_investment_metrics strict_runtime
          (investment_metrics_data (PyInt (-1000)) (PyInt 5) (PyFloat 0.85)
             25 2000000) = Raise (ValueError m)
        /\ String.prefix "Investment metrics validation failed: " m = true).
Proof.
  split; [|split; [|split]].
  - pose proof (proj1 (@validate_entry_points strict_runtime the_schemas
                         (deal_memo_data 85 10000000 25))) as Hr.
    unfold reraised in Hr.
    destruct (@DealMemo.new strict_runtime (deal_memo_data 85 10000000 25))
      as [memo|e] eqn:E; [eauto|].
    vm_compute in E. discriminate E.
  - pose proof (proj1 (@validate_entry_points strict_runtime the_schemas
                         (deal_memo_data 150 10000000 25))) as Hr.
    unfold reraised in Hr.
    destruct (@DealMemo.new strict_runtime (deal_memo_data 150 10000000 25))
      as [memo|e] eqn:E; [vm_compute in E; discriminate E|].
    destruct Hr as (Hv & Hp & _ & _).
    eexists. split; [exact Hv|]. split; [exact Hp|].
    vm_compute in E. injection E as <-. vm_compute. reflexivity.
  - pose proof (proj1 (proj2 (@validate_entry_points strict_runtime
                                the_schemas (company_profile_data "" 2020))))
      as Hr.
    unfold reraised in Hr.
    destruct (@CompanyProfile.new strict_runtime the_schemas
                (company_profile_data "" 2020))
      as [profile|e] eqn:E; [vm_compute in E; discriminate E|].
    destruct Hr as (Hv & Hp & _ & _). eauto.
  - pose proof (proj2 (proj2 (@validate_entry_points strict_runtime
                                the_schemas
                                (investment_metrics_data (PyInt (-1000))
                                   (PyInt 5) (PyFloat 0.85) 25 2000000))))
      as Hr.
    unfold reraised in Hr.
    destruct (@InvestmentMetrics.new strict_runtime
                (investment_metrics_data (PyInt (-1000)) (PyInt 5)
                   (PyFloat 0.85) 25 2000000))
      as [metrics|e] eqn:E; [vm_compute in E; discriminate E|].
    destruct Hr as (Hv & Hp & _ & _). eauto.
Defined.

(** ** CompanyProfile *)

Lemma FundingStage_of_value_value (m : FundingStage.t) :
  FundingStage.of_value (FundingStage.value m) = Some m.
Proof. now destruct m. Qed.

Arguments FundingStage.of_value : simpl never.

Section CompanyProfileFacts.
Context `{Runtime} (schemas : Schemas).
Import CompanyProfile.

(** Whatever the document, a constructed profile has its founding year
    between 1900 and the bound fixed at import. *)
Lemma CompanyProfile_new_inv (data : kwargs) (p : t) :
  new schemas data = Ok p ->
  (1900 <= p.(founded_year) <= founded_year_le schemas)%Z.
Proof.
  unfold new, validate, model. rewrite raise_errors_ok.
  intros Hv. apply and_then_valid in Hv as (self & Hf & Hv).
  apply run_validator_valid in Hv. injection Hv as <-.
  unfold fields in Hf.
  do 5 (apply vap_valid in Hf as (? & ? & Hf & _ & ->)).
  apply vap_valid in Hf as (? & fy & Hf & Hfy & ->). fields_inv Hf. cbn.
  apply field_valid in Hfy as [(v & _ & Hv)|(_ & [=])].
  apply Int_valid in Hv. cbn in Hv.
  rewrite !andb_true_iff, !Z.leb_le in Hv. lia.
Qed.

Lemma CompanyProfile_new_ok (entity : BaseEntity.t)
    (name one_liner sector : string) (stage : FundingStage.t) (founded : Z)
    (location : string) (p : t) :
  new schemas (profile_data entity name one_liner sector stage founded location)
  = Ok p ->
  p = profile entity name one_liner sector stage founded location
  /\ length_within 1 200 name = true
  /\ length_within 10 500 one_liner = true
  /\ length_within 1 100 sector = true
  /\ length_within 1 200 location = true.
Proof.
  unfold new, validate, model. rewrite raise_errors_ok.
  intros Hv. apply and_then_valid in Hv as (self & Hf & Hv).
  apply run_validator_valid in Hv. injection Hv as <-.
  unfold fields in Hf. valid_inv Hf.
  match goal with
  | E : FundingStage.of_value _ = Some _ |- _ =>
      rewrite FundingStage_of_value_value in E; injection E as <-
  end.
  destruct entity. unfold length_within. rewrite_facts.
  repeat split.
Qed.

Lemma CompanyProfile_new_intro (entity : BaseEntity.t)
    (name one_liner sector : string) (stage : FundingStage.t) (founded : Z)
    (location : string) :
  length_within 1 200 name = true ->
  length_within 10 500 one_liner = true ->
  length_within 1 100 sector = true ->
  length_within 1 200 location = true ->
  (1900 <=? founded)%Z = true ->
  (founded <=? founded_year_le schemas)%Z = true ->
  new schemas (profile_data entity name one_liner sector stage founded location)
  = Ok (profile entity name one_liner sector stage founded location).
Proof.
  unfold length_within. rewrite !andb_true_iff.
  intros [Hn Hn'] [Ho Ho'] [Hs Hs'] [Hl Hl'] Hlo Hhi.
  unfold new, validate, model, fields, FundingStage.validate, Enum_. cbn.
  rewrite FundingStage_of_value_value.
  rewrite Hn, Hn', Ho, Ho', Hs, Hs', Hl, Hl'. bounds_hold.
  destruct entity. reflexivity.
Qed.

End CompanyProfileFacts.

(** The bound in force at a call. In a process that imported the module at
    [now], a profile whose other fields are given is accepted exactly when
    its texts have the declared lengths and its founding year lies between
    1900 and the year of [now], whatever the clock says at the call. *)
Lemma call_validate_company_profile_is_ok `{Runtime} (now later : datetime)
    (entity : BaseEntity.t) (name one_liner sector : string)
    (stage : FundingStage.t) (founded : Z) (location : string) :
  is_ok (call_validate_company_profile (wait_until later (start now))
           (profile_data entity name one_liner sector stage founded location))
  = length_within 1 200 name && length_within 10 500 one_liner
    && length_within 1 100 sector && length_within 1 200 location
    && (1900 <=? founded)%Z && (founded <=? year now)%Z.
Proof.
  unfold call_validate_company_profile, validate_company_profile, try_except.
  cbn [loaded wait_until start].
  destruct (CompanyProfile.new _ _) as [p|err] eqn:Hnew; cbn [is_ok].
  - pose proof (CompanyProfile_new_inv _ _ _ Hnew) as Hfy.
    apply CompanyProfile_new_ok in Hnew as (-> & Hn & Ho & Hs & Hl).
    cbn in Hfy. rewrite Hn, Ho, Hs, Hl. cbn [andb]. symmetry.
    apply andb_true_iff. split; apply Z.leb_le; lia.
  - symmetry. apply not_true_is_false. intros Hok.
    rewrite !andb_true_iff in Hok.
    destruct Hok as [[[[[Hn Ho] Hs] Hl] Hlo] Hhi].
    now rewrite CompanyProfile_new_intro in Hnew.
Qed.

(** C8: the code breaks the claim. The upper bound of [founded_year] is
    [datetime.now().year] as the class body evaluates it, once, when the
    module is imported; the validation does not read the clock. In a process
    started in 2024 and still running in 2025, the profile of the test suite
    with the founding year 2025 is refused, with 2024 in the message,
    although 2025 lies between 1900 and the current year; a process started
    in 2025 accepts the same document. The same holds of every profile
    founded in the year of the call, once the year has changed since the
    import. *)
Theorem CompanyProfile_founded_year_stale_bound :
  year (clock (wait_until a_year_later (start a_datetime))) = 2025%Z
  /\ is_ok (@call_validate_company_profile strict_runtime
              (wait_until a_year_later (start a_datetime))
              (company_profile_data "TechStartup Inc" 2025)) = false
  /\ @get_validation_errors strict_runtime _
       (@CompanyProfile.new strict_runtime
          (loaded (wait_until a_year_later (start a_datetime))))
       (company_profile_data "TechStartup Inc" 2025)
     = Ok [error_dict
             {| type_ := "less_than_equal"; loc := [Key "founded_year"];
                msg := "Input should be less than or equal to 2024";
                input := PyInt 2025 |}]
  /\ is_ok (@call_validate_company_profile strict_runtime (start a_year_later)
              (company_profile_data "TechStartup Inc" 2025)) = true
  /\ (forall (R : Runtime) (now later : datetime) (entity : BaseEntity.t)
             (name one_liner sector : string) (stage : FundingStage.t)
             (location : string),
        (year now < year later)%Z -> (1900 <= year later)%Z ->
        length_within 1 200 name && length_within 10 500 one_liner
        && length_within 1 100 sector && length_within 1 200 location = true ->
        is_ok (@call_validate_company_profile R (wait_until later (start now))
                 (profile_data entity name one_liner sector stage (year later)
                    location)) = false
        /\ is_ok (@call_validate_company_profile R (start later)
                    (profile_data entity name one_liner sector stage (year later)
                       location)) = true).
Proof.
  split; [reflexivity|]. split; [reflexivity|]. split; [reflexivity|].
  split; [reflexivity|].
  intros R now later entity name one_liner sector stage location Hlt Hlo Hlen.
  split.
  - rewrite call_validate_company_profile_is_ok, Hlen. cbn [andb].
    apply andb_false_iff. right. apply Z.leb_gt. exact Hlt.
  - change (start later) with (wait_until later (start later)).
    rewrite call_validate_company_profile_is_ok, Hlen. cbn [andb].
    apply andb_true_iff. split; apply Z.leb_le; lia.
Qed.

(** ** Round trip *)

Arguments List_ : simpl never.
Arguments Optional : simpl never.
Arguments field_validator : simpl never.
Arguments dump_list : simpl never.
Arguments dump_optional : simpl never.

Section Retractions.
Context `{Runtime}.

Lemma check_str_valid (cs : list constraint) (v : Any) (x y : string) :
  check_str cs v x = Valid y -> y = x.
Proof.
  induction cs as [|[b|b|n|n] cs IH]; cbn -[Nat.leb]; auto.
  - now intros [= ->].
  - destruct (n <=? String.length x)%nat; [auto | discriminate].
  - destruct (String.length x <=? n)%nat; [auto | discriminate].
Qed.

Lemma check_list_valid {A} (cs : list constraint) (v : Any) (x y : list A) :
  check_list cs v x = Valid y -> y = x.
Proof.
  induction cs as [|[b|b|n|n] cs IH]; cbn -[Nat.leb]; auto.
  - now intros [= ->].
  - destruct (n <=? List.length x)%nat; [auto | discriminate].
  - destruct (List.length x <=? n)%nat; [auto | discriminate].
Qed.

Lemma retracts_Str (cs : list constraint) : retracts (Str cs) PyStr.
Proof. intros a a' Hv. cbn in Hv. now apply check_str_valid in Hv. Qed.

Lemma retracts_Float (cs : list constraint) : retracts (Float cs) PyFloat.
Proof. intros a a' Hv. cbn in Hv. now apply check_float_valid in Hv. Qed.

Lemma retracts_Int (cs : list constraint) : retracts (Int cs) PyInt.
Proof. intros a a' Hv. cbn in Hv. now apply check_int_valid in Hv. Qed.

Lemma retracts_Uuid : retracts Uuid PyUUID.
Proof. intros a a' Hv. cbn in Hv. congruence. Qed.

Lemma retracts_Datetime : retracts Datetime PyDatetime.
Proof. intros a a' Hv. cbn in Hv. congruence. Qed.

Lemma retracts_Literal (allowed : list string) :
  retracts (Literal allowed) PyStr.
Proof.
  intros a a' Hv. cbn in Hv.
  destruct (existsb _ _); [congruence | discriminate].
Qed.

Lemma retracts_Enum {E} (of_value : string -> option E) (value : E -> string)
    (values : list string) :
  (forall m, of_value (value m) = Some m) ->
  retracts (Enum_ of_value values) (fun m => PyStr (value m)).
Proof. intros Hov a a' Hv. cbn in Hv. rewrite Hov in Hv. congruence. Qed.

Lemma each_retracts {A} (val : Any -> V A) (dump : A -> Any) :
  retracts val dump ->
  forall (l l' : list A) (i : nat),
    each val i (map dump l) = Valid l' -> l' = l.
Proof.
  intros Hr l. induction l as [|a l IH]; intros l' i; cbn [map each].
  - now intros [= <-].
  - intros Hv. apply vap_valid in Hv as (g & tl & Hg & Htl & ->).
    apply vmap_valid in Hg as (hd & Hhd & ->).
    apply at_loc_valid, Hr in Hhd as ->.
    now apply IH in Htl as ->.
Qed.

Lemma retracts_List {A} (cs : list constraint) (val : Any -> V A)
    (dump : A -> Any) :
  retracts val dump -> retracts (List_ cs val) (dump_list dump).
Proof.
  intros Hr l l' Hv. unfold List_, dump_list in Hv.
  apply and_then_valid in Hv as (l0 & Hl0 & Hv).
  apply check_list_valid in Hv as ->.
  now apply (each_retracts val dump Hr) in Hl0.
Qed.

Lemma retracts_Optional {A} (val : Any -> V A) (dump : A -> Any) :
  (forall a, dump a <> PyNone) ->
  retracts val dump -> retracts (Optional val) (dump_optional dump).
Proof.
  intros Hd Hr [a|] o' Hv; unfold Optional, dump_optional in Hv.
  - destruct (dump a) eqn:E; try (now elim (Hd a));
      apply vmap_valid in Hv as (a' & Hv & ->);
      rewrite <- E in Hv; now apply Hr in Hv as ->.
  - congruence.
Qed.

Lemma raise_if_any_return {A B} (cond : A -> bool) (m : string)
    (items : list A) (ret x : B) :
  raise_if_any cond m items ret = Return x -> x = ret.
Proof. unfold raise_if_any. destruct (existsb _ _); congruence. Qed.

Lemma retracts_field_validator {A} (f : A -> checked A) (val : Any -> V A)
    (dump : A -> Any) :
  (forall a x, f a = Return x -> x = a) ->
  retracts val dump -> retracts (field_validator f val) dump.
Proof.
  intros Hf Hr a a' Hv. unfold field_validator in Hv.
  apply and_then_valid in Hv as (a0 & Ha0 & Hv).
  apply Hr in Ha0 as ->. apply run_validator_valid in Hv. now apply Hf.
Qed.

(** A field that is present in the document is validated from its value. *)
Lemma field_present {A} (data : kwargs) (name : string) (dflt : option A)
    (val : Any -> V A) (v : Any) (a' : A) :
  get name data = Some v ->
  field data name dflt val = Valid a' -> val v = Valid a'.
Proof. unfold field. intros ->. apply at_loc_valid. Qed.

Lemma field_retracts {A} (data : kwargs) (name : string) (dflt : option A)
    (val : Any -> V A) (dump : A -> Any) (a a' : A) :
  retracts val dump ->
  get name data = Some (dump a) ->
  field data name dflt val = Valid a' -> a' = a.
Proof. intros Hr Hg Hf. eapply Hr, field_present; eassumption. Qed.

(** A model whose fields retract, and whose validator returns [self]. *)
Lemma model_retracts {A} (name : string) (fields : kwargs -> V A)
    (after : A -> checked A) (model_dump : A -> kwargs) :
  (forall self x, after self = Return x -> x = self) ->
  (forall a a', fields (model_dump a) = Valid a' -> a' = a) ->
  retracts (model name fields after) (fun a => PyDict (model_dump a)).
Proof.
  intros Ha Hf a a' Hv. cbn [model] in Hv.
  apply and_then_valid in Hv as (self & Hs & Hv).
  apply Hf in Hs as ->. apply run_validator_valid in Hv. now apply Ha.
Qed.

End Retractions.

Create HintDb retract discriminated.
#[export] Hint Resolve retracts_Str retracts_Float retracts_Int retracts_Uuid
  retracts_Datetime retracts_Literal retracts_List retracts_Optional
  retracts_field_validator raise_if_any_return : retract.

Lemma PyStr_not_None (s : string) : PyStr s <> PyNone.
Proof. discriminate. Qed.

Lemma dump_list_not_None {A} (dump : A -> Any) (l : list A) :
  dump_list dump l <> PyNone.
Proof. discriminate. Qed.

Lemma RecommendationType_of_value_value (m : RecommendationType.t) :
  RecommendationType.of_value (RecommendationType.value m) = Some m.
Proof. now destruct m. Qed.

Lemma RiskType_of_value_value (m : RiskType.t) :
  RiskType.of_value (RiskType.value m) = Some m.
Proof. now destruct m. Qed.

Lemma RiskSeverity_of_value_value (m : RiskSeverity.t) :
  RiskSeverity.of_value (RiskSeverity.value m) = Some m.
Proof. now destruct m. Qed.

Section EnumRetractions.
Context `{Runtime}.

Lemma retracts_FundingStage :
  retracts FundingStage.validate (fun m => PyStr (FundingStage.value m)).
Proof. apply retracts_Enum, FundingStage_of_value_value. Qed.

Lemma retracts_RecommendationType :
  retracts RecommendationType.validate
    (fun m => PyStr (RecommendationType.value m)).
Proof. apply retracts_Enum, RecommendationType_of_value_value. Qed.

Lemma retracts_RiskType :
  retracts RiskType.validate (fun m => PyStr (RiskType.value m)).
Proof. apply retracts_Enum, RiskType_of_value_value. Qed.

Lemma retracts_RiskSeverity :
  retracts RiskSeverity.validate (fun m => PyStr (RiskSeverity.value m)).
Proof. apply retracts_Enum, RiskSeverity_of_value_value. Qed.

Lemma BaseEntity_fields_retracts (e e' : BaseEntity.t) (rest : kwargs) :
  BaseEntity.fields (BaseEntity.model_dump e ++ rest)%list = Valid e' -> e' = e.
Proof.
  unfold BaseEntity.fields. intros Hf.
  apply vap_valid in Hf as (g2 & u & Hf & Hu & ->).
  apply vap_valid in Hf as (g1 & c & Hf & Hc & ->).
  apply vmap_valid in Hf as (i & Hi & ->).
  eapply field_retracts in Hi; [|apply retracts_Uuid|reflexivity].
  eapply field_retracts in Hc; [|apply retracts_Datetime|reflexivity].
  eapply field_retracts in Hu; [|apply retracts_Datetime|reflexivity].
  subst. now destruct e.
Qed.

End EnumRetractions.

#[export] Hint Resolve PyStr_not_None dump_list_not_None retracts_FundingStage
  retracts_RecommendationType retracts_RiskType retracts_RiskSeverity : retract.

(** [fields_rt H] turns [fields (model_dump a) = Valid a'] into the equality
    of each field of [a'] with the field of [a], using the retractions
    known so far. *)
Ltac field_rt Hx :=
  lazymatch type of Hx with
  | field _ _ _ _ = Valid ?y =>
      eapply field_retracts in Hx;
      [ | solve [eauto with retract] | reflexivity ];
      subst y
  | BaseEntity.fields _ = Valid ?y =>
      apply BaseEntity_fields_retracts in Hx; subst y
  end.

Ltac fields_rt H :=
  lazymatch type of H with
  | (_ <*> _) = Valid _ =>
      let g := fresh "g" in
      let x := fresh "x" in
      let Hx := fresh "Hx" in
      apply vap_valid in H as (g & x & H & Hx & ->);
      field_rt Hx; fields_rt H
  | (_ <$> _) = Valid _ =>
      let x := fresh "x" in
      let Hx := fresh "Hx" in
      apply vmap_valid in H as (x & Hx & ->); field_rt Hx
  end.

Section ModelRetractions.
Context `{Runtime}.

Lemma retracts_RiskFlag :
  retracts RiskFlag.validate (fun a => PyDict (RiskFlag.model_dump a)).
Proof.
  apply model_retracts; [now intros self x [= <-]|].
  intros a a' Hf. unfold RiskFlag.fields in Hf. fields_rt Hf. now destruct a.
Qed.

Lemma retracts_BenchmarkComparison :
  retracts BenchmarkComparison.validate
    (fun a => PyDict (BenchmarkComparison.model_dump a)).
Proof.
  apply model_retracts; [now intros self x [= <-]|].
  intros a a' Hf. unfold BenchmarkComparison.fields in Hf. fields_rt Hf.
  now destruct a.
Qed.

Lemma retracts_AnalysisWeightings :
  retracts AnalysisWeightings.validate
    (fun a => PyDict (AnalysisWeightings.model_dump a)).
Proof.
  apply model_retracts.
  - intros self x. unfold AnalysisWeightings.validate_weightings_sum.
    destruct (_ <? _)%float; congruence.
  - intros a a' Hf. unfold AnalysisWeightings.fields in Hf. fields_rt Hf.
    now destruct a.
Qed.

Lemma retracts_DealMemoSummary :
  retracts DealMemoSummary.validate
    (fun a => PyDict (DealMemoSummary.model_dump a)).
Proof.
  apply model_retracts; [now intros self x [= <-]|].
  intros a a' Hf. unfold DealMemoSummary.fields in Hf. fields_rt Hf.
  now destruct a.
Qed.

Lemma retracts_RevenueProjection :
  retracts RevenueProjection.validate
    (fun a => PyDict (RevenueProjection.model_dump a)).
Proof.
  apply model_retracts.
  - intros self x. unfold RevenueProjection.validate_revenue_progression.
    repeat destruct (_ <? _)%float; congruence.
  - intros a a' Hf. unfold RevenueProjection.fields in Hf. fields_rt Hf.
    now destruct a.
Qed.

End ModelRetractions.

#[export] Hint Resolve retracts_RiskFlag retracts_BenchmarkComparison
  retracts_AnalysisWeightings retracts_DealMemoSummary
  retracts_RevenueProjection : retract.

Section AggregateRetractions.
Context `{Runtime}.

Lemma retracts_GrowthPotential :
  retracts GrowthPotential.validate
    (fun a => PyDict (GrowthPotential.model_dump a)).
Proof.
  apply model_retracts; [now intros self x [= <-]|].
  intros a a' Hf. unfold GrowthPotential.fields in Hf.
  unfold GrowthPotential.validate_key_drivers,
    GrowthPotential.validate_scalability_factors in Hf.
  fields_rt Hf. now destruct a.
Qed.

Lemma retracts_RiskAssessment :
  retracts RiskAssessment.validate
    (fun a => PyDict (RiskAssessment.model_dump a)).
Proof.
  apply model_retracts; [now intros self x [= <-]|].
  intros a a' Hf. unfold RiskAssessment.fields in Hf.
  unfold RiskAssessment.validate_mitigation_plan in Hf.
  fields_rt Hf. now destruct a.
Qed.

Lemma retracts_InvestmentRecommendation :
  retracts InvestmentRecommendation.validate
    (fun a => PyDict (InvestmentRecommendation.model_dump a)).
Proof.
  apply model_retracts; [now intros self x [= <-]|].
  intros a a' Hf. unfold InvestmentRecommendation.fields in Hf.
  unfold InvestmentRecommendation.validate_suggested_terms,
    InvestmentRecommendation.validate_diligence_questions,
    InvestmentRecommendation.validate_follow_up_actions in Hf.
  fields_rt Hf. now destruct a.
Qed.

Lemma retracts_DealMemoMetadata :
  retracts DealMemoMetadata.validate
    (fun a => PyDict (DealMemoMetadata.model_dump a)).
Proof.
  apply model_retracts; [now intros self x [= <-]|].
  intros a a' Hf. unfold DealMemoMetadata.fields in Hf. fields_rt Hf.
  now destruct a.
Qed.

End AggregateRetractions.

#[export] Hint Resolve retracts_GrowthPotential retracts_RiskAssessment
  retracts_InvestmentRecommendation retracts_DealMemoMetadata : retract.

Section DealMemoRetraction.
Context `{Runtime}.

Lemma retracts_AegisDealMemo :
  retracts AegisDealMemo.validate
    (fun a => PyDict (AegisDealMemo.model_dump a)).
Proof.
  apply model_retracts; [now intros self x [= <-]|].
  intros a a' Hf. unfold AegisDealMemo.fields in Hf. fields_rt Hf.
  now destruct a.
Qed.

Lemma retracts_DealMemo :
  retracts DealMemo.validate (fun a => PyDict (DealMemo.model_dump a)).
Proof.
  apply model_retracts; [now intros self x [= <-]|].
  intros a a' Hf. unfold DealMemo.fields in Hf.
  apply vap_valid in Hf as (g & x & Hf & Hx & ->).
  apply vmap_valid in Hf as (e & He & ->).
  apply BaseEntity_fields_retracts in He as ->.
  eapply field_retracts in Hx;
    [|apply retracts_AegisDealMemo|reflexivity].
  subst. now destruct a.
Qed.

End DealMemoRetraction.

(** C9: a raw document in canonical shape, that is the serialisation
    [model_dump] of some deal memo (every declared field present, each value
    of its declared type), which validates, validates to that very memo; so
    serialising the validated entity gives back the document: nothing is
    lost or changed. The same holds through [validate_deal_memo]. *)
Theorem DealMemo_round_trip `{Runtime} (memo validated : DealMemo.t) :
  DealMemo.new (DealMemo.model_dump memo) = Ok validated ->
  validated = memo
  /\ DealMemo.model_dump validated = DealMemo.model_dump memo
  /\ validate_deal_memo (DealMemo.model_dump memo) = Ok memo.
Proof.
  intros Hnew.
  assert (validated = memo) as ->.
  { unfold DealMemo.new in Hnew. apply raise_errors_ok in Hnew.
    exact (retracts_DealMemo memo validated Hnew). }
  repeat split. unfold validate_deal_memo. now rewrite Hnew.
Qed.

(** The valid memo of the test suite is in canonical shape: it is the
    serialisation of the memo it validates to, and it goes round. *)
Lemma DealMemo_round_trip_witness :
  exists memo,
    DealMemo.model_dump memo = deal_memo_data 85 10000000 25
    /\ @DealMemo.new strict_runtime (DealMemo.model_dump memo) = Ok memo
    /\ @validate_deal_memo strict_runtime (DealMemo.model_dump memo) = Ok memo.
Proof.
  destruct (@DealMemo.new strict_runtime (deal_memo_data 85 10000000 25))
    as [memo|e] eqn:E; [|vm_compute in E; discriminate E].
  exists memo.
  assert (Hd : DealMemo.model_dump memo = deal_memo_data 85 10000000 25).
  { vm_compute in E. injection E as <-. vm_compute. reflexivity. }
  rewrite Hd. split; [reflexivity|]. split; [exact E|].
  rewrite <- Hd.
  apply (@DealMemo_round_trip strict_runtime memo memo).
  rewrite Hd. exact E.
Defined.

(** * The classes, field by field

    [Sound val ok]: whatever the input, a value that the field type [val]
    accepts satisfies [ok]. [Complete val dump ok]: the serialised form of a
    value that satisfies [ok] is accepted, as that value. [Always ok]: [ok]
    holds of every value. *)

Class Sound {A} (val : Any -> V A) (ok : A -> bool) : Prop :=
  sound : forall v a, val v = Valid a -> ok a = true.

Class Complete {A} (val : Any -> V A) (dump : A -> Any) (ok : A -> bool) : Prop :=
  complete : forall a, ok a = true -> val (dump a) = Valid a.

Class Always {A} (ok : A -> bool) : Prop :=
  always : forall a, ok a = true.

(** A validator that returns its argument when it returns. *)
Class ReturnsArgument {A} (f : A -> checked A) : Prop :=
  returns_argument : forall a x, f a = Return x -> x = a.

#[export] Hint Mode Sound - ! - : typeclass_instances.
#[export] Hint Mode Complete - ! - - : typeclass_instances.
#[export] Hint Mode Always - ! : typeclass_instances.
#[export] Hint Mode ReturnsArgument - ! : typeclass_instances.

Lemma returns_true {A} (r : checked A) :
  returns r = true <-> exists a, r = Return a.
Proof.
  destruct r; cbn; split; eauto; try discriminate.
  now intros [a Ha].
Qed.

Lemma vap_intro {A B} (f : V (A -> B)) (x : V A) (g : A -> B) (a : A) :
  f = Valid g -> x = Valid a -> f <*> x = Valid (g a).
Proof. now intros -> ->. Qed.

Lemma vmap_intro {A B} (g : A -> B) (x : V A) (a : A) :
  x = Valid a -> g <$> x = Valid (g a).
Proof. now intros ->. Qed.

Lemma forallb_always {A} (ok : A -> bool) (l : list A) :
  (forall a, ok a = true) -> forallb ok l = true.
Proof. intros Hok. apply forallb_forall. auto. Qed.

Section FieldTypeFacts.
Context `{Runtime}.

Lemma check_str_within (cs : list constraint) (v : Any) (x y : string) :
  check_str cs v x = Valid y -> str_within cs x = true.
Proof.
  induction cs as [|[b|b|n|n] cs IH]; cbn -[Nat.leb]; auto.
  - destruct (n <=? String.length x)%nat; [auto | discriminate].
  - destruct (String.length x <=? n)%nat; [auto | discriminate].
Qed.

Lemma check_str_intro (cs : list constraint) (v : Any) (x : string) :
  str_within cs x = true -> check_str cs v x = Valid x.
Proof.
  induction cs as [|[b|b|n|n] cs IH]; cbn -[Nat.leb]; auto.
  - intros Hw. apply andb_true_iff in Hw as [-> Hw]. auto.
  - intros Hw. apply andb_true_iff in Hw as [-> Hw]. auto.
Qed.

Lemma check_list_within {A} (cs : list constraint) (v : Any) (x y : list A) :
  check_list cs v x = Valid y -> list_within cs x = true.
Proof.
  induction cs as [|[b|b|n|n] cs IH]; cbn -[Nat.leb]; auto.
  - destruct (n <=? List.length x)%nat; [auto | discriminate].
  - destruct (List.length x <=? n)%nat; [auto | discriminate].
Qed.

Lemma check_list_intro {A} (cs : list constraint) (v : Any) (x : list A) :
  list_within cs x = true -> check_list cs v x = Valid x.
Proof.
  induction cs as [|[b|b|n|n] cs IH]; cbn -[Nat.leb]; auto.
  - intros Hw. apply andb_true_iff in Hw as [-> Hw]. auto.
  - intros Hw. apply andb_true_iff in Hw as [-> Hw]. auto.
Qed.

(** *** Scalars *)

#[export] Instance Sound_Str (cs : list constraint) : Sound (Str cs) (str_within cs).
Proof.
  intros v a Hv. destruct v; try discriminate Hv. cbn in Hv.
  pose proof (check_str_valid _ _ _ _ Hv) as ->.
  eapply check_str_within, Hv.
Qed.

#[export] Instance Complete_Str (cs : list constraint) :
  Complete (Str cs) PyStr (str_within cs).
Proof. intros a Ha. cbn. now apply check_str_intro. Qed.

#[export] Instance Sound_Float (cs : list constraint) :
  Sound (Float cs) (float_within cs).
Proof. intros v a. apply Float_valid. Qed.

#[export] Instance Complete_Float (cs : list constraint) :
  Complete (Float cs) PyFloat (float_within cs).
Proof. intros a Ha. cbn. now apply check_float_intro. Qed.

#[export] Instance Sound_Int (cs : list constraint) : Sound (Int cs) (int_within cs).
Proof. intros v a. apply Int_valid. Qed.

#[export] Instance Complete_Int (cs : list constraint) :
  Complete (Int cs) PyInt (int_within cs).
Proof. intros a Ha. cbn. now apply check_int_intro. Qed.

#[export] Instance Sound_Bool : Sound Bool (fun _ => true).
Proof. now intros v a _. Qed.

#[export] Instance Complete_Bool : Complete Bool PyBool (fun _ => true).
Proof. now intros a _. Qed.

#[export] Instance Sound_Uuid : Sound Uuid (fun _ => true).
Proof. now intros v a _. Qed.

#[export] Instance Complete_Uuid : Complete Uuid PyUUID (fun _ => true).
Proof. now intros a _. Qed.

#[export] Instance Sound_Datetime : Sound Datetime (fun _ => true).
Proof. now intros v a _. Qed.

#[export] Instance Complete_Datetime : Complete Datetime PyDatetime (fun _ => true).
Proof. now intros a _. Qed.

#[export] Instance Sound_HttpUrl : Sound HttpUrl (fun _ => true).
Proof. now intros v a _. Qed.

#[export] Instance Sound_Literal (allowed : list string) :
  Sound (Literal allowed) (one_of_literals allowed).
Proof.
  intros v a Hv. destruct v; try discriminate Hv. cbn in Hv.
  unfold one_of_literals.
  destruct (existsb _ _) eqn:E; [|discriminate]. now injection Hv as <-.
Qed.

#[export] Instance Complete_Literal (allowed : list string) :
  Complete (Literal allowed) PyStr (one_of_literals allowed).
Proof. intros a Ha. unfold one_of_literals in Ha. cbn. now rewrite Ha. Qed.

#[export] Instance Sound_Enum {E} (of_value : string -> option E)
    (values : list string) : Sound (Enum_ of_value values) (fun _ => true).
Proof. now intros v a _. Qed.

(** *** Containers *)

#[export] Instance Sound_Optional {A} (val : Any -> V A) (ok : A -> bool)
    `{HS : !Sound val ok} : Sound (Optional val) (optional_ok ok).
Proof.
  intros v o Hv. unfold Optional in Hv.
  destruct v; try (now injection Hv as <-);
    apply vmap_valid in Hv as (a & Ha & ->); exact (HS _ _ Ha).
Qed.

#[export] Instance Complete_Optional {A} (val : Any -> V A) (dump : A -> Any)
    (ok : A -> bool) `{HC : !Complete val dump ok} :
  (forall a, dump a <> PyNone) ->
  Complete (Optional val) (dump_optional dump) (optional_ok ok).
Proof.
  intros Hd [a|] Ho; unfold Optional, dump_optional; [|reflexivity].
  pose proof (HC a Ho) as Hc.
  destruct (dump a) eqn:E; try (now elim (Hd a)); now rewrite Hc.
Qed.

Lemma each_sound {A} (val : Any -> V A) (ok : A -> bool) `{HS : !Sound val ok}
    (l : list Any) (i : nat) (l' : list A) :
  each val i l = Valid l' -> forallb ok l' = true.
Proof.
  revert i l'. induction l as [|v l IH]; intros i l'; cbn [each].
  - now intros [= <-].
  - intros Hv. apply vap_valid in Hv as (g & tl & Hg & Htl & ->).
    apply vmap_valid in Hg as (hd & Hhd & ->).
    apply at_loc_valid in Hhd. cbn [forallb].
    rewrite (HS _ _ Hhd). exact (IH _ _ Htl).
Qed.

Lemma each_complete {A} (val : Any -> V A) (dump : A -> Any) (ok : A -> bool)
    `{HC : !Complete val dump ok} (l : list A) (i : nat) :
  forallb ok l = true -> each val i (map dump l) = Valid l.
Proof.
  revert i. induction l as [|a l IH]; intros i; cbn [forallb map each];
    [reflexivity|].
  intros Hl. apply andb_true_iff in Hl as [Ha Hl].
  now rewrite (HC a Ha), (IH _ Hl).
Qed.

#[export] Instance Sound_List {A} (cs : list constraint) (val : Any -> V A)
    (ok : A -> bool) `{HS : !Sound val ok} :
  Sound (List_ cs val) (fun l => forallb ok l && list_within cs l).
Proof.
  intros v l Hv. unfold List_ in Hv. destruct v as [| | | | | | | |items|];
    try discriminate Hv.
  apply and_then_valid in Hv as (l0 & Hl0 & Hv).
  pose proof (check_list_valid _ _ _ _ Hv) as ->.
  now rewrite (each_sound _ _ _ _ _ Hl0), (check_list_within _ _ _ _ Hv).
Qed.

#[export] Instance Complete_List {A} (cs : list constraint) (val : Any -> V A)
    (dump : A -> Any) (ok : A -> bool) `{HC : !Complete val dump ok} :
  Complete (List_ cs val) (dump_list dump)
    (fun l => forallb ok l && list_within cs l).
Proof.
  intros l Hl. apply andb_true_iff in Hl as [Hl Hw].
  unfold List_, dump_list. rewrite (each_complete _ _ _ _ _ Hl).
  cbn [and_then]. now apply check_list_intro.
Qed.

Lemma each_item_sound {A} (val : Any -> V A) (ok : A -> bool) `{HS : !Sound val ok}
    (d : list (string * Any)) (d' : list (string * A)) :
  each_item val d = Valid d' -> forallb (fun kv => ok (snd kv)) d' = true.
Proof.
  revert d'. induction d as [|[k v] d IH]; intros d'; cbn [each_item].
  - now intros [= <-].
  - intros Hv. apply vap_valid in Hv as (g & tl & Hg & Htl & ->).
    apply vmap_valid in Hg as (hd & Hhd & ->).
    apply vmap_valid in Hhd as (a & Ha & ->).
    apply at_loc_valid in Ha. cbn [forallb snd].
    rewrite (HS _ _ Ha). exact (IH _ Htl).
Qed.

Lemma each_item_complete {A} (val : Any -> V A) (dump : A -> Any)
    (ok : A -> bool) `{HC : !Complete val dump ok} (d : list (string * A)) :
  forallb (fun kv => ok (snd kv)) d = true ->
  each_item val (map (fun kv => (fst kv, dump (snd kv))) d) = Valid d.
Proof.
  induction d as [|[k a] d IH]; cbn [forallb map each_item fst snd];
    [reflexivity|].
  intros Hd. apply andb_true_iff in Hd as [Ha Hd].
  now rewrite (HC a Ha), (IH Hd).
Qed.

#[export] Instance Sound_Dict {A} (val : Any -> V A) (ok : A -> bool)
    `{HS : !Sound val ok} :
  Sound (Dict_ val) (forallb (fun kv => ok (snd kv))).
Proof.
  intros v d Hv. unfold Dict_ in Hv. destruct v; try discriminate Hv.
  exact (each_item_sound _ _ _ _ Hv).
Qed.

#[export] Instance Complete_Dict {A} (val : Any -> V A) (dump : A -> Any)
    (ok : A -> bool) `{HC : !Complete val dump ok} :
  Complete (Dict_ val)
    (fun d => PyDict (map (fun kv => (fst kv, dump (snd kv))) d))
    (forallb (fun kv => ok (snd kv))).
Proof. intros d Hd. cbn [Dict_]. exact (each_item_complete val dump ok d Hd). Qed.

(** *** Validators *)

#[export] Instance Sound_field_validator {A} (f : A -> checked A)
    (val : Any -> V A) (ok : A -> bool) `{HR : !ReturnsArgument f} `{HS : !Sound val ok} :
  Sound (field_validator f val) (fun a => ok a && returns (f a)).
Proof.
  intros v a Hv. unfold field_validator in Hv.
  apply and_then_valid in Hv as (a0 & Ha0 & Hv).
  apply run_validator_valid in Hv.
  pose proof (HR _ _ Hv) as ->.
  rewrite (HS _ _ Ha0), Hv. reflexivity.
Qed.

#[export] Instance Complete_field_validator {A} (f : A -> checked A)
    (val : Any -> V A) (dump : A -> Any) (ok : A -> bool)
    `{HR : !ReturnsArgument f} `{HC : !Complete val dump ok} :
  Complete (field_validator f val) dump (fun a => ok a && returns (f a)).
Proof.
  intros a Ha. apply andb_true_iff in Ha as [Ha Hr].
  unfold field_validator. rewrite (HC a Ha). cbn [and_then].
  apply returns_true in Hr as [x Hx].
  rewrite Hx. now rewrite (HR _ _ Hx).
Qed.

Lemma model_sound {A} (name : string) (fields : kwargs -> V A)
    (after : A -> checked A) (ok : A -> bool) `{HR : !ReturnsArgument after} :
  (forall data a, fields data = Valid a -> ok a = true) ->
  Sound (model name fields after) (fun a => ok a && returns (after a)).
Proof.
  intros Hf v a Hv. destruct v; try discriminate Hv. cbn [model] in Hv.
  apply and_then_valid in Hv as (self & Hs & Hv).
  apply run_validator_valid in Hv.
  pose proof (HR _ _ Hv) as ->.
  rewrite (Hf _ _ Hs), Hv. reflexivity.
Qed.

Lemma model_complete {A} (name : string) (fields : kwargs -> V A)
    (after : A -> checked A) (model_dump : A -> kwargs) (ok : A -> bool)
    `{HR : !ReturnsArgument after} :
  (forall a, ok a = true -> fields (model_dump a) = Valid a) ->
  Complete (model name fields after) (fun a => PyDict (model_dump a))
    (fun a => ok a && returns (after a)).
Proof.
  intros Hf a Ha. apply andb_true_iff in Ha as [Ha Hr].
  cbn [model]. rewrite (Hf a Ha). cbn [and_then].
  apply returns_true in Hr as [x Hx].
  rewrite Hx. now rewrite (HR _ _ Hx).
Qed.

(** *** Fields *)

Lemma field_sound {A} (val : Any -> V A) (ok : A -> bool) `{HS : !Sound val ok}
    (data : kwargs) (name : string) (dflt : option A) (x : A) :
  (forall d, dflt = Some d -> ok d = true) ->
  field data name dflt val = Valid x -> ok x = true.
Proof.
  intros Hd Hf. apply field_valid in Hf as [(v & _ & Hv)|(_ & Hx)].
  - exact (HS _ _ Hv).
  - exact (Hd _ Hx).
Qed.

Lemma field_complete {A} (val : Any -> V A) (dump : A -> Any) (ok : A -> bool)
    `{HC : !Complete val dump ok} (data : kwargs) (name : string) (dflt : option A)
    (x : A) :
  get name data = Some (dump x) -> ok x = true ->
  field data name dflt val = Valid x.
Proof.
  intros Hg Hx. unfold field. rewrite Hg, (HC x Hx). reflexivity.
Qed.

(** A field that the document lacks takes its default. *)
Lemma field_absent {A} (data : kwargs) (name : string) (d : A)
    (val : Any -> V A) :
  get name data = None -> field data name (default d) val = Valid d.
Proof. unfold field. now intros ->. Qed.

End FieldTypeFacts.

(** *** Constraints that always hold *)

Arguments float_within : simpl never.
Arguments int_within : simpl never.
Arguments str_within : simpl never.
Arguments list_within : simpl never.
Arguments optional_ok : simpl never.
Arguments returns : simpl never.
Arguments items_within : simpl never.
Arguments none_negative : simpl never.
Arguments one_of_literals : simpl never.

#[export] Instance Always_true {A} : Always (fun _ : A => true).
Proof. now intros a. Qed.

#[export] Instance Always_str_within_nil : Always (str_within []).
Proof. now intros a. Qed.

#[export] Instance Always_float_within_nil : Always (float_within []).
Proof. now intros a. Qed.

#[export] Instance Always_list_within_nil {A} : Always (@list_within A []).
Proof. now intros a. Qed.

#[export] Instance Always_optional {A} (ok : A -> bool) `{!Always ok} :
  Always (optional_ok ok).
Proof. intros [a|]; [apply Always0 | reflexivity]. Qed.

#[export] Instance Always_forallb {A} (ok : A -> bool) `{!Always ok} :
  Always (forallb ok).
Proof. intros l. apply forallb_always, Always0. Qed.

#[export] Instance Always_and {A} (ok ok' : A -> bool) `{!Always ok} `{!Always ok'} :
  Always (fun a => ok a && ok' a).
Proof. intros a. now rewrite Always0, Always1. Qed.

(** *** Serialised values other than [None] *)

Class NotNone {A} (dump : A -> Any) : Prop :=
  not_none : forall a, dump a <> PyNone.

#[export] Hint Mode NotNone - ! : typeclass_instances.

#[export] Instance NotNone_PyStr : NotNone PyStr.
Proof. discriminate. Qed.

#[export] Instance NotNone_PyFloat : NotNone PyFloat.
Proof. discriminate. Qed.

#[export] Instance NotNone_PyInt : NotNone PyInt.
Proof. discriminate. Qed.

#[export] Instance NotNone_PyBool : NotNone PyBool.
Proof. discriminate. Qed.

#[export] Instance NotNone_PyUrl : NotNone PyUrl.
Proof. discriminate. Qed.

#[export] Instance NotNone_PyDatetime : NotNone PyDatetime.
Proof. discriminate. Qed.

#[export] Instance NotNone_dump_list {A} (dump : A -> Any) :
  NotNone (dump_list dump).
Proof. discriminate. Qed.

#[export] Instance NotNone_PyDict {A} (model_dump : A -> kwargs) :
  NotNone (fun a => PyDict (model_dump a)).
Proof. discriminate. Qed.

#[export] Instance NotNone_member {E} (value : E -> string) :
  NotNone (fun m => PyStr (value m)).
Proof. discriminate. Qed.

#[export] Instance Complete_Optional_NotNone `{Runtime} {A} (val : Any -> V A)
    (dump : A -> Any) (ok : A -> bool)
    `{HC : !Complete val dump ok} `{HN : !NotNone dump} :
  Complete (Optional val) (dump_optional dump) (optional_ok ok) | 0.
Proof. apply Complete_Optional; assumption. Qed.

(** A validated URL passes the validation of URLs unchanged. *)
Class ValidUrls `{Runtime} : Prop :=
  valid_urls : forall u, http_url (PyUrl u) = Some u.

#[export] Instance Complete_HttpUrl `{ValidUrls} :
  Complete HttpUrl PyUrl (fun _ => true).
Proof. intros u _. unfold HttpUrl. now rewrite valid_urls. Qed.

(** *** The validators of the source *)

Lemma no_validator_ReturnsArgument {A} : ReturnsArgument (@no_validator A).
Proof. now intros a x [= <-]. Qed.

#[export] Existing Instance no_validator_ReturnsArgument.

Lemma raise_if_any_ReturnsArgument {A} (cond : A -> bool) (m : string) :
  ReturnsArgument (fun v => raise_if_any cond m v v).
Proof. intros a x. apply raise_if_any_return. Qed.

(** A loop that raises on the first item whose length is under [lo] or over
    [hi] returns exactly when every item has between [lo] and [hi]
    characters. *)
Lemma returns_item_lengths (lo hi : nat) (m : string) (v : list string) :
  returns (raise_if_any
             (fun s => (String.length s <? lo)%nat || (hi <? String.length s)%nat)
             m v v)
  = items_within lo hi v.
Proof.
  unfold raise_if_any, items_within.
  transitivity (negb (existsb
    (fun s => (String.length s <? lo)%nat || (hi <? String.length s)%nat) v)).
  { now destruct (existsb _ v). }
  induction v as [|s v IH]; [reflexivity|].
  cbn [existsb forallb]. rewrite negb_orb, IH. f_equal.
  unfold length_within. rewrite negb_orb.
  now rewrite <- !Nat.leb_antisym.
Qed.

Section ValidatorFacts.
Context `{Runtime}.

#[export] Instance validate_projected_arr_ReturnsArgument :
  ReturnsArgument RevenueMetrics.validate_projected_arr.
Proof.
  intros [values|] x; cbn; [|now intros [= <-]]. apply raise_if_any_return.
Qed.

Lemma returns_validate_projected_arr (v : option (list float)) :
  returns (RevenueMetrics.validate_projected_arr v) = optional_ok none_negative v.
Proof.
  destruct v as [values|]; [|reflexivity].
  unfold RevenueMetrics.validate_projected_arr, raise_if_any, optional_ok,
    none_negative.
  change (float_of_Z 0) with 0%float.
  transitivity (negb (existsb (fun value => (value <? 0)%float) values)).
  { now destruct (existsb _ values). }
  induction values as [|x values IH]; [reflexivity|].
  cbn [existsb forallb]. now rewrite negb_orb, IH.
Qed.

#[export] Instance validate_key_drivers_ReturnsArgument :
  ReturnsArgument GrowthPotential.validate_key_drivers.
Proof. apply raise_if_any_ReturnsArgument. Qed.

#[export] Instance validate_scalability_factors_ReturnsArgument :
  ReturnsArgument GrowthPotential.validate_scalability_factors.
Proof. apply raise_if_any_ReturnsArgument. Qed.

#[export] Instance validate_mitigation_plan_ReturnsArgument :
  ReturnsArgument RiskAssessment.validate_mitigation_plan.
Proof. apply raise_if_any_ReturnsArgument. Qed.

#[export] Instance validate_suggested_terms_ReturnsArgument :
  ReturnsArgument InvestmentRecommendation.validate_suggested_terms.
Proof. apply raise_if_any_ReturnsArgument. Qed.

#[export] Instance validate_diligence_questions_ReturnsArgument :
  ReturnsArgument InvestmentRecommendation.validate_diligence_questions.
Proof. apply raise_if_any_ReturnsArgument. Qed.

#[export] Instance validate_follow_up_actions_ReturnsArgument :
  ReturnsArgument InvestmentRecommendation.validate_follow_up_actions.
Proof. apply raise_if_any_ReturnsArgument. Qed.

Lemma returns_validate_key_drivers (v : list string) :
  returns (GrowthPotential.validate_key_drivers v) = items_within 5 200 v.
Proof. apply returns_item_lengths. Qed.

Lemma returns_validate_scalability_factors (v : list string) :
  returns (GrowthPotential.validate_scalability_factors v) = items_within 5 200 v.
Proof. apply returns_item_lengths. Qed.

Lemma returns_validate_mitigation_plan (v : list string) :
  returns (RiskAssessment.validate_mitigation_plan v) = items_within 10 500 v.
Proof. apply returns_item_lengths. Qed.

Lemma returns_validate_suggested_terms (v : list string) :
  returns (InvestmentRecommendation.validate_suggested_terms v)
  = items_within 5 200 v.
Proof. apply returns_item_lengths. Qed.

Lemma returns_validate_diligence_questions (v : list string) :
  returns (InvestmentRecommendation.validate_diligence_questions v)
  = items_within 10 300 v.
Proof. apply returns_item_lengths. Qed.

Lemma returns_validate_follow_up_actions (v : list string) :
  returns (InvestmentRecommendation.validate_follow_up_actions v)
  = items_within 5 200 v.
Proof. apply returns_item_lengths. Qed.

End ValidatorFacts.

Create Rewrite HintDb validators.
#[export] Hint Rewrite @returns_validate_projected_arr
  @returns_validate_key_drivers @returns_validate_scalability_factors
  @returns_validate_mitigation_plan @returns_validate_suggested_terms
  @returns_validate_diligence_questions @returns_validate_follow_up_actions
  : validators.

(** *** Tactics for the classes *)

(** [model_inv H] inverts [model name fields after v = Valid a]: the fields
    are valid and the validator returns. *)
Ltac model_inv H :=
  let self := fresh "self" in
  let Hs := fresh "Hs" in
  lazymatch type of H with
  | model _ _ _ ?v = Valid _ =>
      destruct v; try discriminate H; cbn [model] in H;
      apply and_then_valid in H as (self & Hs & H);
      apply run_validator_valid in H
  end.

(** The default of a field satisfies the constraint of the field. *)
Ltac default_ok :=
  unfold required, default;
  first [ discriminate | intros ? [= <-]; vm_compute; reflexivity ].

Ltac split_ok H :=
  cbv beta in H;
  lazymatch type of H with
  | (_ && _)%bool = true =>
      let H' := fresh "F" in
      apply andb_true_iff in H as [H' H]; split_ok H'; split_ok H
  | returns _ = true => autorewrite with validators in H
  | _ => idtac
  end.

(** Turns every valid field at hand into the fact that its value satisfies
    the constraints of the field. *)
Ltac fields_sound :=
  repeat match goal with
         | H : field ?data ?name ?dflt ?val = Valid ?x |- _ =>
             apply (field_sound val _ data name dflt x) in H;
             [ split_ok H | default_ok ]
         end.

Ltac ok_holds :=
  cbv beta;
  repeat match goal with
         | |- (_ && _)%bool = true => apply andb_true_intro; split
         end;
  autorewrite with validators;
  first [ assumption
        | reflexivity
        | lazymatch goal with
          | |- ?ok ?a = true => apply (always (ok := ok))
          end ].

Lemma BaseEntity_fields_complete `{Runtime} (e : BaseEntity.t) (rest : kwargs) :
  BaseEntity.fields (BaseEntity.model_dump e ++ rest)%list = Valid e.
Proof. now destruct e. Qed.

Ltac field_holds :=
  lazymatch goal with
  | |- field ?data ?name ?dflt ?val = Valid ?x =>
      first [ apply (field_complete val _ _ data name dflt x);
              [reflexivity | ok_holds]
            | apply field_absent; reflexivity ]
  | |- BaseEntity.fields _ = Valid _ => apply BaseEntity_fields_complete
  end.

(** Builds an instance from the valid fields of its serialised form. *)
Ltac build_fields :=
  lazymatch goal with
  | |- _ <*> _ = Valid (?g ?a) =>
      apply (vap_intro _ _ g a); [build_fields | field_holds]
  | |- _ <$> _ = Valid (?g ?a) =>
      apply (vmap_intro g _ a); field_holds
  end.

(** [fields (model_dump a) = Valid a], from [ok a = true]. *)
Tactic Notation "fields_complete" reference(fields) reference(ok) :=
  lazymatch goal with
  | Hok : _ = true |- _ = Valid ?a =>
      destruct a; unfold ok in Hok; cbn in Hok; split_ok Hok;
      unfold fields; build_fields
  end.

(** *** The enumerations *)

Section EnumFacts.
Context `{Runtime}.

#[export] Instance Sound_FundingStage : Sound FundingStage.validate (fun _ => true).
Proof. now intros v a _. Qed.

#[export] Instance Complete_FundingStage :
  Complete FundingStage.validate (fun m => PyStr (FundingStage.value m))
    (fun _ => true).
Proof. intros m _. now destruct m. Qed.

#[export] Instance Sound_RecommendationType :
  Sound RecommendationType.validate (fun _ => true).
Proof. now intros v a _. Qed.

#[export] Instance Complete_RecommendationType :
  Complete RecommendationType.validate
    (fun m => PyStr (RecommendationType.value m)) (fun _ => true).
Proof. intros m _. now destruct m. Qed.

#[export] Instance Sound_RiskType : Sound RiskType.validate (fun _ => true).
Proof. now intros v a _. Qed.

#[export] Instance Complete_RiskType :
  Complete RiskType.validate (fun m => PyStr (RiskType.value m)) (fun _ => true).
Proof. intros m _. now destruct m. Qed.

#[export] Instance Sound_RiskSeverity : Sound RiskSeverity.validate (fun _ => true).
Proof. now intros v a _. Qed.

#[export] Instance Complete_RiskSeverity :
  Complete RiskSeverity.validate (fun m => PyStr (RiskSeverity.value m))
    (fun _ => true).
Proof. intros m _. now destruct m. Qed.

End EnumFacts.

(** *** The classes *)

Section ClassFacts.
Context `{Runtime}.

#[export] Instance Sound_TeamMember : Sound TeamMember.validate TeamMember_ok.
Proof.
  intros v a Hv. unfold TeamMember.validate in Hv. model_inv Hv.
  injection Hv as <-. unfold TeamMember.fields in Hs. fields_inv Hs. fields_sound.
  unfold TeamMember_ok. cbn. rewrite_facts. reflexivity.
Qed.

#[export] Instance Complete_TeamMember `{!ValidUrls} :
  Complete TeamMember.validate (fun a => PyDict (TeamMember.model_dump a)) TeamMember_ok.
Proof.
  intros a Hok. unfold TeamMember.validate. cbn [model].
  assert (Hf : TeamMember.fields (TeamMember.model_dump a) = Valid a)
    by fields_complete TeamMember.fields TeamMember_ok.
  now rewrite Hf.
Qed.

#[export] Instance Sound_SocialLinks : Sound SocialLinks.validate (fun _ => true).
Proof. now intros v a _. Qed.

#[export] Instance Complete_SocialLinks `{!ValidUrls} :
  Complete SocialLinks.validate (fun a => PyDict (SocialLinks.model_dump a))
    (fun _ => true).
Proof.
  intros a _. unfold SocialLinks.validate. cbn [model].
  assert (Hf : SocialLinks.fields (SocialLinks.model_dump a) = Valid a)
    by (destruct a; unfold SocialLinks.fields; build_fields).
  now rewrite Hf.
Qed.

#[export] Instance Sound_CompanyProfile (schemas : Schemas) :
  Sound (CompanyProfile.validate schemas) (CompanyProfile_ok schemas).
Proof.
  intros v a Hv. unfold CompanyProfile.validate in Hv. model_inv Hv.
  injection Hv as <-. unfold CompanyProfile.fields in Hs. fields_inv Hs.
  fields_sound.
  unfold CompanyProfile_ok. cbn. rewrite_facts. reflexivity.
Qed.

#[export] Instance Complete_CompanyProfile `{!ValidUrls} (schemas : Schemas) :
  Complete (CompanyProfile.validate schemas)
    (fun a => PyDict (CompanyProfile.model_dump a)) (CompanyProfile_ok schemas).
Proof.
  intros a Hok. unfold CompanyProfile.validate. cbn [model].
  assert (Hf : CompanyProfile.fields schemas (CompanyProfile.model_dump a) = Valid a)
    by fields_complete CompanyProfile.fields CompanyProfile_ok.
  now rewrite Hf.
Qed.

#[export] Instance Sound_RevenueMetrics : Sound RevenueMetrics.validate RevenueMetrics_ok.
Proof.
  intros v a Hv. unfold RevenueMetrics.validate in Hv. model_inv Hv.
  injection Hv as <-. unfold RevenueMetrics.fields in Hs. fields_inv Hs. fields_sound.
  unfold RevenueMetrics_ok. cbn. rewrite_facts. reflexivity.
Qed.

#[export] Instance Complete_RevenueMetrics :
  Complete RevenueMetrics.validate (fun a => PyDict (RevenueMetrics.model_dump a)) RevenueMetrics_ok.
Proof.
  intros a Hok. unfold RevenueMetrics.validate. cbn [model].
  assert (Hf : RevenueMetrics.fields (RevenueMetrics.model_dump a) = Valid a)
    by fields_complete RevenueMetrics.fields RevenueMetrics_ok.
  now rewrite Hf.
Qed.

#[export] Instance Sound_TractionMetrics : Sound TractionMetrics.validate TractionMetrics_ok.
Proof.
  intros v a Hv. unfold TractionMetrics.validate in Hv. model_inv Hv.
  injection Hv as <-. unfold TractionMetrics.fields in Hs. fields_inv Hs. fields_sound.
  unfold TractionMetrics_ok. cbn. rewrite_facts. reflexivity.
Qed.

#[export] Instance Complete_TractionMetrics :
  Complete TractionMetrics.validate (fun a => PyDict (TractionMetrics.model_dump a)) TractionMetrics_ok.
Proof.
  intros a Hok. unfold TractionMetrics.validate. cbn [model].
  assert (Hf : TractionMetrics.fields (TractionMetrics.model_dump a) = Valid a)
    by fields_complete TractionMetrics.fields TractionMetrics_ok.
  now rewrite Hf.
Qed.

#[export] Instance Sound_TeamMetrics : Sound TeamMetrics.validate TeamMetrics_ok.
Proof.
  intros v a Hv. unfold TeamMetrics.validate in Hv. model_inv Hv.
  injection Hv as <-. unfold TeamMetrics.fields in Hs. fields_inv Hs. fields_sound.
  unfold TeamMetrics_ok. cbn. rewrite_facts. reflexivity.
Qed.

#[export] Instance Complete_TeamMetrics `{!ValidUrls} :
  Complete TeamMetrics.validate (fun a => PyDict (TeamMetrics.model_dump a)) TeamMetrics_ok.
Proof.
  intros a Hok. unfold TeamMetrics.validate. cbn [model].
  assert (Hf : TeamMetrics.fields (TeamMetrics.model_dump a) = Valid a)
    by fields_complete TeamMetrics.fields TeamMetrics_ok.
  now rewrite Hf.
Qed.

#[export] Instance Sound_FundingMetrics : Sound FundingMetrics.validate FundingMetrics_ok.
Proof.
  intros v a Hv. unfold FundingMetrics.validate in Hv. model_inv Hv.
  injection Hv as <-. unfold FundingMetrics.fields in Hs. fields_inv Hs. fields_sound.
  unfold FundingMetrics_ok. cbn. rewrite_facts. reflexivity.
Qed.

#[export] Instance Complete_FundingMetrics :
  Complete FundingMetrics.validate (fun a => PyDict (FundingMetrics.model_dump a)) FundingMetrics_ok.
Proof.
  intros a Hok. unfold FundingMetrics.validate. cbn [model].
  assert (Hf : FundingMetrics.fields (FundingMetrics.model_dump a) = Valid a)
    by fields_complete FundingMetrics.fields FundingMetrics_ok.
  now rewrite Hf.
Qed.

#[export] Instance Sound_InvestmentMetrics : Sound InvestmentMetrics.validate InvestmentMetrics_ok.
Proof.
  intros v a Hv. unfold InvestmentMetrics.validate in Hv. model_inv Hv.
  injection Hv as <-. unfold InvestmentMetrics.fields in Hs. fields_inv Hs. fields_sound.
  unfold InvestmentMetrics_ok. cbn. rewrite_facts. reflexivity.
Qed.

#[export] Instance Complete_InvestmentMetrics `{!ValidUrls} :
  Complete InvestmentMetrics.validate (fun a => PyDict (InvestmentMetrics.model_dump a)) InvestmentMetrics_ok.
Proof.
  intros a Hok. unfold InvestmentMetrics.validate. cbn [model].
  assert (Hf : InvestmentMetrics.fields (InvestmentMetrics.model_dump a) = Valid a)
    by fields_complete InvestmentMetrics.fields InvestmentMetrics_ok.
  now rewrite Hf.
Qed.

#[export] Instance Sound_RiskFlag : Sound RiskFlag.validate RiskFlag_ok.
Proof.
  intros v a Hv. unfold RiskFlag.validate in Hv. model_inv Hv.
  injection Hv as <-. unfold RiskFlag.fields in Hs. fields_inv Hs. fields_sound.
  unfold RiskFlag_ok. cbn. rewrite_facts. reflexivity.
Qed.

#[export] Instance Complete_RiskFlag :
  Complete RiskFlag.validate (fun a => PyDict (RiskFlag.model_dump a)) RiskFlag_ok.
Proof.
  intros a Hok. unfold RiskFlag.validate. cbn [model].
  assert (Hf : RiskFlag.fields (RiskFlag.model_dump a) = Valid a)
    by fields_complete RiskFlag.fields RiskFlag_ok.
  now rewrite Hf.
Qed.

#[export] Instance validate_distribution_ReturnsArgument :
  ReturnsArgument MetricDistribution.validate_distribution.
Proof.
  intros a x. unfold MetricDistribution.validate_distribution.
  destruct (_ <? _)%float; [discriminate|].
  destruct (negb _); [discriminate|]. now intros [= <-].
Qed.

Lemma returns_validate_distribution (d : MetricDistribution.t) :
  returns (MetricDistribution.validate_distribution d)
  = negb (d.(MetricDistribution.max) <? d.(MetricDistribution.min))%float
    && (d.(MetricDistribution.min) <=? d.(MetricDistribution.median))%float
    && (d.(MetricDistribution.median) <=? d.(MetricDistribution.max))%float.
Proof.
  unfold MetricDistribution.validate_distribution.
  destruct (_ <? _)%float; [reflexivity|].
  destruct (_ <=? _)%float; [|reflexivity].
  now destruct (_ <=? _)%float.
Qed.

#[export] Instance Sound_MetricDistribution :
  Sound MetricDistribution.validate MetricDistribution_ok.
Proof.
  intros v a Hv. unfold MetricDistribution.validate in Hv. model_inv Hv.
  pose proof (returns_argument _ _ Hv) as ->.
  assert (Hr : returns (MetricDistribution.validate_distribution self) = true)
    by now rewrite Hv.
  rewrite returns_validate_distribution in Hr. clear Hv.
  unfold MetricDistribution.fields in Hs. fields_inv Hs. fields_sound.
  unfold MetricDistribution_ok. cbn in Hr |- *. split_ok Hr.
  rewrite_facts. reflexivity.
Qed.

#[export] Instance Complete_MetricDistribution :
  Complete MetricDistribution.validate
    (fun a => PyDict (MetricDistribution.model_dump a)) MetricDistribution_ok.
Proof.
  intros a Hok. unfold MetricDistribution.validate. cbn [model].
  assert (Hr : returns (MetricDistribution.validate_distribution a) = true).
  { rewrite returns_validate_distribution.
    unfold MetricDistribution_ok in Hok. split_ok Hok. now rewrite_facts. }
  apply returns_true in Hr as [x Hx].
  pose proof (returns_argument _ _ Hx) as ->.
  assert (Hf : MetricDistribution.fields (MetricDistribution.model_dump a) = Valid a)
    by fields_complete MetricDistribution.fields MetricDistribution_ok.
  rewrite Hf. cbn [and_then]. now rewrite Hx.
Qed.

#[export] Instance validate_time_range_ReturnsArgument :
  ReturnsArgument TimeRange.validate_time_range.
Proof.
  intros a x. unfold TimeRange.validate_time_range.
  destruct (datetime_ltb _ _); [discriminate|]. now intros [= <-].
Qed.

Lemma returns_validate_time_range (r : TimeRange.t) :
  returns (TimeRange.validate_time_range r) = TimeRange_ok r.
Proof.
  unfold TimeRange.validate_time_range, TimeRange_ok.
  now destruct (datetime_ltb _ _).
Qed.

#[export] Instance Sound_TimeRange : Sound TimeRange.validate TimeRange_ok.
Proof.
  intros v a Hv. unfold TimeRange.validate in Hv. model_inv Hv.
  pose proof (returns_argument _ _ Hv) as ->.
  now rewrite <- returns_validate_time_range, Hv.
Qed.

#[export] Instance Complete_TimeRange :
  Complete TimeRange.validate (fun a => PyDict (TimeRange.model_dump a))
    TimeRange_ok.
Proof.
  intros a Hok. unfold TimeRange.validate. cbn [model].
  rewrite <- returns_validate_time_range in Hok.
  apply returns_true in Hok as [x Hx].
  pose proof (returns_argument _ _ Hx) as ->.
  assert (Hf : TimeRange.fields (TimeRange.model_dump a) = Valid a)
    by (destruct a; unfold TimeRange.fields; build_fields).
  rewrite Hf. cbn [and_then]. now rewrite Hx.
Qed.

#[export] Instance Sound_BenchmarkData : Sound BenchmarkData.validate BenchmarkData_ok.
Proof.
  intros v a Hv. unfold BenchmarkData.validate in Hv. model_inv Hv.
  injection Hv as <-. unfold BenchmarkData.fields in Hs. fields_inv Hs. fields_sound.
  unfold BenchmarkData_ok. cbn. rewrite_facts. reflexivity.
Qed.

#[export] Instance Complete_BenchmarkData :
  Complete BenchmarkData.validate (fun a => PyDict (BenchmarkData.model_dump a)) BenchmarkData_ok.
Proof.
  intros a Hok. unfold BenchmarkData.validate. cbn [model].
  assert (Hf : BenchmarkData.fields (BenchmarkData.model_dump a) = Valid a)
    by fields_complete BenchmarkData.fields BenchmarkData_ok.
  now rewrite Hf.
Qed.

#[export] Instance Sound_BenchmarkComparison : Sound BenchmarkComparison.validate BenchmarkComparison_ok.
Proof.
  intros v a Hv. unfold BenchmarkComparison.validate in Hv. model_inv Hv.
  injection Hv as <-. unfold BenchmarkComparison.fields in Hs. fields_inv Hs. fields_sound.
  unfold BenchmarkComparison_ok. cbn. rewrite_facts. reflexivity.
Qed.

#[export] Instance Complete_BenchmarkComparison :
  Complete BenchmarkComparison.validate (fun a => PyDict (BenchmarkComparison.model_dump a)) BenchmarkComparison_ok.
Proof.
  intros a Hok. unfold BenchmarkComparison.validate. cbn [model].
  assert (Hf : BenchmarkComparison.fields (BenchmarkComparison.model_dump a) = Valid a)
    by fields_complete BenchmarkComparison.fields BenchmarkComparison_ok.
  now rewrite Hf.
Qed.

#[export] Instance validate_weightings_sum_ReturnsArgument :
  ReturnsArgument AnalysisWeightings.validate_weightings_sum.
Proof.
  intros a x. unfold AnalysisWeightings.validate_weightings_sum.
  destruct (_ <? _)%float; [discriminate|]. now intros [= <-].
Qed.

Lemma returns_validate_weightings_sum (w : AnalysisWeightings.t) :
  returns (AnalysisWeightings.validate_weightings_sum w)
  = negb (0.01 <? abs (AnalysisWeightings.total w - 100.0))%float.
Proof.
  unfold AnalysisWeightings.validate_weightings_sum.
  now destruct (_ <? _)%float.
Qed.

#[export] Instance Sound_AnalysisWeightings :
  Sound AnalysisWeightings.validate AnalysisWeightings_ok.
Proof.
  intros v a Hv. unfold AnalysisWeightings.validate in Hv. model_inv Hv.
  pose proof (returns_argument _ _ Hv) as ->.
  assert (Hr : returns (AnalysisWeightings.validate_weightings_sum self) = true)
    by now rewrite Hv.
  rewrite returns_validate_weightings_sum in Hr. clear Hv.
  unfold AnalysisWeightings.fields in Hs. fields_inv Hs. fields_sound.
  unfold AnalysisWeightings_ok. rewrite Hr. cbn. rewrite_facts. reflexivity.
Qed.

#[export] Instance Complete_AnalysisWeightings :
  Complete AnalysisWeightings.validate
    (fun a => PyDict (AnalysisWeightings.model_dump a)) AnalysisWeightings_ok.
Proof.
  intros a Hok. unfold AnalysisWeightings.validate. cbn [model].
  assert (Hr : returns (AnalysisWeightings.validate_weightings_sum a) = true).
  { rewrite returns_validate_weightings_sum.
    unfold AnalysisWeightings_ok in Hok. now apply andb_true_iff in Hok as [_ ->]. }
  apply returns_true in Hr as [x Hx].
  pose proof (returns_argument _ _ Hx) as ->.
  assert (Hf : AnalysisWeightings.fields (AnalysisWeightings.model_dump a) = Valid a)
    by fields_complete AnalysisWeightings.fields AnalysisWeightings_ok.
  rewrite Hf. cbn [and_then]. now rewrite Hx.
Qed.

#[export] Instance Sound_DealMemoSummary : Sound DealMemoSummary.validate DealMemoSummary_ok.
Proof.
  intros v a Hv. unfold DealMemoSummary.validate in Hv. model_inv Hv.
  injection Hv as <-. unfold DealMemoSummary.fields in Hs. fields_inv Hs. fields_sound.
  unfold DealMemoSummary_ok. cbn. rewrite_facts. reflexivity.
Qed.

#[export] Instance Complete_DealMemoSummary :
  Complete DealMemoSummary.validate (fun a => PyDict (DealMemoSummary.model_dump a)) DealMemoSummary_ok.
Proof.
  intros a Hok. unfold DealMemoSummary.validate. cbn [model].
  assert (Hf : DealMemoSummary.fields (DealMemoSummary.model_dump a) = Valid a)
    by fields_complete DealMemoSummary.fields DealMemoSummary_ok.
  now rewrite Hf.
Qed.

#[export] Instance validate_revenue_progression_ReturnsArgument :
  ReturnsArgument RevenueProjection.validate_revenue_progression.
Proof.
  intros a x. unfold RevenueProjection.validate_revenue_progression.
  do 2 (destruct (_ <? _)%float; [discriminate|]). now intros [= <-].
Qed.

Lemma returns_validate_revenue_progression (p : RevenueProjection.t) :
  returns (RevenueProjection.validate_revenue_progression p)
  = negb (p.(RevenueProjection.year3) <? p.(RevenueProjection.year1))%float
    && negb (p.(RevenueProjection.year5) <? p.(RevenueProjection.year3))%float.
Proof.
  unfold RevenueProjection.validate_revenue_progression.
  destruct (_ <? _)%float; [reflexivity|]. now destruct (_ <? _)%float.
Qed.

#[export] Instance Sound_RevenueProjection :
  Sound RevenueProjection.validate RevenueProjection_ok.
Proof.
  intros v a Hv. unfold RevenueProjection.validate in Hv. model_inv Hv.
  pose proof (returns_argument _ _ Hv) as ->.
  assert (Hr : returns (RevenueProjection.validate_revenue_progression self) = true)
    by now rewrite Hv.
  rewrite returns_validate_revenue_progression in Hr. clear Hv.
  unfold RevenueProjection.fields in Hs. fields_inv Hs. fields_sound.
  unfold RevenueProjection_ok. cbn in Hr |- *. split_ok Hr.
  rewrite_facts. reflexivity.
Qed.

#[export] Instance Complete_RevenueProjection :
  Complete RevenueProjection.validate
    (fun a => PyDict (RevenueProjection.model_dump a)) RevenueProjection_ok.
Proof.
  intros a Hok. unfold RevenueProjection.validate. cbn [model].
  assert (Hr : returns (RevenueProjection.validate_revenue_progression a) = true).
  { rewrite returns_validate_revenue_progression.
    unfold RevenueProjection_ok in Hok. split_ok Hok. now rewrite_facts. }
  apply returns_true in Hr as [x Hx].
  pose proof (returns_argument _ _ Hx) as ->.
  assert (Hf : RevenueProjection.fields (RevenueProjection.model_dump a) = Valid a)
    by fields_complete RevenueProjection.fields RevenueProjection_ok.
  rewrite Hf. cbn [and_then]. now rewrite Hx.
Qed.

#[export] Instance Sound_GrowthPotential : Sound GrowthPotential.validate GrowthPotential_ok.
Proof.
  intros v a Hv. unfold GrowthPotential.validate in Hv. model_inv Hv.
  injection Hv as <-. unfold GrowthPotential.fields in Hs. fields_inv Hs. fields_sound.
  unfold GrowthPotential_ok. cbn. rewrite_facts. reflexivity.
Qed.

#[export] Instance Complete_GrowthPotential :
  Complete GrowthPotential.validate (fun a => PyDict (GrowthPotential.model_dump a)) GrowthPotential_ok.
Proof.
  intros a Hok. unfold GrowthPotential.validate. cbn [model].
  assert (Hf : GrowthPotential.fields (GrowthPotential.model_dump a) = Valid a)
    by fields_complete GrowthPotential.fields GrowthPotential_ok.
  now rewrite Hf.
Qed.

#[export] Instance Sound_RiskAssessment : Sound RiskAssessment.validate RiskAssessment_ok.
Proof.
  intros v a Hv. unfold RiskAssessment.validate in Hv. model_inv Hv.
  injection Hv as <-. unfold RiskAssessment.fields in Hs. fields_inv Hs. fields_sound.
  unfold RiskAssessment_ok. cbn. rewrite_facts. reflexivity.
Qed.

#[export] Instance Complete_RiskAssessment :
  Complete RiskAssessment.validate (fun a => PyDict (RiskAssessment.model_dump a)) RiskAssessment_ok.
Proof.
  intros a Hok. unfold RiskAssessment.validate. cbn [model].
  assert (Hf : RiskAssessment.fields (RiskAssessment.model_dump a) = Valid a)
    by fields_complete RiskAssessment.fields RiskAssessment_ok.
  now rewrite Hf.
Qed.

#[export] Instance Sound_InvestmentRecommendation : Sound InvestmentRecommendation.validate InvestmentRecommendation_ok.
Proof.
  intros v a Hv. unfold InvestmentRecommendation.validate in Hv. model_inv Hv.
  injection Hv as <-. unfold InvestmentRecommendation.fields in Hs. fields_inv Hs. fields_sound.
  unfold InvestmentRecommendation_ok. cbn. rewrite_facts. reflexivity.
Qed.

#[export] Instance Complete_InvestmentRecommendation :
  Complete InvestmentRecommendation.validate (fun a => PyDict (InvestmentRecommendation.model_dump a)) InvestmentRecommendation_ok.
Proof.
  intros a Hok. unfold InvestmentRecommendation.validate. cbn [model].
  assert (Hf : InvestmentRecommendation.fields (InvestmentRecommendation.model_dump a) = Valid a)
    by fields_complete InvestmentRecommendation.fields InvestmentRecommendation_ok.
  now rewrite Hf.
Qed.

#[export] Instance Sound_DealMemoMetadata : Sound DealMemoMetadata.validate DealMemoMetadata_ok.
Proof.
  intros v a Hv. unfold DealMemoMetadata.validate in Hv. model_inv Hv.
  injection Hv as <-. unfold DealMemoMetadata.fields in Hs. fields_inv Hs. fields_sound.
  unfold DealMemoMetadata_ok. cbn. rewrite_facts. reflexivity.
Qed.

#[export] Instance Complete_DealMemoMetadata :
  Complete DealMemoMetadata.validate (fun a => PyDict (DealMemoMetadata.model_dump a)) DealMemoMetadata_ok.
Proof.
  intros a Hok. unfold DealMemoMetadata.validate. cbn [model].
  assert (Hf : DealMemoMetadata.fields (DealMemoMetadata.model_dump a) = Valid a)
    by fields_complete DealMemoMetadata.fields DealMemoMetadata_ok.
  now rewrite Hf.
Qed.

#[export] Instance Sound_AegisDealMemo : Sound AegisDealMemo.validate AegisDealMemo_ok.
Proof.
  intros v a Hv. unfold AegisDealMemo.validate in Hv. model_inv Hv.
  injection Hv as <-. unfold AegisDealMemo.fields in Hs. fields_inv Hs. fields_sound.
  unfold AegisDealMemo_ok. cbn. rewrite_facts. reflexivity.
Qed.

#[export] Instance Complete_AegisDealMemo :
  Complete AegisDealMemo.validate (fun a => PyDict (AegisDealMemo.model_dump a)) AegisDealMemo_ok.
Proof.
  intros a Hok. unfold AegisDealMemo.validate. cbn [model].
  assert (Hf : AegisDealMemo.fields (AegisDealMemo.model_dump a) = Valid a)
    by fields_complete AegisDealMemo.fields AegisDealMemo_ok.
  now rewrite Hf.
Qed.

#[export] Instance Sound_DealMemo : Sound DealMemo.validate DealMemo_ok.
Proof.
  intros v a Hv. unfold DealMemo.validate in Hv. model_inv Hv.
  injection Hv as <-. unfold DealMemo.fields in Hs. fields_inv Hs. fields_sound.
  unfold DealMemo_ok. cbn. rewrite_facts. reflexivity.
Qed.

#[export] Instance Complete_DealMemo :
  Complete DealMemo.validate (fun a => PyDict (DealMemo.model_dump a)) DealMemo_ok.
Proof.
  intros a Hok. unfold DealMemo.validate. cbn [model].
  assert (Hf : DealMemo.fields (DealMemo.model_dump a) = Valid a)
    by fields_complete DealMemo.fields DealMemo_ok.
  now rewrite Hf.
Qed.

End ClassFacts.

(** * Construction *)

Section ConstructionFacts.
Context `{Runtime}.

(** What a constructor returns satisfies the constraints of the class. *)
Lemma constructed_ok {A} (title : string) (val : Any -> V A) (ok : A -> bool)
    `{HS : !Sound val ok} (data : kwargs) (a : A) :
  raise_errors title (val (PyDict data)) = Ok a -> ok a = true.
Proof. rewrite raise_errors_ok. apply HS. Qed.

(** An instance that satisfies the constraints of its class is constructed
    from its own serialised form. *)
Lemma dump_constructs {A} (title : string) (val : Any -> V A)
    (model_dump : A -> kwargs) (ok : A -> bool)
    `{HC : !Complete val (fun a => PyDict (model_dump a)) ok} (a : A) :
  ok a = true -> raise_errors title (val (PyDict (model_dump a))) = Ok a.
Proof. intros Ha. now rewrite (HC a Ha). Qed.

(** The violations of the fields of a class are collected, none is lost. *)
Lemma violations_vmap {A B} (g : A -> B) (x : V A) :
  violations (g <$> x) = violations x.
Proof. now destruct x. Qed.

Lemma violations_vap {A B} (f : V (A -> B)) (x : V A) :
  violations (f <*> x) = (violations f ++ violations x)%list.
Proof. destruct f, x; cbn; try reflexivity. now rewrite app_nil_r. Qed.

Lemma violations_at_loc {A} (i : LocItem) (x : V A) :
  violations (at_loc i x) = map (under i) (violations x).
Proof. now destruct x. Qed.

Lemma field_present_violations {A} (data : kwargs) (name : string)
    (dflt : option A) (val : Any -> V A) (v : Any) :
  get name data = Some v ->
  violations (field data name dflt val) = map (under (Key name)) (violations (val v)).
Proof. unfold field. intros ->. apply violations_at_loc. Qed.

Lemma field_missing {A} (data : kwargs) (name : string) (val : Any -> V A) :
  get name data = None ->
  violations (field data name required val) = [missing name data].
Proof. unfold field. now intros ->. Qed.

(** A violation among the fields is a violation of the construction: the
    validator of the class does not run, and the violations of the fields
    are raised as they are. *)
Lemma model_raises {A} (title : string) (fields : kwargs -> V A)
    (after : A -> checked A) (data : kwargs) (x : ErrorDetails) :
  In x (violations (fields data)) ->
  exists e es,
    raise_errors title (model title fields after (PyDict data))
    = Raise (ValidationError title e es)
    /\ e :: es = violations (fields data)
    /\ In x (e :: es).
Proof.
  cbn [model]. destruct (fields data) as [a|e es]; [intros []|].
  intros Hin. exists e, es. repeat split; assumption.
Qed.



End ConstructionFacts.

(** The violations of the fields, one list per field. *)
Ltac collect_violations :=
  repeat first [rewrite violations_vap | rewrite violations_vmap];
  repeat rewrite in_app_iff.

(** * The instances of a class *)

(** The instances of a class are the values that satisfy its constraints:
    a constructed value satisfies them, and a value that satisfies them is
    constructed from its serialised form. *)
Lemma instances {A} (title : string) (val : Any -> V A)
    (model_dump : A -> kwargs) (ok : A -> bool)
    `{HS : !Sound val ok}
    `{HC : !Complete val (fun a => PyDict (model_dump a)) ok} (a : A) :
  ok a = true <-> exists data, raise_errors title (val (PyDict data)) = Ok a.
Proof.
  split.
  - intros Ha. exists (model_dump a).
    exact (dump_constructs title val model_dump ok a Ha).
  - intros [data Hd]. exact (constructed_ok title val ok data a Hd).
Qed.

(** A constructed value is constructed again, as it is, from its serialised
    form. *)
Lemma reconstructed {A} (title : string) (val : Any -> V A)
    (model_dump : A -> kwargs) (ok : A -> bool)
    `{HS : !Sound val ok}
    `{HC : !Complete val (fun a => PyDict (model_dump a)) ok}
    (data : kwargs) (a : A) :
  raise_errors title (val (PyDict data)) = Ok a ->
  raise_errors title (val (PyDict (model_dump a))) = Ok a.
Proof.
  intros Hd. apply (dump_constructs title val model_dump ok).
  exact (constructed_ok title val ok data a Hd).
Qed.

(** A typed entry point returns what the construction returns. *)
Lemma try_except_ok {A} (body : result A) (handler : exn -> exn) (a : A) :
  try_except body (fun e => Raise (handler e)) = Ok a <-> body = Ok a.
Proof. destruct body; cbn; split; congruence. Qed.


(** * The enumerations *)

Lemma find_member {E} (value : E -> string) (members : list E) (s : string)
    (m : E) :
  find (fun m => String.eqb (value m) s) members = Some m -> value m = s.
Proof. intros Hf. apply find_some in Hf as [_ Hf]. now apply String.eqb_eq. Qed.

(** A string is accepted as a member exactly when the lookup finds the
    member. *)
Lemma Enum_accepts `{Runtime} {E} (of_value : string -> option E)
    (values : list string) (s : string) (m : E) :
  Enum_ of_value values (PyStr s) = Valid m <-> of_value s = Some m.
Proof.
  unfold Enum_. destruct (of_value s); cbn; split; intros E';
    try discriminate E'; congruence.
Qed.

(** X1: for each of the four enumerations that type a field, the lookup of
    a member by its value is the inverse of [.value]: a string names the
    member [m] exactly when it is the value of [m], character for character
    (so no two members share a value, and "high" does not name [HIGH]); and
    the validation of a string accepts it as [m] on the same condition. *)
Theorem enum_lookup_by_value `{Runtime} :
  (forall s m, FundingStage.of_value s = Some m <-> FundingStage.value m = s)
  /\ (forall s m, RecommendationType.of_value s = Some m
                  <-> RecommendationType.value m = s)
  /\ (forall s m, RiskType.of_value s = Some m <-> RiskType.value m = s)
  /\ (forall s m, RiskSeverity.of_value s = Some m <-> RiskSeverity.value m = s)
  /\ (forall s m, FundingStage.validate (PyStr s) = Valid m
                  <-> FundingStage.value m = s)
  /\ (forall s m, RecommendationType.validate (PyStr s) = Valid m
                  <-> RecommendationType.value m = s)
  /\ (forall s m, RiskType.validate (PyStr s) = Valid m <-> RiskType.value m = s)
  /\ (forall s m, RiskSeverity.validate (PyStr s) = Valid m
                  <-> RiskSeverity.value m = s)
  /\ RiskSeverity.of_value "high" = None.
Proof.
  assert (H1 : forall s m, FundingStage.of_value s = Some m
                           <-> FundingStage.value m = s).
  { intros s m. split; [apply find_member|]. intros <-. now destruct m. }
  assert (H2 : forall s m, RecommendationType.of_value s = Some m
                           <-> RecommendationType.value m = s).
  { intros s m. split; [apply find_member|]. intros <-. now destruct m. }
  assert (H3 : forall s m, RiskType.of_value s = Some m
                           <-> RiskType.value m = s).
  { intros s m. split; [apply find_member|]. intros <-. now destruct m. }
  assert (H4 : forall s m, RiskSeverity.of_value s = Some m
                           <-> RiskSeverity.value m = s).
  { intros s m. split; [apply find_member|]. intros <-. now destruct m. }
  repeat split; try (apply H1 || apply H2 || apply H3 || apply H4);
    try (intros Hv; apply Enum_accepts in Hv;
         (apply H1 || apply H2 || apply H3 || apply H4); exact Hv);
    try (intros Hv; apply Enum_accepts;
         (apply H1 || apply H2 || apply H3 || apply H4); exact Hv).
Qed.

(** * Time ranges *)

Lemma lex_ltb_irrefl (a : list Z) : lex_ltb a a = false.
Proof.
  induction a as [|x a IH]; [reflexivity|].
  cbn [lex_ltb]. now rewrite Z.ltb_irrefl, Z.eqb_refl, IH.
Qed.

Lemma datetime_ltb_irrefl (t : datetime) : datetime_ltb t t = false.
Proof. apply lex_ltb_irrefl. Qed.

(** X2: a [TimeRange] exists exactly when its end is not before its start.
    The serialised form of a range is accepted on that condition, a range
    that ends when it starts included (the message says "after", the test is
    [end_date < start_date]); a range that ends before it starts is rejected
    with the one violation of the validator, located at the range itself. *)
Theorem TimeRange_end_not_before_start `{Runtime} :
  (forall r : TimeRange.t,
      datetime_ltb r.(TimeRange.end_date) r.(TimeRange.start_date) = false
      <-> exists data, TimeRange.new data = Ok r)
  /\ (forall r : TimeRange.t,
        is_ok (TimeRange.new (TimeRange.model_dump r))
        = negb (datetime_ltb r.(TimeRange.end_date) r.(TimeRange.start_date)))
  /\ (forall t : datetime,
        TimeRange.new [("start_date", PyDatetime t); ("end_date", PyDatetime t)]
        = Ok {| TimeRange.start_date := t; TimeRange.end_date := t |})
  /\ (forall r : TimeRange.t,
        datetime_ltb r.(TimeRange.end_date) r.(TimeRange.start_date) = true ->
        TimeRange.new (TimeRange.model_dump r)
        = Raise (ValidationError "TimeRange"
                   (value_error [] "end_date must be after start_date"
                      (PyDict (TimeRange.model_dump r))) [])).
Proof.
  assert (Hnew : forall r,
    TimeRange.new (TimeRange.model_dump r)
    = if datetime_ltb r.(TimeRange.end_date) r.(TimeRange.start_date)
      then Raise (ValidationError "TimeRange"
                    (value_error [] "end_date must be after start_date"
                       (PyDict (TimeRange.model_dump r))) [])
      else Ok r).
  { intros [s e]. unfold TimeRange.new, TimeRange.validate. cbn [model].
    change (TimeRange.fields _) with (Valid (TimeRange.Build_t s e)).
    cbn [and_then]. unfold TimeRange.validate_time_range.
    cbn [TimeRange.end_date TimeRange.start_date].
    now destruct (datetime_ltb e s). }
  split; [|split; [|split]].
  - intros r. split.
    + intros Hr. exists (TimeRange.model_dump r). now rewrite Hnew, Hr.
    + intros [data Hd]. apply (constructed_ok _ _ TimeRange_ok) in Hd.
      unfold TimeRange_ok in Hd. now apply negb_true_iff in Hd.
  - intros r. rewrite Hnew. now destruct (datetime_ltb _ _).
  - intros t.
    change [("start_date", PyDatetime t); ("end_date", PyDatetime t)]
      with (TimeRange.model_dump (TimeRange.Build_t t t)).
    rewrite Hnew. cbn [TimeRange.end_date TimeRange.start_date].
    now rewrite datetime_ltb_irrefl.
  - intros r Hr. now rewrite Hnew, Hr.
Qed.

(** A range that ends a year before it starts is rejected, with the
    violation of the validator. *)
Lemma TimeRange_end_not_before_start_witness :
  datetime_ltb a_datetime a_year_later = true
  /\ @TimeRange.new strict_runtime
       [("start_date", PyDatetime a_year_later); ("end_date", PyDatetime a_datetime)]
     = Raise (ValidationError "TimeRange"
                (value_error [] "end_date must be after start_date"
                   (PyDict [("start_date", PyDatetime a_year_later);
                            ("end_date", PyDatetime a_datetime)])) []).
Proof.
  split; [reflexivity|].
  apply (proj2 (proj2 (proj2 (@TimeRange_end_not_before_start strict_runtime)))
           {| TimeRange.start_date := a_year_later;
              TimeRange.end_date := a_datetime |}).
  reflexivity.
Defined.

(** * Projected revenue *)

Lemma none_negative_existsb (values : list float) :
  none_negative values
  = negb (existsb (fun value => (value <? float_of_Z 0)%float) values).
Proof.
  unfold none_negative. change (float_of_Z 0) with 0%float.
  induction values as [|x values IH]; [reflexivity|].
  cbn [existsb forallb]. now rewrite negb_orb, IH.
Qed.

(** A float that is less than another is not NaN. *)
Lemma ltb_eqb_l (x y : float) : (x <? y)%float = true -> (x =? x)%float = true.
Proof.
  rewrite FloatAxioms.eqb_spec, FloatAxioms.ltb_spec. unfold SFeqb, SFltb.
  destruct (Prim2SF x) as [[]|[]| |[] m1 e1], (Prim2SF y) as [[]|[]| |[] m2 e2];
    cbn; try easy; now rewrite Z.compare_refl, Pos.compare_cont_refl.
Qed.

Section RevenueMetricsFacts.
Context `{Runtime}.

Lemma projected_arr_list (values : list float) :
  List_ [] (Float []) (PyList (map PyFloat values)) = Valid values.
Proof.
  apply (Complete_List [] (Float []) PyFloat (float_within [])).
  apply andb_true_intro. split; [|reflexivity].
  now apply forallb_always.
Qed.

End RevenueMetricsFacts.

(** X3: the values of [projected_arr] are checked by [value < 0] alone. A
    constructed [RevenueMetrics] has no projected value below zero; a list
    of floats with a value below zero is rejected, whatever the other keys,
    with the violation of the validator, located at [projected_arr]; a list
    without one is accepted as it is (the empty list too); and NaN, which is
    not below zero, is let through. *)
Theorem RevenueMetrics_projected_arr `{Runtime} :
  (forall data m values,
      RevenueMetrics.new data = Ok m ->
      m.(RevenueMetrics.projected_arr) = Some values ->
      none_negative values = true)
  /\ (forall data values,
        get "projected_arr" data = Some (PyList (map PyFloat values)) ->
        none_negative values = false ->
        exists e es,
          RevenueMetrics.new data = Raise (ValidationError "RevenueMetrics" e es)
          /\ In (value_error [Key "projected_arr"]
                   "All projected ARR values must be non-negative"
                   (PyList (map PyFloat values))) (e :: es))
  /\ (forall values,
        none_negative values = true ->
        RevenueMetrics.new [("projected_arr", PyList (map PyFloat values))]
        = Ok {| RevenueMetrics.arr := None;
                RevenueMetrics.mrr := None;
                RevenueMetrics.growth_rate := None;
                RevenueMetrics.projected_arr := Some values;
                RevenueMetrics.revenue_run_rate := None;
                RevenueMetrics.gross_margin := None;
                RevenueMetrics.net_revenue_retention := None |})
  /\ (forall x : float, (x =? x)%float = false -> none_negative [x] = true).
Proof.
  split; [|split; [|split]].
  - intros data m values Hnew Hp.
    apply (constructed_ok _ _ RevenueMetrics_ok) in Hnew.
    unfold RevenueMetrics_ok in Hnew. split_ok Hnew.
    match goal with
    | F : optional_ok none_negative _ = true |- _ => now rewrite Hp in F
    end.
  - intros data values Hget Hneg.
    rewrite none_negative_existsb in Hneg. apply negb_false_iff in Hneg.
    destruct (model_raises "RevenueMetrics" RevenueMetrics.fields no_validator
                data
                (value_error [Key "projected_arr"]
                   "All projected ARR values must be non-negative"
                   (PyList (map PyFloat values))))
      as (e & es & Hr & _ & Hin).
    + unfold RevenueMetrics.fields. collect_violations.
      rewrite (field_present_violations _ "projected_arr" _ _ _ Hget).
      unfold field_validator, Optional. rewrite projected_arr_list.
      cbn [vmap and_then]. unfold RevenueMetrics.validate_projected_arr,
        raise_if_any.
      rewrite Hneg. cbn. tauto.
    + exists e, es. split; [exact Hr | exact Hin].
  - intros values Hok.
    unfold RevenueMetrics.new, RevenueMetrics.validate. cbn [model].
    match goal with
    | |- raise_errors _ (and_then ?f _) = Ok ?m =>
        assert (Hf : f = Valid m)
    end.
    { unfold RevenueMetrics.fields. build_fields. }
    now rewrite Hf.
  - intros x Hx. unfold none_negative. cbn [forallb].
    destruct (x <? 0)%float eqn:E; [|reflexivity].
    apply ltb_eqb_l in E. congruence.
Qed.

(** The projection of the test suite with its second value negated: the
    construction fails and reports the violation. *)
Lemma RevenueMetrics_projected_arr_witness :
  exists e es,
    @RevenueMetrics.new strict_runtime
      [("arr", PyFloat 1000000);
       ("projected_arr", PyList (map PyFloat [1000000; -500000; 4000000]%float))]
    = Raise (ValidationError "RevenueMetrics" e es)
    /\ In (value_error [Key "projected_arr"]
             "All projected ARR values must be non-negative"
             (PyList (map PyFloat [1000000; -500000; 4000000]%float))) (e :: es).
Proof.
  apply (proj1 (proj2 (@RevenueMetrics_projected_arr strict_runtime))
           [("arr", PyFloat 1000000);
            ("projected_arr", PyList (map PyFloat [1000000; -500000; 4000000]%float))]
           [1000000; -500000; 4000000]%float);
    reflexivity.
Defined.

(** * Lists of texts *)

Section ItemLengthFacts.
Context `{Runtime}.

Lemma strings_list (cs : list constraint) (items : list string) :
  list_within cs items = true ->
  List_ cs (Str []) (PyList (map PyStr items)) = Valid items.
Proof.
  intros Hw. apply (Complete_List cs (Str []) PyStr (str_within [])).
  apply andb_true_intro. split; [|exact Hw]. now apply forallb_always.
Qed.

(** A list whose length is allowed and one of whose items is too short or
    too long: the one violation is that of the validator of the items. *)
Lemma item_lengths_violation (f : list string -> checked (list string))
    (lo hi : nat) (m : string) (cs : list constraint) (items : list string) :
  (forall v, f v = raise_if_any
                     (fun s => (String.length s <? lo)%nat
                               || (hi <? String.length s)%nat) m v v) ->
  list_within cs items = true ->
  items_within lo hi items = false ->
  violations (field_validator f (List_ cs (Str [])) (PyList (map PyStr items)))
  = [value_error [] m (PyList (map PyStr items))].
Proof.
  intros Hf Hw Hi. unfold field_validator. rewrite (strings_list _ _ Hw).
  cbn [and_then]. rewrite <- (returns_item_lengths lo hi m), <- Hf in Hi.
  rewrite Hf in *. unfold raise_if_any in *.
  now destruct (existsb _ items).
Qed.

(** The empty list, where an item is required: the violation is that of the
    length, and the validator of the items does not run. *)
Lemma empty_list_violation (f : list string -> checked (list string)) :
  violations (field_validator f (List_ [min_length 1] (Str [])) (PyList []))
  = [{| type_ := "too_short"; loc := [];
        msg := "List should have at least 1 item after validation, not 0";
        input := PyList [] |}].
Proof. reflexivity. Qed.

Lemma list_within_nonempty {A} (l : list A) :
  list_within [min_length 1] l = true <-> l <> [].
Proof. destruct l; unfold list_within; cbn; split; easy. Qed.

End ItemLengthFacts.

(** X4: the two lists of a [GrowthPotential]. A constructed instance has at
    least one key driver and one scalability factor, each of 5 to 200
    characters. A non-empty list of texts one of which is shorter than 5 or
    longer than 200 characters is rejected, whatever the other keys, with
    the violation of the validator of that field; the empty list is rejected
    for its length, before the validator runs. *)
Theorem GrowthPotential_item_lengths `{Runtime} :
  (forall data g,
      GrowthPotential.new data = Ok g ->
      g.(GrowthPotential.key_drivers) <> []
      /\ items_within 5 200 g.(GrowthPotential.key_drivers) = true
      /\ g.(GrowthPotential.scalability_factors) <> []
      /\ items_within 5 200 g.(GrowthPotential.scalability_factors) = true)
  /\ (forall data items,
        get "key_drivers" data = Some (PyList (map PyStr items)) ->
        items <> [] -> items_within 5 200 items = false ->
        exists e es,
          GrowthPotential.new data = Raise (ValidationError "GrowthPotential" e es)
          /\ In (value_error [Key "key_drivers"]
                   "Each key driver must be between 5 and 200 characters"
                   (PyList (map PyStr items))) (e :: es))
  /\ (forall data items,
        get "scalability_factors" data = Some (PyList (map PyStr items)) ->
        items <> [] -> items_within 5 200 items = false ->
        exists e es,
          GrowthPotential.new data = Raise (ValidationError "GrowthPotential" e es)
          /\ In (value_error [Key "scalability_factors"]
                   "Each scalability factor must be between 5 and 200 characters"
                   (PyList (map PyStr items))) (e :: es))
  /\ (forall data,
        get "key_drivers" data = Some (PyList []) ->
        exists e es,
          GrowthPotential.new data = Raise (ValidationError "GrowthPotential" e es)
          /\ In {| type_ := "too_short"; loc := [Key "key_drivers"];
                   msg := "List should have at least 1 item after validation, not 0";
                   input := PyList [] |} (e :: es)).
Proof.
  split; [|split; [|split]].
  - intros data g Hnew.
    apply (constructed_ok _ _ GrowthPotential_ok) in Hnew.
    unfold GrowthPotential_ok in Hnew. split_ok Hnew.
    rewrite <- !list_within_nonempty. repeat split; assumption.
  - intros data items Hget Hne Hi. apply list_within_nonempty in Hne.
    edestruct (model_raises "GrowthPotential" GrowthPotential.fields
                 no_validator data) as (e & es & Hr & _ & Hin);
      [|exists e, es; split; [exact Hr | exact Hin]].
    unfold GrowthPotential.fields. collect_violations.
    rewrite (field_present_violations _ "key_drivers" _ _ _ Hget).
    rewrite (item_lengths_violation GrowthPotential.validate_key_drivers
               5 200 _ _ _ (fun v => eq_refl) Hne Hi).
    cbn. tauto.
  - intros data items Hget Hne Hi. apply list_within_nonempty in Hne.
    edestruct (model_raises "GrowthPotential" GrowthPotential.fields
                 no_validator data) as (e & es & Hr & _ & Hin);
      [|exists e, es; split; [exact Hr | exact Hin]].
    unfold GrowthPotential.fields. collect_violations.
    rewrite (field_present_violations _ "scalability_factors" _ _ _ Hget).
    rewrite (item_lengths_violation GrowthPotential.validate_scalability_factors
               5 200 _ _ _ (fun v => eq_refl) Hne Hi).
    cbn. tauto.
  - intros data Hget.
    edestruct (model_raises "GrowthPotential" GrowthPotential.fields
                 no_validator data) as (e & es & Hr & _ & Hin);
      [|exists e, es; split; [exact Hr | exact Hin]].
    unfold GrowthPotential.fields. collect_violations.
    rewrite (field_present_violations _ "key_drivers" _ _ _ Hget).
    rewrite empty_list_violation. cbn. tauto.
Qed.

(** A list with the one driver "AI", of two characters. *)
Lemma GrowthPotential_item_lengths_witness :
  exists e es,
    @GrowthPotential.new strict_runtime
      [("key_drivers", PyList (map PyStr ["AI"]))]
    = Raise (ValidationError "GrowthPotential" e es)
    /\ In (value_error [Key "key_drivers"]
             "Each key driver must be between 5 and 200 characters"
             (PyList (map PyStr ["AI"]))) (e :: es).
Proof.
  apply (proj1 (proj2 (@GrowthPotential_item_lengths strict_runtime))
           [("key_drivers", PyList (map PyStr ["AI"]))] ["AI"]);
    [reflexivity | discriminate | reflexivity].
Defined.

(** X5: a constructed [RiskAssessment] has its score between 0 and 100,
    every risk of its three lists within the constraints of [RiskFlag], and
    at least one mitigation plan item, each of 10 to 500 characters. A
    non-empty plan one of whose items is shorter than 10 or longer than 500
    characters is rejected, whatever the other keys, with the violation of
    the validator, located at [risk_mitigation_plan]. *)
Theorem RiskAssessment_mitigation_plan `{Runtime} :
  (forall data r,
      RiskAssessment.new data = Ok r ->
      (0 <=? r.(RiskAssessment.overall_risk_score))%float = true
      /\ (r.(RiskAssessment.overall_risk_score) <=? 100)%float = true
      /\ forallb RiskFlag_ok
           (r.(RiskAssessment.high_priority_risks)
            ++ r.(RiskAssessment.medium_priority_risks)
            ++ r.(RiskAssessment.low_priority_risks))%list = true
      /\ r.(RiskAssessment.risk_mitigation_plan) <> []
      /\ items_within 10 500 r.(RiskAssessment.risk_mitigation_plan) = true)
  /\ (forall data items,
        get "risk_mitigation_plan" data = Some (PyList (map PyStr items)) ->
        items <> [] -> items_within 10 500 items = false ->
        exists e es,
          RiskAssessment.new data = Raise (ValidationError "RiskAssessment" e es)
          /\ In (value_error [Key "risk_mitigation_plan"]
                   "Each mitigation plan item must be between 10 and 500 characters"
                   (PyList (map PyStr items))) (e :: es)).
Proof.
  split.
  - intros data r Hnew.
    apply (constructed_ok _ _ RiskAssessment_ok) in Hnew.
    unfold RiskAssessment_ok in Hnew. split_ok Hnew.
    rewrite <- list_within_nonempty, !forallb_app.
    match goal with
    | F : float_within _ _ = true |- _ =>
        unfold float_within in F; float_consts; split_ok F
    end.
    rewrite_facts. repeat split; assumption.
  - intros data items Hget Hne Hi. apply list_within_nonempty in Hne.
    edestruct (model_raises "RiskAssessment" RiskAssessment.fields
                 no_validator data) as (e & es & Hr & _ & Hin);
      [|exists e, es; split; [exact Hr | exact Hin]].
    unfold RiskAssessment.fields. collect_violations.
    rewrite (field_present_violations _ "risk_mitigation_plan" _ _ _ Hget).
    rewrite (item_lengths_violation RiskAssessment.validate_mitigation_plan
               10 500 _ _ _ (fun v => eq_refl) Hne Hi).
    cbn. tauto.
Qed.

(** A plan with the one item "Monitor", of seven characters. *)
Lemma RiskAssessment_mitigation_plan_witness :
  exists e es,
    @RiskAssessment.new strict_runtime
      [("overall_risk_score", PyFloat 35);
       ("risk_mitigation_plan", PyList (map PyStr ["Monitor"]))]
    = Raise (ValidationError "RiskAssessment" e es)
    /\ In (value_error [Key "risk_mitigation_plan"]
             "Each mitigation plan item must be between 10 and 500 characters"
             (PyList (map PyStr ["Monitor"]))) (e :: es).
Proof.
  apply (proj2 (@RiskAssessment_mitigation_plan strict_runtime)
           [("overall_risk_score", PyFloat 35);
            ("risk_mitigation_plan", PyList (map PyStr ["Monitor"]))]
           ["Monitor"]);
    [reflexivity | discriminate | reflexivity].
Defined.

(** X6: the three lists of an [InvestmentRecommendation]. A constructed
    instance has at least one suggested term, one diligence question and one
    follow-up action; terms and actions have 5 to 200 characters, questions
    10 to 300. A non-empty list with an item outside these lengths is
    rejected, whatever the other keys, with the violation of the validator
    of that field. *)
Theorem InvestmentRecommendation_item_lengths :
  (forall data r,
      InvestmentRecommendation.new data = Ok r ->
      r.(InvestmentRecommendation.suggested_terms) <> []
      /\ items_within 5 200 r.(InvestmentRecommendation.suggested_terms) = true
      /\ r.(InvestmentRecommendation.key_diligence_questions) <> []
      /\ items_within 10 300 r.(InvestmentRecommendation.key_diligence_questions) = true
      /\ r.(InvestmentRecommendation.follow_up_actions) <> []
      /\ items_within 5 200 r.(InvestmentRecommendation.follow_up_actions) = true)
  /\ (forall data items,
        get "suggested_terms" data = Some (PyList (map PyStr items)) ->
        items <> [] -> items_within 5 200 items = false ->
        exists e es,
          InvestmentRecommendation.new data
          = Raise (ValidationError "InvestmentRecommendation" e es)
          /\ In (value_error [Key "suggested_terms"]
                   "Each suggested term must be between 5 and 200 characters"
                   (PyList (map PyStr items))) (e :: es))
  /\ (forall data items,
        get "key_diligence_questions" data = Some (PyList (map PyStr items)) ->
        items <> [] -> items_within 10 300 items = false ->
        exists e es,
          InvestmentRecommendation.new data
          = Raise (ValidationError "InvestmentRecommendation" e es)
          /\ In (value_error [Key "key_diligence_questions"]
                   "Each diligence question must be between 10 and 300 characters"
                   (PyList (map PyStr items))) (e :: es))
  /\ (forall data items,
        get "follow_up_actions" data = Some (PyList (map PyStr items)) ->
        items <> [] -> items_within 5 200 items = false ->
        exists e es,
          InvestmentRecommendation.new data
          = Raise (ValidationError "InvestmentRecommendation" e es)
          /\ In (value_error [Key "follow_up_actions"]
                   "Each follow-up action must be between 5 and 200 characters"
                   (PyList (map PyStr items))) (e :: es)).
Proof.
  split; [|split; [|split]].
  - intros data r Hnew.
    apply (constructed_ok _ _ InvestmentRecommendation_ok) in Hnew.
    unfold InvestmentRecommendation_ok in Hnew. split_ok Hnew.
    rewrite <- !list_within_nonempty. repeat split; assumption.
  - intros data items Hget Hne Hi. apply list_within_nonempty in Hne.
    edestruct (model_raises "InvestmentRecommendation"
                 InvestmentRecommendation.fields no_validator data)
      as (e & es & Hr & _ & Hin);
      [|exists e, es; split; [exact Hr | exact Hin]].
    unfold InvestmentRecommendation.fields. collect_violations.
    rewrite (field_present_violations _ "suggested_terms" _ _ _ Hget).
    rewrite (item_lengths_violation
               InvestmentRecommendation.validate_suggested_terms
               5 200 _ _ _ (fun v => eq_refl) Hne Hi).
    cbn. tauto.
  - intros data items Hget Hne Hi. apply list_within_nonempty in Hne.
    edestruct (model_raises "InvestmentRecommendation"
                 InvestmentRecommendation.fields no_validator data)
      as (e & es & Hr & _ & Hin);
      [|exists e, es; split; [exact Hr | exact Hin]].
    unfold InvestmentRecommendation.fields. collect_violations.
    rewrite (field_present_violations _ "key_diligence_questions" _ _ _ Hget).
    rewrite (item_lengths_violation
               InvestmentRecommendation.validate_diligence_questions
               10 300 _ _ _ (fun v => eq_refl) Hne Hi).
    cbn. tauto.
  - intros data items Hget Hne Hi. apply list_within_nonempty in Hne.
    edestruct (model_raises "InvestmentRecommendation"
                 InvestmentRecommendation.fields no_validator data)
      as (e & es & Hr & _ & Hin);
      [|exists e, es; split; [exact Hr | exact Hin]].
    unfold InvestmentRecommendation.fields. collect_violations.
    rewrite (field_present_violations _ "follow_up_actions" _ _ _ Hget).
    rewrite (item_lengths_violation
               InvestmentRecommendation.validate_follow_up_actions
               5 200 _ _ _ (fun v => eq_refl) Hne Hi).
    cbn. tauto.
Qed.

(** A list with the one question "Why?", of four characters. *)
Lemma InvestmentRecommendation_item_lengths_witness :
  exists e es,
    InvestmentRecommendation.new
      [("key_diligence_questions", PyList (map PyStr ["Why?"]))]
    = Raise (ValidationError "InvestmentRecommendation" e es)
    /\ In (value_error [Key "key_diligence_questions"]
             "Each diligence question must be between 10 and 300 characters"
             (PyList (map PyStr ["Why?"]))) (e :: es).
Proof.
  apply (proj1 (proj2 (proj2 InvestmentRecommendation_item_lengths))
           [("key_diligence_questions", PyList (map PyStr ["Why?"]))] ["Why?"]);
    [reflexivity | discriminate | reflexivity].
Defined.

(** X7: the three blocks of optional metrics. The instances of
    [RevenueMetrics], [TractionMetrics] and [FundingMetrics] are the records
    whose present values lie within the declared bounds (and, for revenue,
    whose projected values are not below zero); no metric is required, so
    the empty document is accepted and gives a block of [None]s. *)
Theorem optional_metrics_instances `{Runtime} :
  (forall m, RevenueMetrics_ok m = true
             <-> exists data, RevenueMetrics.new data = Ok m)
  /\ (forall m, TractionMetrics_ok m = true
                <-> exists data, TractionMetrics.new data = Ok m)
  /\ (forall m, FundingMetrics_ok m = true
                <-> exists data, FundingMetrics.new data = Ok m)
  /\ RevenueMetrics.new []
     = Ok (RevenueMetrics.Build_t None None None None None None None)
  /\ TractionMetrics.new []
     = Ok (TractionMetrics.Build_t None None None None None None None None None)
  /\ FundingMetrics.new []
     = Ok (FundingMetrics.Build_t None None None None None None None None None None).
Proof.
  split; [|split; [|split; [|repeat split]]].
  - exact (instances "RevenueMetrics" RevenueMetrics.validate
             RevenueMetrics.model_dump RevenueMetrics_ok).
  - exact (instances "TractionMetrics" TractionMetrics.validate
             TractionMetrics.model_dump TractionMetrics_ok).
  - exact (instances "FundingMetrics" FundingMetrics.validate
             FundingMetrics.model_dump FundingMetrics_ok).
Qed.

(** X8: the head counts of a team are checked one by one, and not against
    each other. With no key hires, a team is accepted exactly when its size
    lies between 1 and 10000 and its number of founders between 1 and 20, so
    a team of one with twenty founders is accepted; and whatever the
    document, a constructed team has its counts within these bounds and its
    key hires within the constraints of [TeamMember]. *)
Theorem TeamMetrics_counts `{Runtime} :
  (forall size founders : Z,
      is_ok (TeamMetrics.new [("size", PyInt size);
                              ("founders_count", PyInt founders);
                              ("key_hires", PyList [])])
      = ((1 <=? size) && (size <=? 10000)
         && (1 <=? founders) && (founders <=? 20))%Z)
  /\ (forall data m,
        TeamMetrics.new data = Ok m ->
        (1 <= m.(TeamMetrics.size) <= 10000)%Z
        /\ (1 <= m.(TeamMetrics.founders_count) <= 20)%Z
        /\ forallb TeamMember_ok m.(TeamMetrics.key_hires) = true).
Proof.
  split.
  - intros size founders.
    unfold TeamMetrics.new, TeamMetrics.validate, TeamMetrics.fields, field.
    cbn [model get String.eqb Ascii.eqb Bool.eqb]. cbn.
    unfold check_int, List_. cbn.
    destruct (size <=? 10000)%Z, (founders <=? 20)%Z; cbn;
      destruct (1 <=? size)%Z, (1 <=? founders)%Z; reflexivity.
  - intros data m Hnew.
    apply (constructed_ok _ _ TeamMetrics_ok) in Hnew.
    unfold TeamMetrics_ok in Hnew. split_ok Hnew.
    repeat match goal with
           | F : int_within _ _ = true |- _ =>
               unfold int_within in F; rewrite !andb_true_iff, !Z.leb_le in F
           end.
    repeat split; try assumption; lia.
Qed.

(** A team of one with twenty founders. *)
Lemma TeamMetrics_counts_witness :
  (exists m,
      @TeamMetrics.new strict_runtime
        [("size", PyInt 1); ("founders_count", PyInt 20); ("key_hires", PyList [])]
      = Ok m
      /\ (1 <= m.(TeamMetrics.size) <= 10000)%Z
      /\ (1 <= m.(TeamMetrics.founders_count) <= 20)%Z
      /\ forallb TeamMember_ok m.(TeamMetrics.key_hires) = true).
Proof.
  eexists. split; [reflexivity|].
  apply (proj2 (@TeamMetrics_counts strict_runtime)
           [("size", PyInt 1); ("founders_count", PyInt 20); ("key_hires", PyList [])]).
  reflexivity.
Defined.

(** X9: a team member. A constructed member has a name and a role of 1 to
    100 characters and, when given, between 0 and 50 years of experience;
    the name and the role are the only required keys, and a document with
    these two alone gives a member whose other fields are [None]. Provided
    that validated URLs pass the validation of URLs unchanged, the records
    within these constraints are exactly the instances of the class. *)
Theorem TeamMember_instances `{Runtime} :
  (forall data m,
      TeamMember.new data = Ok m ->
      length_within 1 100 m.(TeamMember.name) = true
      /\ length_within 1 100 m.(TeamMember.role) = true
      /\ forall years, m.(TeamMember.years_experience) = Some years ->
                       (0 <= years <= 50)%Z)
  /\ (forall name role,
        length_within 1 100 name && length_within 1 100 role = true ->
        TeamMember.new [("name", PyStr name); ("role", PyStr role)]
        = Ok (TeamMember.Build_t name role None None None None None None None))
  /\ (forall name role,
        is_ok (TeamMember.new [("name", PyStr name); ("role", PyStr role)])
        = length_within 1 100 name && length_within 1 100 role)
  /\ (ValidUrls ->
      forall m, TeamMember_ok m = true <-> exists data, TeamMember.new data = Ok m).
Proof.
  assert (Hlen : forall s,
    str_within [min_length 1; max_length 100] s = length_within 1 100 s).
  { intros s. unfold str_within, length_within. now rewrite andb_true_r. }
  assert (Hnew : forall name role,
    is_ok (TeamMember.new [("name", PyStr name); ("role", PyStr role)])
    = length_within 1 100 name && length_within 1 100 role
    /\ (length_within 1 100 name && length_within 1 100 role = true ->
        TeamMember.new [("name", PyStr name); ("role", PyStr role)]
        = Ok (TeamMember.Build_t name role None None None None None None None))).
  { intros name role.
    unfold TeamMember.new, TeamMember.validate, TeamMember.fields, field,
      length_within.
    cbn.
    destruct (1 <=? String.length name)%nat; cbn;
      [destruct (String.length name <=? 100)%nat; cbn|];
      (destruct (1 <=? String.length role)%nat; cbn;
       [destruct (String.length role <=? 100)%nat; cbn|]);
      split; try reflexivity; discriminate. }
  split; [|split; [|split]].
  - intros data m Hd.
    apply (constructed_ok _ _ TeamMember_ok) in Hd.
    unfold TeamMember_ok in Hd. split_ok Hd.
    rewrite <- !Hlen. split; [assumption|]. split; [assumption|].
    intros years Hy. rewrite Hy in Hd. unfold optional_ok, int_within in Hd.
    rewrite !andb_true_iff, !Z.leb_le in Hd. lia.
  - intros name role. apply Hnew.
  - intros name role. apply Hnew.
  - intros Hurl.
    exact (instances "TeamMember" TeamMember.validate TeamMember.model_dump
             TeamMember_ok).
Qed.

(** The key hire of the test suite, by name and role alone. *)
Lemma TeamMember_instances_witness :
  @TeamMember.new strict_runtime [("name", PyStr "John Doe"); ("role", PyStr "CTO")]
  = Ok (TeamMember.Build_t "John Doe" "CTO" None None None None None None None).
Proof.
  apply (proj1 (proj2 (@TeamMember_instances strict_runtime)) "John Doe" "CTO").
  reflexivity.
Defined.

(** * Investment metrics *)

(** X10: what [validate_investment_metrics] guarantees of the entity it
    returns, whatever the document: every nested block is within the
    constraints of its class; in particular the confidence lies between 0
    and 1, the team has 1 to 10000 members and 1 to 20 founders, and no
    projected revenue is below zero. *)
Theorem validate_investment_metrics_guarantees `{Runtime}
    (data : kwargs) (m : InvestmentMetrics.t) :
  validate_investment_metrics data = Ok m ->
  InvestmentMetrics_ok m = true
  /\ (0 <=? m.(InvestmentMetrics.confidence))%float = true
  /\ (m.(InvestmentMetrics.confidence) <=? 1)%float = true
  /\ (1 <= m.(InvestmentMetrics.team).(TeamMetrics.size) <= 10000)%Z
  /\ (1 <= m.(InvestmentMetrics.team).(TeamMetrics.founders_count) <= 20)%Z
  /\ (forall values,
        m.(InvestmentMetrics.revenue).(RevenueMetrics.projected_arr) = Some values ->
        none_negative values = true).
Proof.
  unfold validate_investment_metrics. rewrite try_except_ok. intros Hnew.
  apply (constructed_ok _ _ InvestmentMetrics_ok) in Hnew.
  split; [exact Hnew|].
  unfold InvestmentMetrics_ok in Hnew. split_ok Hnew.
  match goal with
  | F : float_within _ _ = true |- _ =>
      unfold float_within in F; float_consts; split_ok F
  end.
  match goal with
  | F : TeamMetrics_ok _ = true |- _ => unfold TeamMetrics_ok in F; split_ok F
  end.
  match goal with
  | F : RevenueMetrics_ok _ = true |- _ =>
      unfold RevenueMetrics_ok in F; split_ok F
  end.
  repeat match goal with
         | F : int_within _ _ = true |- _ =>
             unfold int_within in F; rewrite !andb_true_iff, !Z.leb_le in F
         end.
  split; [assumption|]. split; [assumption|].
  split; [lia|]. split; [lia|].
  intros values Hp.
  match goal with
  | F : optional_ok none_negative _ = true |- _ => now rewrite Hp in F
  end.
Qed.

(** The metrics of the test suite. *)
Lemma validate_investment_metrics_guarantees_witness :
  exists m,
    @validate_investment_metrics strict_runtime
      (investment_metrics_data (PyInt 1000000) (PyInt 5) (PyFloat 0.85) 25 2000000)
    = Ok m
    /\ InvestmentMetrics_ok m = true
    /\ (m.(InvestmentMetrics.confidence) <=? 1)%float = true.
Proof.
  destruct (@validate_investment_metrics strict_runtime
              (investment_metrics_data (PyInt 1000000) (PyInt 5) (PyFloat 0.85)
                 25 2000000)) as [m|e] eqn:E;
    [|vm_compute in E; discriminate E].
  exists m. split; [reflexivity|].
  destruct (@validate_investment_metrics_guarantees strict_runtime _ m E)
    as (Hok & _ & Hc & _).
  split; assumption.
Defined.

(** X11: investment metrics go round. Provided that validated URLs pass the
    validation of URLs unchanged, the entities that
    [validate_investment_metrics] can return are exactly the records within
    the constraints of the class, and the serialised form of a returned
    entity validates to that entity. *)
Theorem InvestmentMetrics_round_trip `{Runtime} (Hurl : ValidUrls) :
  (forall m,
      InvestmentMetrics_ok m = true
      <-> exists data, validate_investment_metrics data = Ok m)
  /\ (forall data m,
        validate_investment_metrics data = Ok m ->
        validate_investment_metrics (InvestmentMetrics.model_dump m) = Ok m).
Proof.
  unfold validate_investment_metrics. split.
  - intros m.
    rewrite (instances "InvestmentMetrics" InvestmentMetrics.validate
               InvestmentMetrics.model_dump InvestmentMetrics_ok).
    split; intros [data Hd]; exists data;
      [rewrite try_except_ok | rewrite try_except_ok in Hd]; exact Hd.
  - intros data m. rewrite !try_except_ok.
    exact (reconstructed "InvestmentMetrics" InvestmentMetrics.validate
             InvestmentMetrics.model_dump InvestmentMetrics_ok data m).
Qed.

(** X12: the instances of [RiskFlag] are the records whose title has 1 to
    200 characters, whose description and suggested mitigation have 10 to
    1000, whose confidence lies between 0 and 1 and whose impact, likelihood
    and category are among the declared literals; the serialised form of a
    constructed flag constructs that flag again. *)
Theorem RiskFlag_instances `{Runtime} :
  (forall r, RiskFlag_ok r = true <-> exists data, RiskFlag.new data = Ok r)
  /\ (forall data r,
        RiskFlag.new data = Ok r -> RiskFlag.new (RiskFlag.model_dump r) = Ok r)
  /\ (forall data r,
        RiskFlag.new data = Ok r ->
        In r.(RiskFlag.impact) ["low"; "medium"; "high"; "critical"]
        /\ In r.(RiskFlag.likelihood) ["low"; "medium"; "high"]
        /\ In r.(RiskFlag.category)
             ["financial"; "market"; "team"; "product"; "competitive"; "operational"]).
Proof.
  split; [|split].
  - exact (instances "RiskFlag" RiskFlag.validate RiskFlag.model_dump RiskFlag_ok).
  - exact (reconstructed "RiskFlag" RiskFlag.validate RiskFlag.model_dump
             RiskFlag_ok).
  - intros data r Hnew. apply (constructed_ok _ _ RiskFlag_ok) in Hnew.
    unfold RiskFlag_ok in Hnew. split_ok Hnew.
    repeat match goal with
           | F : one_of_literals _ _ = true |- _ =>
               let s := fresh "s" in
               let Hs := fresh "Hs" in
               unfold one_of_literals in F; apply existsb_exists in F;
               destruct F as (s & F & Hs); apply String.eqb_eq in Hs;
               subst s
           end.
    repeat split; assumption.
Qed.


(** The metrics of the test suite validate, and their serialised form
    validates to the same entity. *)
Lemma InvestmentMetrics_round_trip_witness :
  exists m,
    @validate_investment_metrics strict_runtime
      (investment_metrics_data (PyInt 1000000) (PyInt 5) (PyFloat 0.85) 25 2000000)
    = Ok m
    /\ @validate_investment_metrics strict_runtime (InvestmentMetrics.model_dump m)
       = Ok m.
Proof.
  destruct (@validate_investment_metrics strict_runtime
              (investment_metrics_data (PyInt 1000000) (PyInt 5) (PyFloat 0.85)
                 25 2000000)) as [m|e] eqn:E;
    [|vm_compute in E; discriminate E].
  exists m. split; [reflexivity|].
  exact (proj2 (@InvestmentMetrics_round_trip strict_runtime (fun u => eq_refl))
           _ m E).
Defined.

(** The risk flag of the test suite. *)
Lemma RiskFlag_instances_witness :
  exists r,
    @RiskFlag.new strict_runtime (risk_flag_data a_description 0.9 "high") = Ok r
    /\ @RiskFlag.new strict_runtime (RiskFlag.model_dump r) = Ok r
    /\ In r.(RiskFlag.impact) ["low"; "medium"; "high"; "critical"].
Proof.
  destruct (@RiskFlag.new strict_runtime (risk_flag_data a_description 0.9 "high"))
    as [r|e] eqn:E; [|vm_compute in E; discriminate E].
  exists r. split; [reflexivity|]. split.
  - exact (proj1 (proj2 (@RiskFlag_instances strict_runtime)) _ r E).
  - exact (proj1 (proj2 (proj2 (@RiskFlag_instances strict_runtime)) _ r E)).
Defined.

(** The three tests of the suite on risk flags that must fail: a
    description of nine characters, a confidence of 2, an impact that is not
    a declared literal. *)
Example TestRiskFlagValidation :
  expect true (@RiskFlag.new strict_runtime (risk_flag_data a_description 0.9 "high"))
  /\ expect false (@RiskFlag.new strict_runtime (risk_flag_data "Too short" 0.9 "high"))
  /\ expect false (@RiskFlag.new strict_runtime (risk_flag_data a_description 2 "high"))
  /\ expect false (@RiskFlag.new strict_runtime (risk_flag_data a_description 0.9 "invalid")).
Proof. repeat split; vm_compute; reflexivity. Qed.

(** * Benchmarks *)

(** X13: the instances of [BenchmarkData] are the records within the
    declared constraints whose every metric distribution and whose time
    range pass their cross-field rule, and the serialised form of a
    constructed benchmark constructs it again. So in a constructed
    benchmark every distribution has at least one sample, [max] not below
    [min] and the median between them, and the time range does not end
    before it starts. *)
Theorem BenchmarkData_instances `{Runtime} :
  (forall b, BenchmarkData_ok b = true <-> exists data, BenchmarkData.new data = Ok b)
  /\ (forall data b,
        BenchmarkData.new data = Ok b ->
        BenchmarkData.new (BenchmarkData.model_dump b) = Ok b)
  /\ (forall data b,
        BenchmarkData.new data = Ok b ->
        (1 <= b.(BenchmarkData.sample_size))%Z
        /\ datetime_ltb b.(BenchmarkData.time_range).(TimeRange.end_date)
             b.(BenchmarkData.time_range).(TimeRange.start_date) = false
        /\ forall key d,
             In (key, d) b.(BenchmarkData.metrics) ->
             (1 <= d.(MetricDistribution.sample_size))%Z
             /\ (d.(MetricDistribution.min) <=? d.(MetricDistribution.median))%float = true
             /\ (d.(MetricDistribution.median) <=? d.(MetricDistribution.max))%float = true
             /\ (d.(MetricDistribution.min) <=? d.(MetricDistribution.max))%float = true).
Proof.
  split; [|split].
  - exact (instances "BenchmarkData" BenchmarkData.validate
             BenchmarkData.model_dump BenchmarkData_ok).
  - exact (reconstructed "BenchmarkData" BenchmarkData.validate
             BenchmarkData.model_dump BenchmarkData_ok).
  - intros data b Hnew. apply (constructed_ok _ _ BenchmarkData_ok) in Hnew.
    unfold BenchmarkData_ok in Hnew. split_ok Hnew.
    match goal with
    | F : int_within _ b.(BenchmarkData.sample_size) = true |- _ =>
        unfold int_within in F; rewrite andb_true_iff, Z.leb_le in F;
        destruct F as [Hsize _]
    end.
    match goal with
    | F : TimeRange_ok _ = true |- _ =>
        unfold TimeRange_ok in F; apply negb_true_iff in F; rename F into Hrange
    end.
    match goal with
    | F : forallb _ b.(BenchmarkData.metrics) = true |- _ =>
        rewrite forallb_forall in F; rename F into Hmetrics
    end.
    split; [exact Hsize|]. split; [exact Hrange|].
    intros key d Hin. specialize (Hmetrics _ Hin). cbn [snd] in Hmetrics.
    unfold MetricDistribution_ok in Hmetrics. split_ok Hmetrics.
    match goal with
    | F : int_within _ _ = true |- _ =>
        unfold int_within in F; rewrite andb_true_iff, Z.leb_le in F;
        destruct F as [Hd _]
    end.
    split; [exact Hd|]. split; [assumption|]. split; [assumption|].
    match goal with
    | F : negb (_ <? _)%float = true |- _ =>
        apply negb_true_iff in F; apply not_ltb_leb in F; [exact F| |]
    end.
    + eapply leb_eqb_l; eassumption.
    + eapply leb_eqb_r; eassumption.
Qed.

(** The benchmark of the test suite. *)
Lemma BenchmarkData_instances_witness :
  exists b,
    @BenchmarkData.new strict_runtime (benchmark_data 100 50000000 0.8 a_year_later)
    = Ok b
    /\ @BenchmarkData.new strict_runtime (BenchmarkData.model_dump b) = Ok b
    /\ (1 <= b.(BenchmarkData.sample_size))%Z.
Proof.
  destruct (@BenchmarkData.new strict_runtime
              (benchmark_data 100 50000000 0.8 a_year_later))
    as [b|e] eqn:E; [|vm_compute in E; discriminate E].
  exists b. split; [reflexivity|]. split.
  - exact (proj1 (proj2 (@BenchmarkData_instances strict_runtime)) _ b E).
  - exact (proj1 (proj2 (proj2 (@BenchmarkData_instances strict_runtime))
                    _ b E)).
Defined.

(** * Company profiles *)

Lemma field_absent_inv `{Runtime} {A} (data : kwargs) (name : string) (d x : A)
    (val : Any -> V A) :
  get name data = None -> field data name (default d) val = Valid x -> x = d.
Proof. intros Hg. rewrite (field_absent _ _ _ _ Hg). now intros [= <-]. Qed.

Lemma field_None_inv `{Runtime} {A} (data : kwargs) (name : string)
    (dflt : option (option A)) (x : option A) (val : Any -> V A) :
  get name data = Some PyNone ->
  field data name dflt (Optional val) = Valid x -> x = None.
Proof.
  intros Hg Hf. apply (field_present _ _ _ _ _ _ Hg) in Hf.
  unfold Optional in Hf. now injection Hf as <-.
Qed.

(** X14: the optional fields of a company profile. In the profile that
    [validate_company_profile] returns, an optional field whose key the
    document lacks, or gives as [None], is [None]; and a description, when
    there is one, has at most 2000 characters. *)
Theorem CompanyProfile_optional_fields `{Runtime} (schemas : Schemas)
    (data : kwargs) (p : CompanyProfile.t) :
  validate_company_profile schemas data = Ok p ->
  (get "website" data = None \/ get "website" data = Some PyNone ->
   p.(CompanyProfile.website) = None)
  /\ (get "description" data = None \/ get "description" data = Some PyNone ->
      p.(CompanyProfile.description) = None)
  /\ (get "logo_url" data = None \/ get "logo_url" data = Some PyNone ->
      p.(CompanyProfile.logo_url) = None)
  /\ (get "social_links" data = None \/ get "social_links" data = Some PyNone ->
      p.(CompanyProfile.social_links) = None)
  /\ (forall text, p.(CompanyProfile.description) = Some text ->
                   (String.length text <= 2000)%nat).
Proof.
  unfold validate_company_profile. rewrite try_except_ok. intros Hnew.
  pose proof (constructed_ok _ _ (CompanyProfile_ok schemas) _ _ Hnew) as Hok.
  unfold CompanyProfile.new in Hnew. apply raise_errors_ok in Hnew.
  unfold CompanyProfile.validate in Hnew. cbn [model] in Hnew.
  apply and_then_valid in Hnew as (self & Hf & Hv). injection Hv as <-.
  unfold CompanyProfile.fields in Hf. fields_inv Hf. cbn.
  repeat split;
    try (intros [Hg|Hg];
         match goal with
         | Hx : field _ ?name _ _ = Valid ?x, Hg : get ?name _ = None |- ?x = None =>
             exact (field_absent_inv _ _ _ _ _ Hg Hx)
         | Hx : field _ ?name _ _ = Valid ?x, Hg : get ?name _ = Some PyNone
           |- ?x = None =>
             exact (field_None_inv _ _ _ _ _ Hg Hx)
         end).
  intros text Ht. unfold CompanyProfile_ok in Hok. cbn in Hok. split_ok Hok.
  rewrite Ht in Hok. unfold optional_ok, str_within in Hok.
  rewrite andb_true_r in Hok. now apply Nat.leb_le.
Qed.

(** The profile of the test suite without its optional keys. *)
Lemma CompanyProfile_optional_fields_witness :
  exists p,
    @validate_company_profile strict_runtime the_schemas
      (company_profile_data "TechStartup Inc" 2020) = Ok p
    /\ p.(CompanyProfile.website) = None
    /\ p.(CompanyProfile.social_links) = None.
Proof.
  exists (company_profile "TechStartup Inc" 2020).
  assert (E : @validate_company_profile strict_runtime the_schemas
                (company_profile_data "TechStartup Inc" 2020)
              = Ok (company_profile "TechStartup Inc" 2020)) by reflexivity.
  destruct (@CompanyProfile_optional_fields strict_runtime _ _ _ E)
    as (Hw & _ & _ & Hs & _).
  split; [exact E|]. split; [apply Hw | apply Hs]; left; reflexivity.
Defined.

(** X15: company profiles go round. Within one process (the bound of
    [founded_year] is the one fixed at import), and provided that validated
    URLs pass the validation of URLs unchanged, the profiles that
    [validate_company_profile] can return are exactly the records within the
    constraints of the class, and the serialised form of a returned profile
    validates to that profile. *)
Theorem CompanyProfile_round_trip `{Runtime} (Hurl : ValidUrls)
    (schemas : Schemas) :
  (forall p,
      CompanyProfile_ok schemas p = true
      <-> exists data, validate_company_profile schemas data = Ok p)
  /\ (forall data p,
        validate_company_profile schemas data = Ok p ->
        validate_company_profile schemas (CompanyProfile.model_dump p) = Ok p).
Proof.
  unfold validate_company_profile. split.
  - intros p.
    rewrite (instances "CompanyProfile" (CompanyProfile.validate schemas)
               CompanyProfile.model_dump (CompanyProfile_ok schemas)).
    split; intros [data Hd]; exists data;
      [rewrite try_except_ok | rewrite try_except_ok in Hd]; exact Hd.
  - intros data p. rewrite !try_except_ok.
    exact (reconstructed "CompanyProfile" (CompanyProfile.validate schemas)
             CompanyProfile.model_dump (CompanyProfile_ok schemas) data p).
Qed.

(** The profile of the test suite: its document lacks the optional keys,
    its serialised form gives them as [None], and both validate to it. *)
Lemma CompanyProfile_round_trip_witness :
  @validate_company_profile strict_runtime the_schemas
    (company_profile_data "TechStartup Inc" 2020)
  = Ok (company_profile "TechStartup Inc" 2020)
  /\ @validate_company_profile strict_runtime the_schemas
       (CompanyProfile.model_dump (company_profile "TechStartup Inc" 2020))
     = Ok (company_profile "TechStartup Inc" 2020).
Proof.
  split; [reflexivity|].
  apply (proj2 (@CompanyProfile_round_trip strict_runtime (fun u => eq_refl)
                  the_schemas)
           (company_profile_data "TechStartup Inc" 2020)).
  reflexivity.
Defined.

(** * Deal memos *)

(** X16: the three flat parts of a deal memo. The instances of
    [DealMemoSummary], [BenchmarkComparison] and [DealMemoMetadata] are the
    records within the declared constraints; in particular a constructed
    summary has a signal score between 0 and 100 and a confidence level
    between 0 and 1, a constructed comparison a percentile between 0 and
    100, and constructed metadata a processing time that is not negative
    and a data quality between 0 and 1. *)
Theorem deal_memo_parts_instances `{Runtime} :
  (forall s, DealMemoSummary_ok s = true
             <-> exists data, DealMemoSummary.new data = Ok s)
  /\ (forall c, BenchmarkComparison_ok c = true
                <-> exists data, BenchmarkComparison.new data = Ok c)
  /\ (forall m, DealMemoMetadata_ok m = true
                <-> exists data, DealMemoMetadata.new data = Ok m)
  /\ (forall data s,
        DealMemoSummary.new data = Ok s ->
        (0 <=? s.(DealMemoSummary.signal_score))%float = true
        /\ (s.(DealMemoSummary.signal_score) <=? 100)%float = true
        /\ (0 <=? s.(DealMemoSummary.confidence_level))%float = true
        /\ (s.(DealMemoSummary.confidence_level) <=? 1)%float = true)
  /\ (forall data c,
        BenchmarkComparison.new data = Ok c ->
        (0 <=? c.(BenchmarkComparison.percentile))%float = true
        /\ (c.(BenchmarkComparison.percentile) <=? 100)%float = true)
  /\ (forall data m,
        DealMemoMetadata.new data = Ok m ->
        (0 <=? m.(DealMemoMetadata.processing_time))%float = true
        /\ (0 <=? m.(DealMemoMetadata.data_quality))%float = true
        /\ (m.(DealMemoMetadata.data_quality) <=? 1)%float = true).
Proof.
  split; [|split; [|split; [|split; [|split]]]].
  - exact (instances "DealMemoSummary" DealMemoSummary.validate
             DealMemoSummary.model_dump DealMemoSummary_ok).
  - exact (instances "BenchmarkComparison" BenchmarkComparison.validate
             BenchmarkComparison.model_dump BenchmarkComparison_ok).
  - exact (instances "DealMemoMetadata" DealMemoMetadata.validate
             DealMemoMetadata.model_dump DealMemoMetadata_ok).
  - intros data s Hnew. apply (constructed_ok _ _ DealMemoSummary_ok) in Hnew.
    unfold DealMemoSummary_ok in Hnew. split_ok Hnew.
    repeat match goal with
           | F : float_within _ _ = true |- _ =>
               unfold float_within in F; float_consts; split_ok F
           end.
    repeat split; assumption.
  - intros data c Hnew. apply (constructed_ok _ _ BenchmarkComparison_ok) in Hnew.
    unfold BenchmarkComparison_ok in Hnew. split_ok Hnew.
    repeat match goal with
           | F : float_within _ _ = true |- _ =>
               unfold float_within in F; float_consts; split_ok F
           end.
    repeat split; assumption.
  - intros data m Hnew. apply (constructed_ok _ _ DealMemoMetadata_ok) in Hnew.
    unfold DealMemoMetadata_ok in Hnew. split_ok Hnew.
    repeat match goal with
           | F : float_within _ _ = true |- _ =>
               unfold float_within in F; float_consts; split_ok F
           end.
    repeat split; assumption.
Qed.

(** X17: deal memos go round. The memos that [validate_deal_memo] can
    return are exactly the records every part of which is within the
    constraints of its class, and the serialised form of a returned memo
    validates to that memo. *)
Theorem validate_deal_memo_round_trip `{Runtime} :
  (forall memo,
      DealMemo_ok memo = true <-> exists data, validate_deal_memo data = Ok memo)
  /\ (forall data memo,
        validate_deal_memo data = Ok memo ->
        validate_deal_memo (DealMemo.model_dump memo) = Ok memo)
  /\ (forall data memo,
        validate_deal_memo data = Ok memo ->
        let m := memo.(DealMemo.aegis_deal_memo) in
        DealMemoSummary_ok m.(AegisDealMemo.summary) = true
        /\ forallb BenchmarkComparison_ok m.(AegisDealMemo.key_benchmarks) = true
        /\ GrowthPotential_ok m.(AegisDealMemo.growth_potential) = true
        /\ RiskAssessment_ok m.(AegisDealMemo.risk_assessment) = true
        /\ InvestmentRecommendation_ok m.(AegisDealMemo.investment_recommendation) = true
        /\ AnalysisWeightings_ok m.(AegisDealMemo.analysis_weightings) = true
        /\ DealMemoMetadata_ok m.(AegisDealMemo.metadata) = true).
Proof.
  unfold validate_deal_memo. split; [|split].
  - intros memo.
    rewrite (instances "DealMemo" DealMemo.validate DealMemo.model_dump DealMemo_ok).
    split; intros [data Hd]; exists data;
      [rewrite try_except_ok | rewrite try_except_ok in Hd]; exact Hd.
  - intros data memo. rewrite !try_except_ok.
    exact (reconstructed "DealMemo" DealMemo.validate DealMemo.model_dump
             DealMemo_ok data memo).
  - intros data memo. rewrite try_except_ok. intros Hnew. cbv zeta.
    apply (constructed_ok _ _ DealMemo_ok) in Hnew.
    unfold DealMemo_ok, AegisDealMemo_ok in Hnew.
    split_ok Hnew. repeat split; assumption.
Qed.

(** The memo of the test suite validates, and its serialised form validates
    to the same memo. *)
Lemma validate_deal_memo_round_trip_witness :
  exists memo,
    @validate_deal_memo strict_runtime (deal_memo_data 85 10000000 25) = Ok memo
    /\ @validate_deal_memo strict_runtime (DealMemo.model_dump memo) = Ok memo.
Proof.
  destruct (@validate_deal_memo strict_runtime (deal_memo_data 85 10000000 25))
    as [memo|e] eqn:E; [|vm_compute in E; discriminate E].
  exists memo. split; [reflexivity|].
  exact (proj1 (proj2 (@validate_deal_memo_round_trip strict_runtime)) _ memo E).
Defined.

(** The summary of the memo of the test suite. *)
Lemma deal_memo_parts_instances_witness :
  exists s,
    @DealMemoSummary.new strict_runtime
      [("company_name", PyStr "TechStartup Inc");
       ("one_liner", PyStr "Revolutionary AI platform for enterprise automation");
       ("sector", PyStr "Enterprise Software");
       ("stage", PyStr "series-a");
       ("signal_score", PyFloat 85);
       ("recommendation", PyStr "buy");
       ("confidence_level", PyFloat 0.9);
       ("last_updated", PyDatetime a_datetime)] = Ok s
    /\ (s.(DealMemoSummary.signal_score) <=? 100)%float = true.
Proof.
  match goal with
  | |- exists s, ?new = Ok s /\ _ => destruct new as [s|e] eqn:E
  end; [|vm_compute in E; discriminate E].
  exists s. split; [reflexivity|].
  exact (proj1 (proj2 (proj1 (proj2 (proj2 (proj2
           (@deal_memo_parts_instances strict_runtime)))) _ s E))).
Defined.

(** * Missing keys *)

Section MissingFacts.
Context `{Runtime}.

(** A violation of the construction is a record of
    [get_validation_errors]. *)
Lemma reported {T} (title : string) (fields : kwargs -> V T)
    (after : T -> checked T) (data : kwargs) (x : ErrorDetails) :
  In x (violations (fields data)) ->
  exists records,
    get_validation_errors
      (fun data => raise_errors title (model title fields after (PyDict data)))
      data = Ok records
    /\ In (error_dict x) records
    /\ List.length records = List.length (violations (fields data)).
Proof.
  intros Hin. rewrite get_validation_errors_unfold.
  destruct (model_raises title fields after data x Hin)
    as (e & es & -> & He & Hin').
  eexists. split; [reflexivity|]. split.
  - now apply in_map.
  - now rewrite length_map, He.
Qed.

End MissingFacts.

(** X18: a required key that the document lacks is reported. For each of
    the three entities with an entry point, and each of its required keys,
    [get_validation_errors] on a document without that key returns a list
    which holds the record of the missing field: type [missing], the key as
    location, the message "Field required" and the document as input. All
    the missing keys are reported together, since all fields are validated. *)
Theorem missing_keys_reported `{Runtime} (schemas : Schemas)
    (data : kwargs) (name : string) :
  get name data = None ->
  (In name ["id"; "created_at"; "updated_at"; "aegis_deal_memo"] ->
   exists records,
     get_validation_errors DealMemo.new data = Ok records
     /\ In (error_dict (missing name data)) records)
  /\ (In name ["id"; "created_at"; "updated_at"; "name"; "one_liner"; "sector";
               "stage"; "founded_year"; "location"] ->
      exists records,
        get_validation_errors (CompanyProfile.new schemas) data = Ok records
        /\ In (error_dict (missing name data)) records)
  /\ (In name ["id"; "created_at"; "updated_at"; "revenue"; "traction"; "team";
               "funding"; "extraction_timestamp"; "source_documents";
               "confidence"] ->
      exists records,
        get_validation_errors InvestmentMetrics.new data = Ok records
        /\ In (error_dict (missing name data)) records).
Proof.
  intros Hget. split; [|split]; intros Hin.
  - destruct (reported "DealMemo" DealMemo.fields no_validator data
                (missing name data)) as (records & Hr & Hm & _);
      [|exists records; split; [exact Hr | exact Hm]].
    unfold DealMemo.fields, BaseEntity.fields. collect_violations.
    cbn [In] in Hin.
    repeat (destruct Hin as [<-|Hin];
            [rewrite (field_missing data _ _ Hget); cbn [In]; tauto|]).
    destruct Hin.
  - destruct (reported "CompanyProfile" (CompanyProfile.fields schemas)
                no_validator data (missing name data))
      as (records & Hr & Hm & _);
      [|exists records; split; [exact Hr | exact Hm]].
    unfold CompanyProfile.fields, BaseEntity.fields. collect_violations.
    cbn [In] in Hin.
    repeat (destruct Hin as [<-|Hin];
            [rewrite (field_missing data _ _ Hget); cbn [In]; tauto|]).
    destruct Hin.
  - destruct (reported "InvestmentMetrics" InvestmentMetrics.fields
                no_validator data (missing name data))
      as (records & Hr & Hm & _);
      [|exists records; split; [exact Hr | exact Hm]].
    unfold InvestmentMetrics.fields, BaseEntity.fields. collect_violations.
    cbn [In] in Hin.
    repeat (destruct Hin as [<-|Hin];
            [rewrite (field_missing data _ _ Hget); cbn [In]; tauto|]).
    destruct Hin.
Qed.

(** The empty document lacks the key [aegis_deal_memo]. *)
Lemma missing_keys_reported_witness :
  exists records,
    @get_validation_errors strict_runtime _ (@DealMemo.new strict_runtime) []
    = Ok records
    /\ In (error_dict (missing "aegis_deal_memo" [])) records.
Proof.
  apply (proj1 (@missing_keys_reported strict_runtime the_schemas []
                  "aegis_deal_memo" eq_refl)).
  cbn. tauto.
Defined.

(** * Normalisation, composed with itself *)

Lemma sum_times (k : Qc) (values : list Qc) (acc : Qc) :
  fold_left Qcplus (map (fun v => k * v) values) (k * acc)
  = (k * fold_left Qcplus values acc)%Qc.
Proof.
  revert acc. induction values as [|v values IH]; intros acc;
    cbn [map fold_left]; [reflexivity|].
  rewrite <- IH. f_equal. ring.
Qed.

Lemma normalize_weightings_total (weightings r : list (string * Qc)) :
  normalize_weightings weightings = Ok r -> sum (map snd weightings) <> 0%Qc.
Proof.
  rewrite normalize_weightings_unfold.
  cbn [num_eqb num_of_int Number_Fraction]. unfold Qc_eq_bool.
  change (Q2Qc (inject_Z 0)) with 0%Qc.
  destruct (Qc_eq_dec _ _) as [E|E]; [discriminate|]. now intros _.
Qed.

(** X19: in exact arithmetic ([fractions.Fraction]), normalising is
    idempotent and does not depend on the scale of the weights: normalised
    weights sum to 100 and normalise to themselves, and the weights
    multiplied by any nonzero factor normalise to the same result. *)
Theorem normalize_weightings_idempotent
    (weightings normalized : list (string * Qc)) :
  normalize_weightings weightings = Ok normalized ->
  sum (map snd normalized) = Q2Qc (inject_Z 100)
  /\ normalize_weightings normalized = Ok normalized
  /\ forall k : Qc,
       k <> 0%Qc ->
       normalize_weightings (map (fun kv => (fst kv, (k * snd kv)%Qc)) weightings)
       = Ok normalized.
Proof.
  intros Hn. pose proof (normalize_weightings_total _ _ Hn) as Hnz.
  destruct (normalize_weightings_exact weightings Hnz) as [Hr Hsum].
  rewrite Hr in Hn. injection Hn as <-.
  set (total := sum (map snd weightings)) in *.
  set (hundred := Q2Qc (inject_Z 100)) in *.
  assert (Hh : hundred <> 0%Qc) by discriminate.
  split; [exact Hsum|]. split.
  - match goal with
    | |- normalize_weightings ?r = _ =>
        assert (Hnz' : sum (map snd r) <> 0%Qc) by (now rewrite Hsum);
        destruct (normalize_weightings_exact r Hnz') as [-> _]
    end.
    f_equal. rewrite Hsum. fold hundred.
    rewrite map_map. apply map_ext. intros [key value]. cbn [fst snd].
    f_equal. field. split; assumption.
  - intros k Hk.
    assert (Hs : sum (map snd (map (fun kv => (fst kv, (k * snd kv)%Qc)) weightings))
                 = (k * total)%Qc).
    { rewrite map_map. cbn [snd]. unfold sum, total.
      cbn [num_add num_of_int Number_Fraction].
      change (Q2Qc (inject_Z 0)) with 0%Qc.
      rewrite <- (map_map snd (fun v => (k * v)%Qc)).
      replace 0%Qc with (k * 0)%Qc at 1 by ring.
      apply sum_times. }
    assert (Hkt : (k * total)%Qc <> 0%Qc).
    { intros E. apply Qcmult_integral in E. tauto. }
    match goal with
    | |- normalize_weightings ?w = _ =>
        assert (Hnz' : sum (map snd w) <> 0%Qc) by (now rewrite Hs);
        destruct (normalize_weightings_exact w Hnz') as [-> _]
    end.
    f_equal. rewrite Hs. fold hundred. rewrite map_map.
    apply map_ext. intros [key value]. cbn [fst snd]. f_equal.
    field. split; assumption.
Qed.

(** Three equal weights: each is normalised to 100/3, and the result
    normalises to itself. *)
Lemma normalize_weightings_idempotent_witness :
  exists normalized : list (string * Qc),
    normalize_weightings
      [("team", Q2Qc 1); ("traction", Q2Qc 1); ("product", Q2Qc 1)]
    = Ok normalized
    /\ map fst normalized = ["team"; "traction"; "product"]
    /\ normalize_weightings normalized = Ok normalized.
Proof.
  assert (Hnz : sum (map snd [("team", Q2Qc 1); ("traction", Q2Qc 1);
                              ("product", Q2Qc 1)]) <> 0%Qc)
    by (intros E; apply (f_equal this) in E; vm_compute in E; discriminate E).
  destruct (normalize_weightings_exact _ Hnz) as [Hr _].
  eexists. split; [exact Hr|]. split; [reflexivity|].
  exact (proj1 (proj2 (normalize_weightings_idempotent _ _ Hr))).
Defined.

(** * Normalisation of weights that are not numbers *)

Lemma is_nan_Prim2SF (x : float) :
  is_nan x = true <-> Prim2SF x = S754_nan.
Proof.
  unfold is_nan. rewrite negb_true_iff, FloatAxioms.eqb_spec. unfold SFeqb.
  destruct (Prim2SF x) as [[]|[]| |[] m e]; cbn; try easy;
    now rewrite Z.compare_refl, Pos.compare_cont_refl.
Qed.

Lemma is_nan_eq (x : float) : is_nan x = true <-> x = nan.
Proof.
  rewrite is_nan_Prim2SF. split; [|now intros ->].
  intros E. rewrite <- (SF2Prim_Prim2SF x), E. reflexivity.
Qed.

Lemma add_nan_l (y : float) : (nan + y)%float = nan.
Proof.
  apply is_nan_eq, is_nan_Prim2SF. rewrite FloatAxioms.add_spec.
  change (Prim2SF nan) with S754_nan. reflexivity.
Qed.

Lemma add_nan_r (x : float) : (x + nan)%float = nan.
Proof.
  apply is_nan_eq, is_nan_Prim2SF. rewrite FloatAxioms.add_spec.
  change (Prim2SF nan) with S754_nan. now destruct (Prim2SF x) as [[]|[]| |].
Qed.

Lemma div_nan_r (x : float) : (x / nan)%float = nan.
Proof.
  apply is_nan_eq, is_nan_Prim2SF. rewrite FloatAxioms.div_spec.
  change (Prim2SF nan) with S754_nan. now destruct (Prim2SF x) as [[]|[]| |].
Qed.

Lemma fold_add_nan (values : list float) : fold_left PrimFloat.add values nan = nan.
Proof.
  induction values as [|v values IH]; [reflexivity|].
  cbn [fold_left]. now rewrite add_nan_l.
Qed.

Lemma sum_nan (values : list float) :
  existsb is_nan values = true -> sum values = nan.
Proof.
  unfold sum. cbn [num_add num_of_int Number_float].
  generalize (float_of_Z 0). induction values as [|v values IH]; intros acc;
    [discriminate|].
  cbn [existsb fold_left]. intros Hn. apply orb_true_iff in Hn as [Hv|Hn].
  - apply is_nan_eq in Hv as ->. rewrite add_nan_r. apply fold_add_nan.
  - now apply IH.
Qed.

(** X20: weights that are not numbers pass through. When one of the weights
    is NaN, their sum is NaN, which is not equal to zero: the function does
    not raise, and it returns the same keys, in the same order, each with
    the value NaN. *)
Theorem normalize_weightings_nan (weightings : list (string * float)) :
  existsb is_nan (map snd weightings) = true ->
  normalize_weightings weightings
  = Ok (map (fun kv => (fst kv, nan)) weightings).
Proof.
  intros Hn. rewrite normalize_weightings_unfold. rewrite (sum_nan _ Hn).
  cbn [num_eqb num_of_int num_mul num_div Number_float].
  change (nan =? float_of_Z 0)%float with false. cbv iota.
  f_equal. apply map_ext. intros [key value]. cbn [fst snd].
  now rewrite div_nan_r.
Qed.

(** The weights 30 and NaN. *)
Lemma normalize_weightings_nan_witness :
  normalize_weightings [("team", 30%float); ("product", nan)]
  = Ok [("team", nan); ("product", nan)].
Proof.
  apply (normalize_weightings_nan [("team", 30%float); ("product", nan)]).
  reflexivity.
Defined.

(** * Default weights *)

(** X21: the defaults of [AnalysisWeightings]. Absent weights take the
    defaults 25, 25, 20, 15 and 15, which sum to 100, so the empty document
    is accepted; the rule on the sum applies to the weights completed by
    the defaults: a document that gives [market_opportunity] alone is
    accepted exactly when that weight lies between 0 and 100 and, added to
    the four other defaults, gives 100 within 0.01. *)
Theorem AnalysisWeightings_defaults `{Runtime} :
  AnalysisWeightings.new [] = Ok (weights 25 25 20 15 15)
  /\ (forall x : float,
        is_ok (AnalysisWeightings.new [("market_opportunity", PyFloat x)])
        = weight_in_range x
          && negb (0.01 <? abs (x + 25 + 20 + 15 + 15 - 100))%float)
  /\ (forall x w,
        AnalysisWeightings.new [("market_opportunity", PyFloat x)] = Ok w ->
        w = weights x 25 20 15 15).
Proof.
  assert (Hnew : forall x,
    AnalysisWeightings.new [("market_opportunity", PyFloat x)]
    = raise_errors "AnalysisWeightings"
        (and_then (at_loc (Key "market_opportunity")
                     (check_float [ge 0; le 100] (PyFloat x) x))
           (fun a => run_validator
                       (PyDict [("market_opportunity", PyFloat x)])
                       (AnalysisWeightings.validate_weightings_sum
                          (weights a 25 20 15 15))))).
  { intros x. unfold AnalysisWeightings.new, AnalysisWeightings.validate,
      AnalysisWeightings.fields, field. cbn.
    now destruct (check_float _ _ x). }
  split; [reflexivity|]. split.
  - intros x. rewrite Hnew. unfold weight_in_range.
    destruct (check_float [ge 0; le 100] (PyFloat x) x) as [a|e es] eqn:E.
    + apply check_float_valid in E as [-> E]. unfold float_within in E.
      float_consts. split_ok E. rewrite_facts. cbn [at_loc and_then andb].
      unfold AnalysisWeightings.validate_weightings_sum,
        AnalysisWeightings.total, weights. cbn.
      now destruct (0.01 <? _)%float.
    + cbn. symmetry. apply not_true_is_false. intros Hok.
      apply andb_true_iff in Hok as [Hr _].
      rewrite check_float_intro in E; [discriminate|].
      unfold float_within. float_consts.
      apply andb_true_iff in Hr as [-> ->]. reflexivity.
  - intros x w. rewrite Hnew.
    destruct (check_float [ge 0; le 100] (PyFloat x) x) as [a|e es] eqn:E;
      [|discriminate].
    apply check_float_valid in E as [-> _]. cbn [at_loc and_then].
    unfold AnalysisWeightings.validate_weightings_sum.
    destruct (0.01 <? _)%float; [discriminate|]. now intros [= <-].
Qed.

(** Only the default of [market_opportunity] goes with the other defaults:
    25 is accepted, 30 is not. *)
Lemma AnalysisWeightings_defaults_witness :
  @AnalysisWeightings.new strict_runtime [("market_opportunity", PyFloat 25)]
  = Ok (weights 25 25 20 15 15)
  /\ is_ok (@AnalysisWeightings.new strict_runtime
              [("market_opportunity", PyFloat 30)]) = false.
Proof.
  split; [|reflexivity].
  destruct (@AnalysisWeightings.new strict_runtime
              [("market_opportunity", PyFloat 25)]) as [w|e] eqn:E;
    [|vm_compute in E; discriminate E].
  now rewrite (proj2 (proj2 (@AnalysisWeightings_defaults strict_runtime)) _ w E).
Defined.

(** * Keys that name no field *)

Section DeclaredKeys.
Context `{Runtime}.

(** A valid field reads the value under its own name and nothing else. *)
Lemma field_same_key {A} (data data' : kwargs) (name : string)
    (dflt : option A) (val : Any -> V A) (x : A) :
  get name data' = get name data ->
  field data name dflt val = Valid x -> field data' name dflt val = Valid x.
Proof.
  unfold field. intros ->. destruct (get name data); [easy|].
  now destruct dflt.
Qed.

Lemma BaseEntity_fields_same_keys (data data' : kwargs) (e : BaseEntity.t) :
  (forall name, In name ["id"; "created_at"; "updated_at"] ->
                get name data' = get name data) ->
  BaseEntity.fields data = Valid e -> BaseEntity.fields data' = Valid e.
Proof.
  intros Hk Hf. unfold BaseEntity.fields in *. fields_inv Hf.
  repeat match goal with
         | Hx : field data ?name _ _ = Valid _ |- _ =>
             apply (field_same_key data data') in Hx;
             [rewrite Hx; clear Hx | apply Hk; cbn; tauto]
         end.
  reflexivity.
Qed.

End DeclaredKeys.

(** Rebuilds, on another document that agrees on the declared keys, the
    instance that the fields of a document give. *)
Ltac same_keys Hk :=
  repeat match goal with
         | Hx : field ?data ?name _ _ = Valid _ |- context [field ?data' ?name] =>
             apply (field_same_key data data') in Hx;
             [rewrite Hx; clear Hx | apply Hk; cbn; tauto]
         | Hx : BaseEntity.fields ?data = Valid _
           |- context [BaseEntity.fields ?data'] =>
             apply (BaseEntity_fields_same_keys data data') in Hx;
             [rewrite Hx; clear Hx | intros ? ?; apply Hk; cbn in *; tauto]
         end.

(** X22: the entry points read the declared keys only. Two documents that
    give the same value, or both none, under every key declared by the
    class validate to the same entity when the first validates; so a key
    that names no field is ignored, and the order of the keys does not
    matter. *)
Theorem entry_points_read_declared_keys `{Runtime} (schemas : Schemas)
    (data data' : kwargs) :
  (forall memo,
      (forall name, In name ["id"; "created_at"; "updated_at"; "aegis_deal_memo"] ->
                    get name data' = get name data) ->
      validate_deal_memo data = Ok memo -> validate_deal_memo data' = Ok memo)
  /\ (forall p,
        (forall name,
            In name ["id"; "created_at"; "updated_at"; "name"; "one_liner";
                     "sector"; "stage"; "founded_year"; "location"; "website";
                     "description"; "logo_url"; "social_links"] ->
            get name data' = get name data) ->
        validate_company_profile schemas data = Ok p ->
        validate_company_profile schemas data' = Ok p)
  /\ (forall m,
        (forall name,
            In name ["id"; "created_at"; "updated_at"; "revenue"; "traction";
                     "team"; "funding"; "extraction_timestamp";
                     "source_documents"; "confidence"] ->
            get name data' = get name data) ->
        validate_investment_metrics data = Ok m ->
        validate_investment_metrics data' = Ok m)
  /\ (forall key value name,
        name <> key -> get name ((key, value) :: data) = get name data).
Proof.
  split; [|split; [|split]].
  - intros memo Hk. unfold validate_deal_memo. rewrite !try_except_ok.
    unfold DealMemo.new. rewrite !raise_errors_ok.
    unfold DealMemo.validate. cbn [model]. intros Hv.
    apply and_then_valid in Hv as (self & Hf & Hv). injection Hv as <-.
    unfold DealMemo.fields in *. fields_inv Hf. same_keys Hk. reflexivity.
  - intros p Hk. unfold validate_company_profile. rewrite !try_except_ok.
    unfold CompanyProfile.new. rewrite !raise_errors_ok.
    unfold CompanyProfile.validate. cbn [model]. intros Hv.
    apply and_then_valid in Hv as (self & Hf & Hv). injection Hv as <-.
    unfold CompanyProfile.fields in *. fields_inv Hf. same_keys Hk. reflexivity.
  - intros m Hk. unfold validate_investment_metrics. rewrite !try_except_ok.
    unfold InvestmentMetrics.new. rewrite !raise_errors_ok.
    unfold InvestmentMetrics.validate. cbn [model]. intros Hv.
    apply and_then_valid in Hv as (self & Hf & Hv). injection Hv as <-.
    unfold InvestmentMetrics.fields in *. fields_inv Hf. same_keys Hk.
    reflexivity.
  - intros key value name Hne. cbn [get].
    destruct (String.eqb_spec name key); [contradiction | reflexivity].
Qed.

(** The profile of the test suite with a key that names no field. *)
Lemma entry_points_read_declared_keys_witness :
  @validate_company_profile strict_runtime the_schemas
    (("ticker", PyStr "TSI") :: company_profile_data "TechStartup Inc" 2020)
  = Ok (company_profile "TechStartup Inc" 2020).
Proof.
  apply (proj1 (proj2 (@entry_points_read_declared_keys strict_runtime the_schemas
                         (company_profile_data "TechStartup Inc" 2020)
                         (("ticker", PyStr "TSI")
                          :: company_profile_data "TechStartup Inc" 2020)))).
  - intros name Hin. cbn in Hin.
    repeat (destruct Hin as [<-|Hin]; [reflexivity|]). destruct Hin.
  - reflexivity.
Defined.

(** * URLs that do not validate *)

(** X23: a website or a logo address that the validation of URLs refuses
    makes the profile invalid, whatever the other keys: the construction
    raises, [validate_company_profile] raises a [ValueError] whose message
    starts with "Company profile validation failed: ", and
    [get_validation_errors] returns a list that is not empty. *)
Theorem CompanyProfile_invalid_url `{Runtime} (schemas : Schemas)
    (data : kwargs) (key : string) (v : Any) :
  In key ["website"; "logo_url"] ->
  get key data = Some v -> v <> PyNone -> http_url v = None ->
  is_ok (CompanyProfile.new schemas data) = false
  /\ (exists m,
        validate_company_profile schemas data = Raise (ValueError m)
        /\ String.prefix "Company profile validation failed: " m = true)
  /\ (exists record records,
        get_validation_errors (CompanyProfile.new schemas) data
        = Ok (record :: records)).
Proof.
  intros Hin Hget Hv Hurl.
  assert (Hx : In (under (Key key)
                     {| type_ := fst (url_refusal v); loc := [];
                        msg := snd (url_refusal v); input := v |})
                  (violations (CompanyProfile.fields schemas data))).
  { unfold CompanyProfile.fields. collect_violations.
    cbn [In] in Hin. destruct Hin as [<-|[<-|[]]];
      rewrite (field_present_violations _ _ _ _ _ Hget);
      unfold Optional, HttpUrl; rewrite Hurl;
      destruct v; try (now elim Hv); cbn; tauto. }
  destruct (model_raises "CompanyProfile" (CompanyProfile.fields schemas)
              no_validator data _ Hx) as (e & es & Hr & _ & _).
  change (raise_errors _ _) with (CompanyProfile.new schemas data) in Hr.
  split; [now rewrite Hr|]. split.
  - unfold validate_company_profile. rewrite Hr. cbn [try_except].
    eexists. split; [reflexivity|]. apply prefix_app.
  - rewrite get_validation_errors_unfold, Hr. cbn [map]. eauto.
Qed.

(** The test of the suite on an invalid website, with the text
    "not-a-url", which the runtime of the examples does not take for a
    URL. *)
Lemma CompanyProfile_invalid_url_witness :
  is_ok (@CompanyProfile.new strict_runtime the_schemas
           (("website", PyStr "not-a-url")
            :: company_profile_data "TechStartup Inc" 2020)) = false.
Proof.
  apply (@CompanyProfile_invalid_url strict_runtime the_schemas
           (("website", PyStr "not-a-url")
            :: company_profile_data "TechStartup Inc" 2020)
           "website" (PyStr "not-a-url"));
    [cbn; tauto | reflexivity | discriminate | reflexivity].
Defined.

(** * Violations inside nested blocks *)

Section NestedFacts.
Context `{Runtime}.

(** A violation of the fields of a block is a violation of the block. *)
Lemma model_field_violations {A} (title : string) (fields : kwargs -> V A)
    (after : A -> checked A) (block : kwargs) (x : ErrorDetails) :
  In x (violations (fields block)) ->
  In x (violations (model title fields after (PyDict block))).
Proof. cbn [model]. now destruct (fields block). Qed.

(** A violation of the value of a key is a violation of the field, located
    under the key. *)
Lemma nested_violation {A} (data : kwargs) (name : string) (dflt : option A)
    (val : Any -> V A) (v : Any) (x : ErrorDetails) :
  get name data = Some v ->
  In x (violations (val v)) ->
  In (under (Key name) x) (violations (field data name dflt val)).
Proof.
  intros Hg Hin. rewrite (field_present_violations _ _ _ _ _ Hg).
  now apply in_map.
Qed.

(** A violation of the fields of a nested block is a violation of the field
    that holds the block, located under its key. *)
Lemma block_violation {A} (data : kwargs) (name : string) (dflt : option A)
    (val : Any -> V A) (title : string) (fields : kwargs -> V A)
    (after : A -> checked A) (block : kwargs) (x : ErrorDetails) :
  val = model title fields after ->
  get name data = Some (PyDict block) ->
  In x (violations (fields block)) ->
  In (under (Key name) x) (violations (field data name dflt val)).
Proof.
  intros -> Hg Hin. apply (nested_violation _ _ _ _ _ _ Hg).
  now apply model_field_violations.
Qed.

(** A violation of the fields of an entity makes its entry point fail, and
    is among the records of [get_validation_errors]. *)
Lemma rejected_and_reported {T} (title pre : string) (fields : kwargs -> V T)
    (after : T -> checked T) (data : kwargs) (x : ErrorDetails) :
  In x (violations (fields data)) ->
  is_ok (try_except
           (raise_errors title (model title fields after (PyDict data)))
           (fun e => Raise (ValueError (pre ++ str_exn e)))) = false
  /\ exists records,
       get_validation_errors
         (fun data => raise_errors title (model title fields after (PyDict data)))
         data = Ok records
       /\ In (error_dict x) records.
Proof.
  intros Hin. split.
  - destruct (model_raises title fields after data x Hin) as (e & es & -> & _).
    reflexivity.
  - destruct (reported title fields after data x Hin) as (records & Hr & Hx & _).
    eauto.
Qed.

End NestedFacts.

(** [In x (violations (fields d))], from a violation of one of the
    fields. *)
Tactic Notation "among_fields" reference(fields) :=
  unfold fields; collect_violations; tauto.

(** X24: a number out of its bounds inside the investment metrics is
    located by the path of its keys. A team size below 1, a negative ARR,
    a churn rate above 100 and a confidence above 1 each make
    [validate_investment_metrics] fail, and each is among the records of
    [get_validation_errors], with the keys from the document down to the
    number as location, the bound in the message and the number as input. *)
Theorem InvestmentMetrics_nested_violations `{Runtime} (data block : kwargs) :
  (forall size : Z,
      get "team" data = Some (PyDict block) ->
      get "size" block = Some (PyInt size) -> (size < 1)%Z ->
      is_ok (validate_investment_metrics data) = false
      /\ exists records,
           get_validation_errors InvestmentMetrics.new data = Ok records
           /\ In (error_dict
                    {| type_ := "greater_than_equal";
                       loc := [Key "team"; Key "size"];
                       msg := "Input should be greater than or equal to 1";
                       input := PyInt size |}) records)
  /\ (forall arr : float,
        get "revenue" data = Some (PyDict block) ->
        get "arr" block = Some (PyFloat arr) -> (arr <? 0)%float = true ->
        is_ok (validate_investment_metrics data) = false
        /\ exists records,
             get_validation_errors InvestmentMetrics.new data = Ok records
             /\ In (error_dict
                      {| type_ := "greater_than_equal";
                         loc := [Key "revenue"; Key "arr"];
                         msg := "Input should be greater than or equal to 0";
                         input := PyFloat arr |}) records)
  /\ (forall churn : float,
        get "traction" data = Some (PyDict block) ->
        get "churn_rate" block = Some (PyFloat churn) ->
        (100 <? churn)%float = true ->
        is_ok (validate_investment_metrics data) = false
        /\ exists records,
             get_validation_errors InvestmentMetrics.new data = Ok records
             /\ In (error_dict
                      {| type_ := "less_than_equal";
                         loc := [Key "traction"; Key "churn_rate"];
                         msg := "Input should be less than or equal to 100";
                         input := PyFloat churn |}) records)
  /\ (forall confidence : float,
        get "confidence" data = Some (PyFloat confidence) ->
        (1 <? confidence)%float = true ->
        is_ok (validate_investment_metrics data) = false
        /\ exists records,
             get_validation_errors InvestmentMetrics.new data = Ok records
             /\ In (error_dict
                      {| type_ := "less_than_equal";
                         loc := [Key "confidence"];
                         msg := "Input should be less than or equal to 1";
                         input := PyFloat confidence |}) records).
Proof.
  split; [|split; [|split]].
  - intros size Hb Hs Hlt.
    apply (rejected_and_reported "InvestmentMetrics"
             "Investment metrics validation failed: "
             InvestmentMetrics.fields no_validator).
    assert (Hf : In {| type_ := "greater_than_equal"; loc := [Key "size"];
                       msg := "Input should be greater than or equal to 1";
                       input := PyInt size |}
                    (violations (TeamMetrics.fields block))).
    { assert (Hf : In {| type_ := "greater_than_equal"; loc := [Key "size"];
                         msg := "Input should be greater than or equal to 1";
                         input := PyInt size |}
                      (violations (field block "size" required
                                     (Int [ge 1; le 10000])))).
      { rewrite (field_present_violations _ _ _ _ _ Hs).
        unfold Int, check_int. cbn.
        destruct (size <=? 10000)%Z eqn:E1; [|apply Z.leb_gt in E1; lia].
        cbn. destruct (1 <=? size)%Z eqn:E2; [apply Z.leb_le in E2; lia|].
        cbn. tauto. }
      revert Hf. among_fields TeamMetrics.fields. }
    apply (block_violation data "team" required TeamMetrics.validate
             _ _ _ _ _ eq_refl Hb) in Hf.
    revert Hf. among_fields InvestmentMetrics.fields.
  - intros arr Hb Hs Hlt.
    apply (rejected_and_reported "InvestmentMetrics"
             "Investment metrics validation failed: "
             InvestmentMetrics.fields no_validator).
    assert (Hf : In {| type_ := "greater_than_equal"; loc := [Key "arr"];
                       msg := "Input should be greater than or equal to 0";
                       input := PyFloat arr |}
                    (violations (RevenueMetrics.fields block))).
    { assert (Hf : In {| type_ := "greater_than_equal"; loc := [Key "arr"];
                         msg := "Input should be greater than or equal to 0";
                         input := PyFloat arr |}
                      (violations (field block "arr" (default None)
                                     (Optional (Float [ge 0]))))).
      { rewrite (field_present_violations _ _ _ _ _ Hs).
        unfold Optional, Float, check_float. cbn.
        destruct (float_of_Z 0 <=? arr)%float eqn:E;
          [apply leb_not_ltb in E; float_consts; congruence|].
        cbn. tauto. }
      revert Hf. among_fields RevenueMetrics.fields. }
    apply (block_violation data "revenue" required RevenueMetrics.validate
             _ _ _ _ _ eq_refl Hb) in Hf.
    revert Hf. among_fields InvestmentMetrics.fields.
  - intros churn Hb Hs Hlt.
    apply (rejected_and_reported "InvestmentMetrics"
             "Investment metrics validation failed: "
             InvestmentMetrics.fields no_validator).
    assert (Hf : In {| type_ := "less_than_equal"; loc := [Key "churn_rate"];
                       msg := "Input should be less than or equal to 100";
                       input := PyFloat churn |}
                    (violations (TractionMetrics.fields block))).
    { assert (Hf : In {| type_ := "less_than_equal"; loc := [Key "churn_rate"];
                         msg := "Input should be less than or equal to 100";
                         input := PyFloat churn |}
                      (violations (field block "churn_rate" (default None)
                                     (Optional (Float [ge 0; le 100]))))).
      { rewrite (field_present_violations _ _ _ _ _ Hs).
        unfold Optional, Float, check_float. cbn.
        destruct (churn <=? float_of_Z 100)%float eqn:E;
          [apply leb_not_ltb in E; float_consts; congruence|].
        cbn. tauto. }
      revert Hf. among_fields TractionMetrics.fields. }
    apply (block_violation data "traction" required TractionMetrics.validate
             _ _ _ _ _ eq_refl Hb) in Hf.
    revert Hf. among_fields InvestmentMetrics.fields.
  - intros confidence Hs Hlt.
    apply (rejected_and_reported "InvestmentMetrics"
             "Investment metrics validation failed: "
             InvestmentMetrics.fields no_validator).
    assert (Hf : In {| type_ := "less_than_equal"; loc := [Key "confidence"];
                       msg := "Input should be less than or equal to 1";
                       input := PyFloat confidence |}
                    (violations (field data "confidence" required
                                   (Float [ge 0; le 1])))).
    { rewrite (field_present_violations _ _ _ _ _ Hs).
      unfold Float, check_float. cbn.
      destruct (confidence <=? float_of_Z 1)%float eqn:E;
        [apply leb_not_ltb in E; float_consts; congruence|].
      cbn. tauto. }
    revert Hf. among_fields InvestmentMetrics.fields.
Qed.

(** The test of the suite on a team of size 0. *)
Lemma InvestmentMetrics_nested_violations_witness :
  is_ok (@validate_investment_metrics strict_runtime
           (investment_metrics_data (PyInt 1000000) (PyInt 5) (PyFloat 0.85)
              0 2000000)) = false.
Proof.
  pose (block := match get "team"
                         (investment_metrics_data (PyInt 1000000) (PyInt 5)
                            (PyFloat 0.85) 0 2000000) with
                 | Some (PyDict block) => block
                 | _ => []
                 end).
  destruct (proj1 (@InvestmentMetrics_nested_violations strict_runtime
                     (investment_metrics_data (PyInt 1000000) (PyInt 5)
                        (PyFloat 0.85) 0 2000000) block) 0%Z) as [Hok _];
    [reflexivity | reflexivity | lia | exact Hok].
Defined.

(** X25: the cross-field rules of the nested parts reach the entry point of
    the memo. In a document whose revenue projection has its three years
    not negative and year 3 below year 1, or whose five weights lie between
    0 and 100 and do not sum to 100 within 0.01, [validate_deal_memo] fails,
    and the violation of the rule is among the records of
    [get_validation_errors], located by the keys that lead from the
    document to the part. *)
Theorem DealMemo_nested_rules `{Runtime} (data aegis : kwargs) :
  get "aegis_deal_memo" data = Some (PyDict aegis) ->
  (forall (growth : kwargs) (a b c : float),
      get "growth_potential" aegis = Some (PyDict growth) ->
      get "revenue_projection" growth
      = Some (PyDict (RevenueProjection.model_dump (projection a b c))) ->
      (0 <=? a)%float = true -> (0 <=? b)%float = true ->
      (0 <=? c)%float = true -> (b <? a)%float = true ->
      is_ok (validate_deal_memo data) = false
      /\ exists records,
           get_validation_errors DealMemo.new data = Ok records
           /\ In (error_dict
                    (value_error
                       [Key "aegis_deal_memo"; Key "growth_potential";
                        Key "revenue_projection"]
                       "year3 projection should not be less than year1"
                       (PyDict (RevenueProjection.model_dump (projection a b c)))))
                 records)
  /\ (forall a b c d e : float,
        get "analysis_weightings" aegis
        = Some (PyDict (AnalysisWeightings.model_dump (weights a b c d e))) ->
        weight_in_range a && weight_in_range b && weight_in_range c
        && weight_in_range d && weight_in_range e = true ->
        (0.01 <? abs (a + b + c + d + e - 100.0))%float = true ->
        is_ok (validate_deal_memo data) = false
        /\ exists records,
             get_validation_errors DealMemo.new data = Ok records
             /\ In (error_dict
                      (under (Key "aegis_deal_memo")
                         (under (Key "analysis_weightings")
                            (sum_error a b c d e))))
                   records).
Proof.
  intros Ha. split.
  - intros growth a b c Hg Hp Ha0 Hb0 Hc0 Hlt.
    apply (rejected_and_reported "DealMemo" "Deal memo validation failed: "
             DealMemo.fields no_validator).
    assert (Hf : In (value_error [] "year3 projection should not be less than year1"
                       (PyDict (RevenueProjection.model_dump (projection a b c))))
                    (violations (RevenueProjection.validate
                       (PyDict (RevenueProjection.model_dump (projection a b c)))))).
    { unfold RevenueProjection.validate, RevenueProjection.fields, field,
        RevenueProjection.validate_revenue_progression.
      cbn.
      rewrite !check_float_intro
        by (unfold float_within; float_consts; rewrite_facts; reflexivity).
      cbn. rewrite Hlt. cbn. tauto. }
    apply (nested_violation growth "revenue_projection" required _ _ _ Hp) in Hf.
    assert (Hf' : In (under (Key "revenue_projection")
                        (value_error [] "year3 projection should not be less than year1"
                           (PyDict (RevenueProjection.model_dump (projection a b c)))))
                     (violations (GrowthPotential.fields growth)))
      by (revert Hf; among_fields GrowthPotential.fields).
    apply (block_violation aegis "growth_potential" required
             GrowthPotential.validate _ _ _ _ _ eq_refl Hg) in Hf'.
    assert (Hf'' : In (under (Key "growth_potential")
                         (under (Key "revenue_projection")
                            (value_error [] "year3 projection should not be less than year1"
                               (PyDict (RevenueProjection.model_dump (projection a b c))))))
                      (violations (AegisDealMemo.fields aegis)))
      by (revert Hf'; among_fields AegisDealMemo.fields).
    apply (block_violation data "aegis_deal_memo" required
             AegisDealMemo.validate _ _ _ _ _ eq_refl Ha) in Hf''.
    revert Hf''. among_fields DealMemo.fields.
  - intros a b c d e Hw Hr Hoff.
    rewrite !andb_true_iff in Hr. destruct Hr as [[[[Ha' Hb'] Hc'] Hd'] He'].
    apply (rejected_and_reported "DealMemo" "Deal memo validation failed: "
             DealMemo.fields no_validator).
    assert (Hf : In (sum_error a b c d e)
                    (violations (AnalysisWeightings.validate
                       (PyDict (AnalysisWeightings.model_dump (weights a b c d e)))))).
    { pose proof (AnalysisWeightings_new_sum_off a b c d e Ha' Hb' Hc' Hd' He' Hoff)
        as Hnew.
      unfold AnalysisWeightings.new in Hnew.
      destruct (AnalysisWeightings.validate _) as [w|x xs]; [discriminate|].
      cbn in Hnew. injection Hnew as -> ->. cbn. tauto. }
    apply (nested_violation aegis "analysis_weightings" required _ _ _ Hw) in Hf.
    assert (Hf' : In (under (Key "analysis_weightings") (sum_error a b c d e))
                     (violations (AegisDealMemo.fields aegis)))
      by (revert Hf; among_fields AegisDealMemo.fields).
    apply (block_violation data "aegis_deal_memo" required
             AegisDealMemo.validate _ _ _ _ _ eq_refl Ha) in Hf'.
    revert Hf'. among_fields DealMemo.fields.
Qed.

(** The two tests of the suite on the memo: a projection of 1,000,000 for
    year 3 after 2,000,000 for year 1, and a first weight of 50. *)
Lemma DealMemo_nested_rules_witness :
  is_ok (@validate_deal_memo strict_runtime (deal_memo_data 85 1000000 25)) = false
  /\ is_ok (@validate_deal_memo strict_runtime (deal_memo_data 85 10000000 50))
     = false.
Proof.
  pose (part := fun (name : string) (d : kwargs) =>
                  match get name d with
                  | Some (PyDict block) => block
                  | _ => []
                  end).
  split.
  - destruct (proj1 (@DealMemo_nested_rules strict_runtime
                       (deal_memo_data 85 1000000 25)
                       (part "aegis_deal_memo" (deal_memo_data 85 1000000 25))
                       eq_refl)
                (part "growth_potential"
                   (part "aegis_deal_memo" (deal_memo_data 85 1000000 25)))
                2000000%float 1000000%float 50000000%float) as [Hok _];
      [reflexivity | reflexivity | reflexivity | reflexivity | reflexivity
      | reflexivity | exact Hok].
  - destruct (proj2 (@DealMemo_nested_rules strict_runtime
                       (deal_memo_data 85 10000000 50)
                       (part "aegis_deal_memo" (deal_memo_data 85 10000000 50))
                       eq_refl)
                50%float 25%float 20%float 15%float 15%float) as [Hok _];
      [reflexivity | reflexivity | reflexivity | exact Hok].
Defined.

(** * Violations inside a benchmark *)

Section DictFacts.
Context `{Runtime}.

Lemma get_In (key : string) (d : kwargs) (v : Any) :
  get key d = Some v -> In (key, v) d.
Proof.
  induction d as [|[k w] d IH]; cbn [get]; [discriminate|].
  destruct (String.eqb_spec key k) as [->|_].
  - intros [= ->]. now left.
  - intros Hg. right. now apply IH.
Qed.

(** A violation of the value of an entry is a violation of the dictionary,
    located under the key of the entry. *)
Lemma entry_violation {A} (val : Any -> V A) (d : kwargs) (key : string)
    (v : Any) (x : ErrorDetails) :
  In (key, v) d -> In x (violations (val v)) ->
  In (under (Key key) x) (violations (Dict_ val (PyDict d))).
Proof.
  cbn [Dict_]. induction d as [|[k w] d IH]; [intros []|].
  intros Hin Hx. cbn [each_item]. rewrite violations_vap, !violations_vmap.
  apply in_app_iff. destruct Hin as [[= -> ->]|Hin].
  - left. rewrite violations_at_loc. now apply in_map.
  - right. now apply IH.
Qed.

End DictFacts.

(** X26: the cross-field rules of the parts of a benchmark reach the
    benchmark. In a document whose time range holds two naive datetimes: if
    the range ends before it starts, and if a metric distribution whose
    fields are valid has its [max] below its [min], the construction of the
    benchmark fails, and the violation of the rule is among the records of
    [get_validation_errors], located at [time_range], and at [metrics] and
    the name of the metric, with the part as input. *)
Theorem BenchmarkData_nested_rules `{Runtime} (data range : kwargs)
    (starts ends : datetime) :
  get "time_range" data = Some (PyDict range) ->
  get "start_date" range = Some (PyDatetime starts) ->
  get "end_date" range = Some (PyDatetime ends) ->
  (datetime_ltb ends starts = true ->
   is_ok (BenchmarkData.new data) = false
   /\ exists records,
        get_validation_errors BenchmarkData.new data = Ok records
        /\ In (error_dict
                 (value_error [Key "time_range"]
                    "end_date must be after start_date" (PyDict range)))
             records)
  /\ (forall (metrics : kwargs) (name : string) (block : kwargs)
             (d : MetricDistribution.t),
        get "metrics" data = Some (PyDict metrics) ->
        get name metrics = Some (PyDict block) ->
        MetricDistribution.fields block = Valid d ->
        (d.(MetricDistribution.max) <? d.(MetricDistribution.min))%float = true ->
        is_ok (BenchmarkData.new data) = false
        /\ exists records,
             get_validation_errors BenchmarkData.new data = Ok records
             /\ In (error_dict
                      (value_error [Key "metrics"; Key name]
                         "max must be greater than or equal to min"
                         (PyDict block))) records).
Proof.
  intros Hg Hs He.
  assert (Hrej : forall x,
    In x (violations (BenchmarkData.fields data)) ->
    is_ok (BenchmarkData.new data) = false
    /\ exists records,
         get_validation_errors BenchmarkData.new data = Ok records
         /\ In (error_dict x) records).
  { intros x Hx. split.
    - destruct (model_raises "BenchmarkData" BenchmarkData.fields no_validator
                  data x Hx) as (e & es & Hr & _).
      change (raise_errors _ _) with (BenchmarkData.new data) in Hr.
      now rewrite Hr.
    - destruct (reported "BenchmarkData" BenchmarkData.fields no_validator
                  data x Hx) as (records & Hr & Hin & _).
      exists records. split; [exact Hr | exact Hin]. }
  split.
  - intros Hlt.
    apply (Hrej (under (Key "time_range")
                   (value_error [] "end_date must be after start_date"
                      (PyDict range)))).
    assert (Hf : In (value_error [] "end_date must be after start_date"
                       (PyDict range))
                    (violations (TimeRange.validate (PyDict range)))).
    { unfold TimeRange.validate, TimeRange.fields, field. cbn [model].
      rewrite Hs, He. cbn. unfold TimeRange.validate_time_range.
      cbn [TimeRange.end_date TimeRange.start_date]. rewrite Hlt. cbn. tauto. }
    apply (nested_violation data "time_range" required _ _ _ Hg) in Hf.
    revert Hf. among_fields BenchmarkData.fields.
  - intros metrics name block d Hm Hb Hd Hlt.
    apply (Hrej (under (Key "metrics")
                   (under (Key name)
                      (value_error [] "max must be greater than or equal to min"
                         (PyDict block))))).
    assert (Hf : In (value_error [] "max must be greater than or equal to min"
                       (PyDict block))
                    (violations (MetricDistribution.validate (PyDict block)))).
    { unfold MetricDistribution.validate. cbn [model]. rewrite Hd.
      cbn [and_then]. unfold MetricDistribution.validate_distribution.
      rewrite Hlt. cbn. tauto. }
    apply (entry_violation MetricDistribution.validate metrics name _ _
             (get_In _ _ _ Hb)) in Hf.
    apply (nested_violation data "metrics" required _ _ _ Hm) in Hf.
    revert Hf. among_fields BenchmarkData.fields.
Qed.

(** The two tests of the suite on the benchmark: a range that ends 35 days
    before it starts, and a distribution with a maximum of 50,000 under a
    minimum of 100,000. *)
Lemma BenchmarkData_nested_rules_witness :
  is_ok (@BenchmarkData.new strict_runtime
           (benchmark_data 100 50000000 0.8 five_weeks_earlier)) = false
  /\ is_ok (@BenchmarkData.new strict_runtime
              (benchmark_data 100 50000 0.8 a_year_later)) = false.
Proof.
  pose (part := fun (name : string) (d : kwargs) =>
                  match get name d with
                  | Some (PyDict block) => block
                  | _ => []
                  end).
  split.
  - destruct (proj1 (@BenchmarkData_nested_rules strict_runtime
                       (benchmark_data 100 50000000 0.8 five_weeks_earlier)
                       (part "time_range"
                          (benchmark_data 100 50000000 0.8 five_weeks_earlier))
                       a_datetime five_weeks_earlier
                       eq_refl eq_refl eq_refl))
      as [Hok _]; [reflexivity | exact Hok].
  - destruct (@MetricDistribution.fields strict_runtime
                (part "arr"
                   (part "metrics" (benchmark_data 100 50000 0.8 a_year_later))))
      as [d|e es] eqn:E; [|vm_compute in E; discriminate E].
    destruct (proj2 (@BenchmarkData_nested_rules strict_runtime
                       (benchmark_data 100 50000 0.8 a_year_later)
                       (part "time_range"
                          (benchmark_data 100 50000 0.8 a_year_later))
                       a_datetime a_year_later
                       eq_refl eq_refl eq_refl)
                (part "metrics" (benchmark_data 100 50000 0.8 a_year_later))
                "arr"
                (part "arr"
                   (part "metrics" (benchmark_data 100 50000 0.8 a_year_later)))
                d)
      as [Hok _];
      [reflexivity | reflexivity | exact E
      | vm_compute in E; injection E as <-; reflexivity | exact Hok].
Defined.

(** * Undeclared literals *)

(** A value that is not one of the allowed strings is a violation of the
    literal, with the allowed strings in the message. *)
Lemma Literal_violation (allowed : list string) (v : Any) :
  (forall s, v = PyStr s -> one_of_literals allowed s = false) ->
  violations (Literal allowed v)
  = [{| type_ := "literal_error"; loc := [];
        msg := "Input should be " ++ one_of allowed; input := v |}].
Proof.
  intros Hv. destruct v; try reflexivity.
  cbn [Literal]. unfold one_of_literals in Hv. now rewrite (Hv _ eq_refl).
Qed.

(** X27: the impact, the likelihood and the category of a risk flag take
    the declared literals only. Any other value, a string or not, makes the
    construction fail, and [get_validation_errors] reports it at the key,
    with the declared literals listed in the message and the value as
    input. *)
Theorem RiskFlag_undeclared_literal `{Runtime} (data : kwargs) (key : string)
    (allowed : list string) (listed : string) (v : Any) :
  In (key, allowed, listed)
     [("impact", ["low"; "medium"; "high"; "critical"],
       "'low', 'medium', 'high' or 'critical'");
      ("likelihood", ["low"; "medium"; "high"], "'low', 'medium' or 'high'");
      ("category",
       ["financial"; "market"; "team"; "product"; "competitive"; "operational"],
       "'financial', 'market', 'team', 'product', 'competitive' or 'operational'")] ->
  get key data = Some v ->
  (forall s, v = PyStr s -> one_of_literals allowed s = false) ->
  is_ok (RiskFlag.new data) = false
  /\ exists records,
       get_validation_errors RiskFlag.new data = Ok records
       /\ In (error_dict
                {| type_ := "literal_error"; loc := [Key key];
                   msg := "Input should be " ++ listed; input := v |}) records.
Proof.
  intros Hkey Hg Hv.
  assert (Hf : In {| type_ := "literal_error"; loc := [Key key];
                     msg := "Input should be " ++ one_of allowed; input := v |}
                  (violations (field data key required (Literal allowed)))).
  { rewrite (field_present_violations _ _ _ _ _ Hg), (Literal_violation _ _ Hv).
    cbn. tauto. }
  assert (Hx : In {| type_ := "literal_error"; loc := [Key key];
                     msg := "Input should be " ++ listed; input := v |}
                  (violations (RiskFlag.fields data))).
  { destruct Hkey as [E|[E|[E|[]]]]; injection E as <- <- <-;
      vm_compute one_of in Hf; revert Hf; among_fields RiskFlag.fields. }
  split.
  - destruct (model_raises "RiskFlag" RiskFlag.fields no_validator data _ Hx)
      as (e & es & Hr & _).
    change (raise_errors _ _) with (RiskFlag.new data) in Hr. now rewrite Hr.
  - destruct (reported "RiskFlag" RiskFlag.fields no_validator data _ Hx)
      as (records & Hr & Hin & _).
    exists records. split; [exact Hr | exact Hin].
Qed.

(** The test of the suite on the impact [invalid]. *)
Lemma RiskFlag_undeclared_literal_witness :
  is_ok (@RiskFlag.new strict_runtime (risk_flag_data a_description 0.9 "invalid"))
  = false.
Proof.
  destruct (@RiskFlag_undeclared_literal strict_runtime
              (risk_flag_data a_description 0.9 "invalid") "impact"
              ["low"; "medium"; "high"; "critical"]
              "'low', 'medium', 'high' or 'critical'" (PyStr "invalid"))
    as [Hok _];
    [now left | reflexivity | intros s [= <-]; reflexivity | exact Hok].
Defined.
